(** * HotspotPortal: the multi-site device-fleet orchestration layer

    A shallow embedding of [backend/services/multiSiteManager.js]
    (class [MultiSiteManager]) and of the read cache of
    [backend/services/mikrotikManager.js] (class [MikrotikManager]).

    Asynchronous methods become computations over an explicit world:
    the database tables, the clock, the wire (an oracle that answers
    every HTTP request) and the events emitted so far.  A rejected
    promise is the outcome [Throw]; [try]/[catch] is [try_catch].
    Calls to [this.logger] have no effect on any of this and are left
    out. *)

From Stdlib Require Import ZArith List String Ascii Bool Lia DecimalString.
Import ListNotations.

Open Scope Z_scope.

(* ===================================================================== *)
(** ** JavaScript values shared by both managers *)
(* ===================================================================== *)

(** [`${n}`] for an integer. *)
Definition string_of_Z (z : Z) : string :=
  NilZero.string_of_int (Z.to_int z).

(** [x || d] on a nullable number: [null], [undefined] and [0] are falsy. *)
Definition or_default (x : option Z) (d : Z) : Z :=
  match x with
  | Some v => if v =? 0 then d else v
  | None => d
  end.

(** [x || d] on a nullable string: [null], [undefined] and [''] are falsy. *)
Definition or_string (x : option string) (d : string) : string :=
  match x with
  | Some EmptyString => d
  | Some v => v
  | None => d
  end.

(** A JSON object of the vendor REST API: RouterOS answers with string
    valued properties. *)
Definition Obj := list (string * string).

Fixpoint get_field (k : string) (o : Obj) : option string :=
  match o with
  | [] => None
  | (k', v) :: rest => if String.eqb k' k then Some v else get_field k rest
  end.

(** [`${o[k]}`]: a missing property is rendered as [undefined]. *)
Definition show_field (k : string) (o : Obj) : string :=
  match get_field k o with
  | Some v => v
  | None => "undefined"
  end.

(** The body of a response, as far as the managers look into it. *)
Inductive Json :=
| JNull
| JStr (s : string)
| JObj (o : Obj)
| JArr (items : list Obj).

(** A JavaScript [Error]; only its [message] is ever read. *)
Record Error := mkError { message : string }.

(** [Array.prototype.find] with the predicate [x => x[k] === v]. *)
Definition find_by (k v : string) (items : list Obj) : option Obj :=
  find (fun o => match get_field k o with
                 | Some v' => String.eqb v' v
                 | None => false
                 end) items.

(** [data.find(x => x[k] === v)] on an arbitrary body: anything but an
    array has no callable [find] and raises a [TypeError]. *)
Definition json_find (var k v : string) (d : Json) : Error + option Obj :=
  match d with
  | JArr items => inr (find_by k v items)
  | JNull =>
      inl (mkError "Cannot read properties of null (reading 'find')")
  | _ => inl (mkError (var ++ ".find is not a function"))
  end.

(* ===================================================================== *)
(** ** The wire: axios *)
(* ===================================================================== *)

Record HttpRequest := mkRequest {
  req_method : string;
  req_url : string;
  req_username : string;
  req_password : string;
  req_data : option Obj;
  req_timeout : Z
}.

Record HttpResponse := mkResponse {
  resp_status : Z;
  resp_data : Json
}.

(** What comes back for one request: after [reply_latency] milliseconds
    the promise either rejects (time-out, refused connection, status
    outside 2xx) or resolves with a response. *)
Record HttpReply := mkReply {
  reply_latency : Z;
  reply_result : Error + HttpResponse
}.

(** The remote controllers are an oracle: the reply to a request may
    depend on every request sent before it (oldest first). *)
Definition Wire := list HttpRequest -> HttpRequest -> HttpReply.

Definition url_of (host : string) (port : Z) (path : string) : string :=
  ("http://" ++ host ++ ":" ++ string_of_Z port ++ "/rest" ++ path)%string.

(* ===================================================================== *)
(** ** Promises: state and exceptions *)
(* ===================================================================== *)

Inductive Outcome (A : Type) :=
| Value (a : A)
| Throw (e : Error).
Arguments Value {A} a.
Arguments Throw {A} e.

(** An asynchronous computation over a world [W]: it ends with a value
    or with a thrown error, and leaves a world behind. *)
Definition Promise (W A : Type) : Type := W -> Outcome A * W.

Section Promises.
Context {W : Type}.

Definition ret {A} (a : A) : Promise W A := fun w => (Value a, w).

Definition throw {A} (e : Error) : Promise W A := fun w => (Throw e, w).

Definition bind {A B} (m : Promise W A) (k : A -> Promise W B)
  : Promise W B :=
  fun w => match m w with
           | (Value a, w') => k a w'
           | (Throw e, w') => (Throw e, w')
           end.

Definition try_catch {A} (m : Promise W A) (handler : Error -> Promise W A)
  : Promise W A :=
  fun w => match m w with
           | (Value a, w') => (Value a, w')
           | (Throw e, w') => handler e w'
           end.

(** A JavaScript value that may be an exception, lifted into a promise. *)
Definition lift {A} (r : Error + A) : Promise W A :=
  match r with
  | inl e => throw e
  | inr a => ret a
  end.

End Promises.

Declare Scope promise_scope.
Delimit Scope promise_scope with promise.
Notation "x <- m ;; k" := (bind m (fun x => k))
  (at level 61, m at next level, right associativity) : promise_scope.
Notation "m ;; k" := (bind m (fun _ => k))
  (at level 61, right associativity) : promise_scope.
Open Scope promise_scope.

(** [for (const x of xs) { ... }] over a local that the body updates. *)
Fixpoint for_of {W A S} (xs : list A) (body : A -> S -> Promise W S) (acc : S)
  : Promise W S :=
  match xs with
  | [] => ret acc
  | x :: rest => acc' <- body x acc ;; for_of rest body acc'
  end.

(* ===================================================================== *)
(** ** MultiSiteManager *)
(* ===================================================================== *)

Module MultiSite.

(** *** Tables *)

(** Modelled from the spec: the table [sites], which [db/init.sql] does
    not declare.  A row is the Site of the data model (identity, name,
    location, kind, endpoint, credentials, declared caps, parent, status,
    last heartbeat) under the column names the queries of the manager
    use.  Times are in milliseconds. *)
Record SiteRow := mkSite {
  site_id : Z;
  site_name : string;
  location : string;
  site_type : string;
  router_ip : string;
  router_port : option Z;
  router_user : string;
  router_pass : string;
  api_key : string;
  bandwidth : option Z;
  max_users : option Z;
  parent_site_id : option Z;
  status : string;
  last_heartbeat : option Z;
  site_created_at : Z
}.

(** Modelled from the spec: the table [remote_users], which
    [db/init.sql] does not declare.  A row is the Provisioned User of the
    data model, the local mirror of a user created on a site, under the
    column names the queries of the manager use. *)
Record RemoteUserRow := mkRemoteUser {
  ru_site_id : Z;
  ru_username : string;
  ru_password : string;
  ru_bandwidth_limit : Z;
  ru_status : option string;
  ru_created_at : Z
}.

(** The audit table [site_api_logs], with the columns [logSiteAPICall]
    fills; [db/init.sql] does not declare it either. *)
Record ApiLogRow := mkApiLog {
  log_site_id : Z;
  log_endpoint : string;
  log_method : string;
  log_status_code : Z;
  log_created_at : Z
}.

(** Modelled from the spec: the table [site_management_tokens], which
    [db/init.sql] does not declare.  A row is the Management Token of
    the data model (site reference, secret, scope, expiry, issue time)
    under the column names the queries of the manager use. *)
Record TokenRow := mkToken {
  tok_site_id : Z;
  tok_token : string;
  tok_permissions : list string;
  tok_expires_at : Z;
  tok_created_at : Z
}.

(** The tables the manager reads and writes, rows in the order of
    insertion, and the sequence behind [sites.id]. *)
Record Db := mkDb {
  sites : list SiteRow;
  sites_seq : Z;
  remote_users : list RemoteUserRow;
  site_api_logs : list ApiLogRow;
  site_management_tokens : list TokenRow
}.

(** *** Events and the in-memory map of the manager *)

(** The row [RETURNING id, site_name, api_key, site_type] gives back. *)
Record RegisteredSite := mkRegistered {
  reg_id : Z;
  reg_site_name : string;
  reg_api_key : string;
  reg_site_type : string
}.

(** An entry of [this.sites]. *)
Record CachedSite := mkCached {
  cs_site : RegisteredSite;
  cs_routerIP : string;
  cs_routerPort : option Z;
  cs_routerUser : string;
  cs_routerPass : string
}.

(** The object [testSiteConnection] resolves to. *)
Record ConnectionStatus := mkConn {
  connected : bool;
  conn_identity : option string;
  conn_type : option string;
  conn_error : option string;
  conn_time : option Z
}.

Inductive Event :=
| SiteRegistered (site : RegisteredSite)
| SiteHeartbeat (siteId : Z) (st : ConnectionStatus).

(** *** The world *)

Record World := mkWorld {
  db : Db;
  (** What the database will do with the coming queries, in order:
      [Some m] rejects the query with message [m], [None] runs it.  Past
      the end of the list every query runs. *)
  db_faults : list (option string);
  (** [NOW()] and [new Date()], in milliseconds. *)
  clock : Z;
  wire : Wire;
  (** Every request handed to axios so far, oldest first. *)
  http_trace : list HttpRequest;
  (** [crypto.randomBytes(n).toString('hex')] for the k-th call. *)
  random_hex : nat -> nat -> string;
  random_calls : nat;
  (** [this.sites]. *)
  sites_map : list (Z * CachedSite);
  (** Events handed to [this.emit], oldest first. *)
  emitted : list Event;
  (** Timers armed with [setInterval]: site and period. *)
  timers : list (Z * Z)
}.

Definition with_db (f : Db -> Db) (w : World) : World :=
  mkWorld (f (db w)) (db_faults w) (clock w) (wire w) (http_trace w)
          (random_hex w) (random_calls w) (sites_map w) (emitted w) (timers w).

Definition with_db_faults (l : list (option string)) (w : World) : World :=
  mkWorld (db w) l (clock w) (wire w) (http_trace w)
          (random_hex w) (random_calls w) (sites_map w) (emitted w) (timers w).

Definition with_wire_step (t : Z) (r : HttpRequest) (w : World) : World :=
  mkWorld (db w) (db_faults w) (clock w + Z.max 0 t) (wire w)
          (http_trace w ++ [r])
          (random_hex w) (random_calls w) (sites_map w) (emitted w) (timers w).

Definition with_random_step (w : World) : World :=
  mkWorld (db w) (db_faults w) (clock w) (wire w) (http_trace w)
          (random_hex w) (S (random_calls w)) (sites_map w) (emitted w)
          (timers w).

Definition with_sites_map (m : list (Z * CachedSite)) (w : World) : World :=
  mkWorld (db w) (db_faults w) (clock w) (wire w) (http_trace w)
          (random_hex w) (random_calls w) m (emitted w) (timers w).

Definition with_emitted (e : Event) (w : World) : World :=
  mkWorld (db w) (db_faults w) (clock w) (wire w) (http_trace w)
          (random_hex w) (random_calls w) (sites_map w) (emitted w ++ [e])
          (timers w).


(** *** Promises of the manager *)

Definition M (A : Type) : Type := Promise World A.

(** *** Primitive effects *)

(** [await this.db.query(...)]: the statement runs on the tables, with
    [NOW()] as its first argument, unless the database rejects the query
    or the statement itself is in error. *)
Definition db_query {A} (stmt : Z -> Db -> Error + (A * Db)) : M A :=
  fun w =>
    match db_faults w with
    | Some m :: rest => (Throw (mkError m), with_db_faults rest w)
    | pending =>
        let w1 := with_db_faults (tl pending) w in
        match stmt (clock w1) (db w1) with
        | inl e => (Throw e, w1)
        | inr (a, d) => (Value a, with_db (fun _ => d) w1)
        end
    end.

(** [await axios(config)]. *)
Definition axios (r : HttpRequest) : M HttpResponse :=
  fun w =>
    let reply := wire w (http_trace w) r in
    let w' := with_wire_step (reply_latency reply) r w in
    match reply_result reply with
    | inl e => (Throw e, w')
    | inr resp => (Value resp, w')
    end.

Definition emit (e : Event) : M unit :=
  fun w => (Value tt, with_emitted e w).

Definition now : M Z := fun w => (Value (clock w), w).

Definition randomBytesHex (n : nat) : M string :=
  fun w => (Value (random_hex w (random_calls w) n), with_random_step w).

(** *** SQL statements of the manager *)

(** A [SELECT]: the tables stay as they are. *)
Definition reading {A} (q : Db -> A) : Z -> Db -> Error + (A * Db) :=
  fun _ d => inr (q d, d).

(** [SELECT ... FROM sites WHERE id = $1]. *)
Definition select_site (siteId : Z) (d : Db) : list SiteRow :=
  filter (fun s => site_id s =? siteId) (sites d).

(** [SELECT id FROM sites WHERE status = 'active']. *)
Definition select_active_ids (d : Db) : list Z :=
  map site_id (filter (fun s => String.eqb (status s) "active") (sites d)).

Record SiteData := mkSiteData {
  sd_siteName : string;
  sd_location : string;
  sd_siteType : string;
  sd_routerIP : string;
  sd_routerPort : option Z;
  sd_routerUser : string;
  sd_routerPass : string;
  sd_apiKey : option string;
  sd_bandwidth : option Z;
  sd_maxUsers : option Z;
  sd_parentSiteId : option Z
}.

(** [x || null] on a nullable number. *)
Definition or_null (x : option Z) : option Z :=
  match x with
  | Some v => if v =? 0 then None else Some v
  | None => None
  end.

(** [INSERT INTO sites (...) VALUES ($1, ..., $11, 'active', NOW())
    RETURNING id, site_name, api_key, site_type]; [id] is a serial. *)
Definition insert_site (sd : SiteData) (key : string)
  : Z -> Db -> Error + (RegisteredSite * Db) :=
  fun t d =>
    let id := sites_seq d + 1 in
    let row := mkSite id (sd_siteName sd) (sd_location sd) (sd_siteType sd)
                      (sd_routerIP sd) (sd_routerPort sd) (sd_routerUser sd)
                      (sd_routerPass sd) key (sd_bandwidth sd)
                      (sd_maxUsers sd) (or_null (sd_parentSiteId sd))
                      "active" None t in
    inr (mkRegistered id (sd_siteName sd) key (sd_siteType sd),
         mkDb (sites d ++ [row]) id (remote_users d) (site_api_logs d)
              (site_management_tokens d)).

(** [UPDATE sites SET last_heartbeat = NOW(), status = $1 WHERE id = $2]. *)
Definition update_site_status (st : string) (siteId : Z)
  : Z -> Db -> Error + (unit * Db) :=
  fun t d =>
    let touch s :=
      if site_id s =? siteId
      then mkSite (site_id s) (site_name s) (location s) (site_type s)
                  (router_ip s) (router_port s) (router_user s)
                  (router_pass s) (api_key s) (bandwidth s) (max_users s)
                  (parent_site_id s) st (Some t) (site_created_at s)
      else s in
    inr (tt, mkDb (map touch (sites d)) (sites_seq d) (remote_users d)
                  (site_api_logs d) (site_management_tokens d)).

(** [INSERT INTO site_api_logs (...) VALUES ($1, $2, $3, $4, NOW())]. *)
Definition insert_api_log (siteId : Z) (endpoint method : string) (code : Z)
  : Z -> Db -> Error + (unit * Db) :=
  fun t d =>
    inr (tt, mkDb (sites d) (sites_seq d) (remote_users d)
                  (site_api_logs d ++ [mkApiLog siteId endpoint method code t])
                  (site_management_tokens d)).

(** [INSERT INTO remote_users (site_id, username, password,
    bandwidth_limit, created_at) VALUES ($1, $2, $3, $4, NOW())]. *)
Definition insert_remote_user (siteId : Z) (username password : string)
  (limit : Z) : Z -> Db -> Error + (unit * Db) :=
  fun t d =>
    inr (tt, mkDb (sites d) (sites_seq d)
                  (remote_users d
                     ++ [mkRemoteUser siteId username password limit None t])
                  (site_api_logs d) (site_management_tokens d)).

(** [DELETE FROM remote_users WHERE site_id = $1 AND username = $2]. *)
Definition delete_remote_user (siteId : Z) (username : string)
  : Z -> Db -> Error + (unit * Db) :=
  fun _ d =>
    let stays r :=
      negb ((ru_site_id r =? siteId) && String.eqb (ru_username r) username) in
    inr (tt, mkDb (sites d) (sites_seq d) (filter stays (remote_users d))
                  (site_api_logs d) (site_management_tokens d)).

Definition Z_of_string (s : string) : option Z :=
  option_map Z.of_int (NilZero.int_of_string s).

(** One assignment [k = v] of an [UPDATE remote_users SET ...]. *)
Definition set_column (k v : string) (r : RemoteUserRow)
  : option RemoteUserRow :=
  if String.eqb k "username" then
    Some (mkRemoteUser (ru_site_id r) v (ru_password r)
                       (ru_bandwidth_limit r) (ru_status r) (ru_created_at r))
  else if String.eqb k "password" then
    Some (mkRemoteUser (ru_site_id r) (ru_username r) v
                       (ru_bandwidth_limit r) (ru_status r) (ru_created_at r))
  else if String.eqb k "status" then
    Some (mkRemoteUser (ru_site_id r) (ru_username r) (ru_password r)
                       (ru_bandwidth_limit r) (Some v) (ru_created_at r))
  else if String.eqb k "bandwidth_limit" then
    match Z_of_string v with
    | Some n => Some (mkRemoteUser (ru_site_id r) (ru_username r)
                                   (ru_password r) n (ru_status r)
                                   (ru_created_at r))
    | None => None
    end
  else None.

Fixpoint set_columns (updates : Obj) (r : RemoteUserRow)
  : option RemoteUserRow :=
  match updates with
  | [] => Some r
  | (k, v) :: rest =>
      match set_column k v r with
      | Some r' => set_columns rest r'
      | None => None
      end
  end.

(** [UPDATE remote_users SET k1 = $2, ... WHERE site_id = $1 AND
    username = $n]: the statement is built from the keys of [updates];
    with no key, or with one that is no column, the database refuses it. *)
Definition update_remote_user (siteId : Z) (username : string) (updates : Obj)
  : Z -> Db -> Error + (unit * Db) :=
  fun _ d =>
    let probe := mkRemoteUser 0 "" "" 0 None 0 in
    match updates, set_columns updates probe with
    | [], _ => inl (mkError "syntax error at or near WHERE")
    | _, None => inl (mkError "column of relation remote_users does not exist")
    | _, Some _ =>
        let touch r :=
          if (ru_site_id r =? siteId) && String.eqb (ru_username r) username
          then match set_columns updates r with
               | Some r' => r'
               | None => r
               end
          else r in
        inr (tt, mkDb (sites d) (sites_seq d) (map touch (remote_users d))
                      (site_api_logs d) (site_management_tokens d))
    end.

(** [INSERT INTO site_management_tokens (...) VALUES ($1, $2, $3, $4,
    NOW()) RETURNING token, expires_at]. *)
Definition insert_token (siteId : Z) (token : string)
  (permissions : list string) (expiresAt : Z)
  : Z -> Db -> Error + ((string * Z) * Db) :=
  fun t d =>
    inr ((token, expiresAt),
         mkDb (sites d) (sites_seq d) (remote_users d) (site_api_logs d)
              (site_management_tokens d
                 ++ [mkToken siteId token permissions expiresAt t])).

(** [SELECT * FROM site_management_tokens WHERE site_id = $1 AND
    token = $2 AND expires_at > NOW()]. *)
Definition select_valid_tokens (siteId : Z) (token : string)
  : Z -> Db -> Error + (list TokenRow * Db) :=
  fun t d =>
    inr (filter (fun r => (tok_site_id r =? siteId)
                          && String.eqb (tok_token r) token
                          && (t <? tok_expires_at r))
                (site_management_tokens d), d).

(** *** Site registration *)

Definition upper_ascii (c : ascii) : ascii :=
  let n := nat_of_ascii c in
  if (97 <=? n)%nat && (n <=? 122)%nat then ascii_of_nat (n - 32) else c.

(** [String.prototype.toUpperCase] on the output of [toString('hex')]. *)
Fixpoint toUpperCase (s : string) : string :=
  match s with
  | EmptyString => EmptyString
  | String c rest => String (upper_ascii c) (toUpperCase rest)
  end.

Definition generateSiteAPIKey : M string :=
  hex <- randomBytesHex 24 ;;
  ret ("SITE-" ++ toUpperCase hex)%string.

(** [this.sites.set(k, v)]. *)
Fixpoint map_set (k : Z) (v : CachedSite) (m : list (Z * CachedSite))
  : list (Z * CachedSite) :=
  match m with
  | [] => [(k, v)]
  | (k', v') :: rest =>
      if k' =? k then (k, v) :: rest else (k', v') :: map_set k v rest
  end.

Definition sites_set (k : Z) (v : CachedSite) : M unit :=
  fun w => (Value tt, with_sites_map (map_set k v (sites_map w)) w).

(** [x || f()] on a nullable string: [f] runs only when [x] is falsy. *)
Definition or_else (x : option string) (f : M string) : M string :=
  match x with
  | None | Some EmptyString => f
  | Some k => ret k
  end.

Definition registerSite (siteData : SiteData) : M RegisteredSite :=
  try_catch
    (generatedApiKey <- or_else (sd_apiKey siteData) generateSiteAPIKey ;;
     site <- db_query (insert_site siteData generatedApiKey) ;;
     sites_set (reg_id site)
               (mkCached site (sd_routerIP siteData) (sd_routerPort siteData)
                         (sd_routerUser siteData) (sd_routerPass siteData)) ;;
     emit (SiteRegistered site) ;;
     ret site)
    (fun error => throw error).

(** *** Connection management *)

(** [response.data[0]?.name]. *)
Definition identity_name (d : Json) : Error + option string :=
  match d with
  | JNull => inl (mkError "Cannot read properties of null (reading '0')")
  | JArr (o :: _) => inr (get_field "name" o)
  | _ => inr None
  end.

Definition testSiteConnection (siteId : Z) : M ConnectionStatus :=
  try_catch
    (site <- db_query (reading (select_site siteId)) ;;
     match site with
     | [] => ret (mkConn false None None (Some "Site not found"%string) None)
     | siteData :: _ =>
         if String.eqb (site_type siteData) "remote" then
           response <-
             axios (mkRequest "GET"
                      (url_of (router_ip siteData)
                              (or_default (router_port siteData) 8728)
                              "/system/identity")
                      (router_user siteData) (router_pass siteData)
                      None 5000) ;;
           identity <- lift (identity_name (resp_data response)) ;;
           uptime <- now ;;
           ret (mkConn true identity None None (Some uptime))
         else
           ret (mkConn true None (Some "local"%string) None None)
     end)
    (fun error =>
       timestamp <- now ;;
       ret (mkConn false None None (Some (message error)) (Some timestamp))).

(** The function [startSiteHeartbeat] hands to [setInterval]: one probe. *)
Definition heartbeat (siteId : Z) : M unit :=
  st <- testSiteConnection siteId ;;
  db_query (update_site_status
              (if connected st then "online" else "offline") siteId) ;;
  emit (SiteHeartbeat siteId st).


(** *** Remote API client *)

Definition logSiteAPICall (siteId : Z) (endpoint method : string)
  (statusCode : Z) : M unit :=
  try_catch
    (db_query (insert_api_log siteId endpoint method statusCode))
    (fun _ => ret tt).

Definition callSiteAPI (siteId : Z) (endpoint method : string)
  (data : option Obj) : M Json :=
  try_catch
    (siteResult <- db_query (reading (select_site siteId)) ;;
     match siteResult with
     | [] => throw (mkError "Site not found")
     | site :: _ =>
         if negb (String.eqb (site_type site) "remote") then
           throw (mkError "Can only call API on remote sites")
         else
           let url := url_of (router_ip site)
                             (or_default (router_port site) 8728) endpoint in
           let body :=
             match data with
             | Some d =>
                 if String.eqb method "POST" || String.eqb method "PUT"
                 then Some d else None
             | None => None
             end in
           response <-
             axios (mkRequest method url (router_user site)
                              (router_pass site) body 10000) ;;
           logSiteAPICall siteId endpoint method (resp_status response) ;;
           ret (resp_data response)
     end)
    (fun error => throw error).

(** *** Users on a remote site *)

Record Options := mkOptions {
  bandwidthLimit : option Z;
  sessionTimeout : option Z
}.

(** The properties [...options] copies into a payload; numbers are
    written in decimal. *)
Definition spread_options (options : Options) : Obj :=
  (match bandwidthLimit options with
   | Some b => [("bandwidthLimit"%string, string_of_Z b)]
   | None => []
   end)
  ++ (match sessionTimeout options with
      | Some t => [("sessionTimeout"%string, string_of_Z t)]
      | None => []
      end).

(** What [createRemoteUser] resolves to: [{ success: true, user }]. *)
Record UserResult := mkUserResult {
  ur_success : bool;
  ur_user : Json
}.

Definition user_payload (username password : string) (options : Options)
  : Obj :=
  [("name", username); ("password", password);
   ("limit-bytes-out", string_of_Z (or_default (bandwidthLimit options) 0));
   ("limit-uptime", string_of_Z (or_default (sessionTimeout options) 0))]%string
  ++ spread_options options.

Definition createRemoteUser (siteId : Z) (username password : string)
  (options : Options) : M UserResult :=
  try_catch
    (let payload := user_payload username password options in
     result <- callSiteAPI siteId "/ip/hotspot/user" "POST" (Some payload) ;;
     db_query (insert_remote_user siteId username password
                 (or_default (bandwidthLimit options) 0)) ;;
     ret (mkUserResult true result))
    (fun error => throw error).

Definition updateRemoteUser (siteId : Z) (username : string) (updates : Obj)
  : M UserResult :=
  try_catch
    (users <- callSiteAPI siteId "/ip/hotspot/user" "GET" None ;;
     user <- lift (json_find "users" "name" username users) ;;
     match user with
     | None =>
         throw (mkError ("User not found on remote site: " ++ username))
     | Some u =>
         result <- callSiteAPI siteId
                     ("/ip/hotspot/user/" ++ show_field ".id" u)
                     "PUT" (Some updates) ;;
         db_query (update_remote_user siteId username updates) ;;
         ret (mkUserResult true result)
     end)
    (fun error => throw error).

(** Resolves to [{ success: true }]. *)
Definition deleteRemoteUser (siteId : Z) (username : string) : M bool :=
  try_catch
    (users <- callSiteAPI siteId "/ip/hotspot/user" "GET" None ;;
     user <- lift (json_find "users" "name" username users) ;;
     match user with
     | None =>
         throw (mkError ("User not found on remote site: " ++ username))
     | Some u =>
         callSiteAPI siteId ("/ip/hotspot/user/" ++ show_field ".id" u)
                     "DELETE" None ;;
         db_query (delete_remote_user siteId username) ;;
         ret true
     end)
    (fun error => throw error).

(** *** Bandwidth on a remote site *)

(** [`${b}M/${b}M`]. *)
Definition rate (b : Z) : string :=
  (string_of_Z b ++ "M/" ++ string_of_Z b ++ "M")%string.

(** What the queue calls resolve to: [{ success: true, queue }]. *)
Record QueueResult := mkQueueResult {
  qr_success : bool;
  qr_queue : Json
}.

Definition createRemoteQueue (siteId : Z) (username : string) (bw : Z)
  : M QueueResult :=
  try_catch
    (let payload :=
       [("name", "queue-" ++ username); ("target", username ++ "/32");
        ("max-limit", rate bw); ("limit-at", rate (bw / 2))]%string in
     result <- callSiteAPI siteId "/queue/simple" "POST" (Some payload) ;;
     ret (mkQueueResult true result))
    (fun error => throw error).

Definition updateRemoteQueueBandwidth (siteId : Z) (username : string)
  (bw : Z) : M QueueResult :=
  try_catch
    (queues <- callSiteAPI siteId "/queue/simple" "GET" None ;;
     queue <- lift (json_find "queues" "name" ("queue-" ++ username) queues) ;;
     match queue with
     | None => throw (mkError ("Queue not found for user: " ++ username))
     | Some q =>
         let updates :=
           [("max-limit", rate bw); ("limit-at", rate (bw / 2))]%string in
         result <- callSiteAPI siteId
                     ("/queue/simple/" ++ show_field ".id" q)
                     "PUT" (Some updates) ;;
         ret (mkQueueResult true result)
     end)
    (fun error => throw error).

(** *** Central management: one operation on many sites *)

(** An element of [results]: [{ siteId, success: true, result }],
    [{ siteId, success: true }] or
    [{ siteId, success: false, error: error.message }]. *)
Record SiteOutcome (R : Type) := mkOutcome {
  so_siteId : Z;
  so_success : bool;
  so_result : option R;
  so_error : option string
}.
Arguments mkOutcome {R} _ _ _ _.
Arguments so_siteId {R} _.
Arguments so_success {R} _.
Arguments so_result {R} _.
Arguments so_error {R} _.

Record CreateAcross := mkCreateAcross {
  ca_username : string;
  ca_results : list (SiteOutcome UserResult)
}.

Record BandwidthAcross := mkBandwidthAcross {
  ba_username : string;
  ba_bandwidth : Z;
  ba_results : list (SiteOutcome unit)
}.

(** The body of the loop of [createUserAcrossMultipleSites]. *)
Definition create_on_site (username password : string) (options : Options)
  (siteId : Z) (results : list (SiteOutcome UserResult))
  : M (list (SiteOutcome UserResult)) :=
  try_catch
    (result <- createRemoteUser siteId username password options ;;
     ret (results ++ [mkOutcome siteId true (Some result) None]))
    (fun error =>
       ret (results ++ [mkOutcome siteId false None (Some (message error))])).

Definition createUserAcrossMultipleSites (username password : string)
  (siteIds : list Z) (options : Options) : M CreateAcross :=
  try_catch
    (results <- for_of siteIds (create_on_site username password options) [] ;;
     ret (mkCreateAcross username results))
    (fun error => throw error).

(** The body of the loop of [updateBandwidthAcrossMultipleSites]. *)
Definition update_on_site (username : string) (bw : Z)
  (siteId : Z) (results : list (SiteOutcome unit))
  : M (list (SiteOutcome unit)) :=
  try_catch
    (updateRemoteQueueBandwidth siteId username bw ;;
     ret (results ++ [mkOutcome siteId true None None]))
    (fun error =>
       ret (results ++ [mkOutcome siteId false None (Some (message error))])).

Definition updateBandwidthAcrossMultipleSites (username : string) (bw : Z)
  (siteIds : list Z) : M BandwidthAcross :=
  try_catch
    (results <- for_of siteIds (update_on_site username bw) [] ;;
     ret (mkBandwidthAcross username bw results))
    (fun error => throw error).

Definition syncUserAcrossAllSites (username password : string)
  (options : Options) : M CreateAcross :=
  try_catch
    (siteIds <- db_query (reading select_active_ids) ;;
     createUserAcrossMultipleSites username password siteIds options)
    (fun error => throw error).

(** *** Management tokens *)

(** Thirty days, in milliseconds: [setDate(getDate() + 30)]. *)
Definition thirty_days : Z := 30 * 24 * 60 * 60 * 1000.

(** Resolves to the row [RETURNING token, expires_at]. *)
Definition generateManagementToken (siteId : Z) (permissions : list string)
  : M (string * Z) :=
  try_catch
    (token <- randomBytesHex 32 ;;
     today <- now ;;
     let expiresAt := today + thirty_days in
     db_query (insert_token siteId token permissions expiresAt))
    (fun error => throw error).

Definition verifyManagementToken (siteId : Z) (token : string) : M bool :=
  try_catch
    (rows <- db_query (select_valid_tokens siteId token) ;;
     ret (0 <? Z.of_nat (List.length rows)))
    (fun _ => ret false).

End MultiSite.

(* ===================================================================== *)
(** ** MikrotikManager: the device client and its read cache *)
(* ===================================================================== *)

Module Mikrotik.

(** [this.cache]; [null] is [JNull] for the two bodies kept as received
    and [None] for the list of access points. *)
Record Cache := mkCache {
  users : Json;
  queues : Json;
  aps : option (list Obj);
  lastUpdate : Z
}.

(** One manager and what surrounds it. *)
Record Manager := mkManager {
  baseURL : string;
  auth_username : string;
  auth_password : string;
  timeout : Z;
  cache : Cache;
  (** [Date.now()], in milliseconds. *)
  clock : Z;
  wire : Wire;
  (** Every request handed to axios so far, oldest first. *)
  http_trace : list HttpRequest
}.

Definition M (A : Type) : Type := Promise Manager A.

Record Config := mkConfig {
  cfg_host : string;
  cfg_user : string;
  cfg_pass : string;
  cfg_apiPort : option Z;
  cfg_useSSL : bool;
  cfg_timeout : option Z
}.

Definition empty_cache : Cache := mkCache JNull JNull None 0.

(** [new MikrotikManager(config)], started at time [t] in front of the
    controller [net]; [config] is taken after the defaults from the
    environment variables have been filled in. *)
Definition constructor (config : Config) (t : Z) (net : Wire) : Manager :=
  mkManager
    ("http" ++ (if cfg_useSSL config then "s" else "") ++ "://"
       ++ cfg_host config ++ ":"
       ++ string_of_Z (or_default (cfg_apiPort config) 8728) ++ "/rest")%string
    (cfg_user config) (cfg_pass config)
    (or_default (cfg_timeout config) 5000)
    empty_cache t net [].

Definition with_cache (f : Cache -> Cache) (m : Manager) : Manager :=
  mkManager (baseURL m) (auth_username m) (auth_password m) (timeout m)
            (f (cache m)) (clock m) (wire m) (http_trace m).

Definition with_wire_step (t : Z) (r : HttpRequest) (m : Manager) : Manager :=
  mkManager (baseURL m) (auth_username m) (auth_password m) (timeout m)
            (cache m) (clock m + Z.max 0 t) (wire m) (http_trace m ++ [r]).

(** Time passing between two calls. *)
Definition elapse (ms : Z) (m : Manager) : Manager :=
  mkManager (baseURL m) (auth_username m) (auth_password m) (timeout m)
            (cache m) (clock m + Z.max 0 ms) (wire m) (http_trace m).

(** *** Primitive effects *)

Definition request (method path : string) (data : option Obj) (m : Manager)
  : HttpRequest :=
  mkRequest method (baseURL m ++ path) (auth_username m) (auth_password m)
            data (timeout m).

(** [await axios.get/post/put/delete(`${this.baseURL}${path}`, ...,
    { auth: this.auth, timeout: this.timeout })]. *)
Definition axios (method path : string) (data : option Obj)
  : M HttpResponse :=
  fun m =>
    let r := request method path data m in
    let reply := wire m (http_trace m) r in
    let m' := with_wire_step (reply_latency reply) r m in
    match reply_result reply with
    | inl e => (Throw e, m')
    | inr resp => (Value resp, m')
    end.

Definition date_now : M Z := fun m => (Value (clock m), m).

Definition this_cache : M Cache := fun m => (Value (cache m), m).

Definition set_users (d : Json) : M unit :=
  fun m => (Value tt,
            with_cache (fun c => mkCache d (queues c) (aps c) (lastUpdate c)) m).

Definition set_queues (d : Json) : M unit :=
  fun m => (Value tt,
            with_cache (fun c => mkCache (users c) d (aps c) (lastUpdate c)) m).

Definition set_aps (l : option (list Obj)) : M unit :=
  fun m => (Value tt,
            with_cache (fun c => mkCache (users c) (queues c) l (lastUpdate c))
                       m).

Definition set_lastUpdate (t : Z) : M unit :=
  fun m => (Value tt,
            with_cache (fun c => mkCache (users c) (queues c) (aps c) t) m).

(** Truthiness of a cached body: [null] and [''] are falsy, every array
    and object is truthy. *)
Definition truthy (d : Json) : bool :=
  match d with
  | JNull => false
  | JStr EmptyString => false
  | _ => true
  end.

(** [5 * 60 * 1000] *)
Definition ttl : Z := 5 * 60 * 1000.

(** *** Hotspot users *)

Record UserOptions := mkUserOptions {
  bandwidthLimit : option Z;
  sessionTimeout : option Z;
  uploadLimit : option Z
}.

Definition spread_number (k : string) (x : option Z) : Obj :=
  match x with
  | Some v => [(k, string_of_Z v)]
  | None => []
  end.

Definition spread_string (k : string) (x : option string) : Obj :=
  match x with
  | Some v => [(k, v)]
  | None => []
  end.

Record Success := mkSuccess {
  success : bool;
  payload : option Json
}.

Definition getHotspotUsers : M Json :=
  try_catch
    (c <- this_cache ;;
     t <- date_now ;;
     if truthy (users c) && (t - lastUpdate c <? ttl) then
       ret (users c)
     else
       response <- axios "GET" "/ip/hotspot/user" None ;;
       set_users (resp_data response) ;;
       t' <- date_now ;;
       set_lastUpdate t' ;;
       ret (resp_data response))
    (fun _ => ret (JArr [])).

Definition createHotspotUser (username password : string)
  (options : UserOptions) : M Success :=
  try_catch
    (let body :=
       [("name", username); ("password", password);
        ("limit-bytes-out", string_of_Z (or_default (bandwidthLimit options) 0));
        ("limit-uptime", string_of_Z (or_default (sessionTimeout options) 0));
        ("limit-bytes-in", string_of_Z (or_default (uploadLimit options) 0))
       ]%string
       ++ spread_number "bandwidthLimit" (bandwidthLimit options)
       ++ spread_number "sessionTimeout" (sessionTimeout options)
       ++ spread_number "uploadLimit" (uploadLimit options) in
     response <- axios "POST" "/ip/hotspot/user" (Some body) ;;
     set_users JNull ;;
     ret (mkSuccess true (Some (resp_data response))))
    (fun error => throw error).

Definition updateHotspotUser (username : string) (updates : Obj) : M Success :=
  try_catch
    (all <- getHotspotUsers ;;
     user <- lift (json_find "users" "name" username all) ;;
     match user with
     | None => throw (mkError ("User not found: " ++ username))
     | Some u =>
         response <- axios "PUT" ("/ip/hotspot/user/" ++ show_field ".id" u)
                           (Some updates) ;;
         set_users JNull ;;
         ret (mkSuccess true (Some (resp_data response)))
     end)
    (fun error => throw error).

Definition deleteHotspotUser (username : string) : M Success :=
  try_catch
    (all <- getHotspotUsers ;;
     user <- lift (json_find "users" "name" username all) ;;
     match user with
     | None => throw (mkError ("User not found: " ++ username))
     | Some u =>
         axios "DELETE" ("/ip/hotspot/user/" ++ show_field ".id" u) None ;;
         set_users JNull ;;
         ret (mkSuccess true None)
     end)
    (fun error => throw error).

(** *** Queues *)

Record QueueOptions := mkQueueOptions {
  target : option string;
  maxLimit : option string;
  limitAt : option string;
  burstLimit : option string;
  burstTime : option string;
  comment : option string
}.

Definition getQueues : M Json :=
  try_catch
    (c <- this_cache ;;
     t <- date_now ;;
     if truthy (queues c) && (t - lastUpdate c <? ttl) then
       ret (queues c)
     else
       response <- axios "GET" "/queue/simple" None ;;
       set_queues (resp_data response) ;;
       ret (resp_data response))
    (fun _ => ret (JArr [])).

Definition createQueue (username : string) (options : QueueOptions)
  : M Success :=
  try_catch
    (let body :=
       [("name", "queue-" ++ username);
        ("target", or_string (target options) (username ++ "/32"));
        ("max-limit", or_string (maxLimit options) "10M/10M");
        ("limit-at", or_string (limitAt options) "5M/5M");
        ("burst-limit", or_string (burstLimit options) "15M/15M");
        ("burst-time", or_string (burstTime options) "10s");
        ("comment", or_string (comment options) ("Queue for " ++ username))
       ]%string
       ++ spread_string "target" (target options)
       ++ spread_string "maxLimit" (maxLimit options)
       ++ spread_string "limitAt" (limitAt options)
       ++ spread_string "burstLimit" (burstLimit options)
       ++ spread_string "burstTime" (burstTime options)
       ++ spread_string "comment" (comment options) in
     response <- axios "POST" "/queue/simple" (Some body) ;;
     set_queues JNull ;;
     ret (mkSuccess true (Some (resp_data response))))
    (fun error => throw error).

Definition updateQueueBandwidth (username : string)
  (bandwidth : QueueOptions) : M Success :=
  try_catch
    (all <- getQueues ;;
     queue <- lift (json_find "queues" "name" ("queue-" ++ username) all) ;;
     match queue with
     | None => throw (mkError ("Queue not found for user: " ++ username))
     | Some q =>
         let updates :=
           [("max-limit", or_string (maxLimit bandwidth) "10M/10M");
            ("limit-at", or_string (limitAt bandwidth) "5M/5M");
            ("burst-limit", or_string (burstLimit bandwidth) "15M/15M")
           ]%string in
         axios "PUT" ("/queue/simple/" ++ show_field ".id" q) (Some updates) ;;
         set_queues JNull ;;
         ret (mkSuccess true None)
     end)
    (fun error => throw error).

Definition deleteQueue (username : string) : M Success :=
  try_catch
    (all <- getQueues ;;
     queue <- lift (json_find "queues" "name" ("queue-" ++ username) all) ;;
     match queue with
     | None => throw (mkError ("Queue not found for user: " ++ username))
     | Some q =>
         axios "DELETE" ("/queue/simple/" ++ show_field ".id" q) None ;;
         set_queues JNull ;;
         ret (mkSuccess true None)
     end)
    (fun error => throw error).

(** *** Wireless access points *)

(** One property of the object built for an access point; a property the
    controller did not send stays undefined. *)
Definition pick (k from : string) (ap : Obj) : Obj :=
  match get_field from ap with
  | Some v => [(k, v)]
  | None => []
  end.

Definition ap_view (ap : Obj) : Obj :=
  pick "id" ".id" ap ++ pick "name" "name" ap ++ pick "ssid" "ssid" ap
  ++ pick "frequency" "frequency" ap ++ pick "band" "band" ap
  ++ pick "mode" "mode" ap ++ pick "running" "running" ap
  ++ pick "disabled" "disabled" ap.

(** [response.data.map(f)]. *)
Definition json_map (f : Obj -> Obj) (d : Json) : Error + list Obj :=
  match d with
  | JArr items => inr (map f items)
  | JNull => inl (mkError "Cannot read properties of null (reading 'map')")
  | _ => inl (mkError "response.data.map is not a function")
  end.

Definition getAccessPoints : M (list Obj) :=
  try_catch
    (c <- this_cache ;;
     t <- date_now ;;
     let refetch :=
       response <- axios "GET" "/interface/wireless" None ;;
       views <- lift (json_map ap_view (resp_data response)) ;;
       set_aps (Some views) ;;
       ret views in
     match aps c with
     | Some cached => if t - lastUpdate c <? ttl then ret cached else refetch
     | None => refetch
     end)
    (fun _ => ret []).

(** [clearCache()]. *)
Definition clearCache : M unit :=
  fun m => (Value tt, with_cache (fun _ => empty_cache) m).

End Mikrotik.

(* ===================================================================== *)
(** ** Vocabulary for the multi-site manager *)
(* ===================================================================== *)

Module MultiSiteSpec.
Import MultiSite.

(** The registry part of the database: sites and tokens. *)
Definition same_registry (w w' : World) : Prop :=
  sites (db w') = sites (db w)
  /\ sites_seq (db w') = sites_seq (db w)
  /\ site_management_tokens (db w') = site_management_tokens (db w).

(** The pending faults of [w'] are a suffix of those of [w]. *)
Definition faults_consumed (w w' : World) : Prop :=
  exists n, db_faults w' = skipn n (db_faults w).

(** The request [callSiteAPI] builds for a site row. *)
Definition api_request (site : SiteRow) (endpoint method : string)
  (data : option Obj) : HttpRequest :=
  mkRequest method
    (url_of (router_ip site) (or_default (router_port site) 8728) endpoint)
    (router_user site) (router_pass site)
    (match data with
     | Some d =>
         if String.eqb method "POST" || String.eqb method "PUT"
         then Some d else None
     | None => None
     end)
    10000.

(** What a call leaves alone whatever its outcome: the registry, the
    mirror of provisioned users, the events and the controllers. *)
Definition keeps_registry_and_mirror (w w' : World) : Prop :=
  same_registry w w'
  /\ remote_users (db w') = remote_users (db w)
  /\ emitted w' = emitted w
  /\ wire w' = wire w
  /\ faults_consumed w w'.

(** The world after the first query of a call, when it is a [SELECT]. *)
Definition after_query (w : World) : World :=
  with_db_faults (tl (db_faults w)) w.

(** Every outcome of [callSiteAPI]. *)
Inductive api_outcome (siteId : Z) (endpoint method : string)
  (data : option Obj) (w : World) : Outcome Json -> World -> Prop :=
| api_rejected m :
    hd None (db_faults w) = Some m ->
    api_outcome siteId endpoint method data w
                (Throw (mkError m)) (after_query w)
| api_no_site :
    hd None (db_faults w) = None ->
    select_site siteId (db w) = [] ->
    api_outcome siteId endpoint method data w
                (Throw (mkError "Site not found")) (after_query w)
| api_not_remote site rest :
    hd None (db_faults w) = None ->
    select_site siteId (db w) = site :: rest ->
    site_type site <> "remote"%string ->
    api_outcome siteId endpoint method data w
                (Throw (mkError "Can only call API on remote sites"))
                (after_query w)
| api_unreachable site rest e w' :
    hd None (db_faults w) = None ->
    select_site siteId (db w) = site :: rest ->
    site_type site = "remote"%string ->
    reply_result (wire w (http_trace w)
                       (api_request site endpoint method data)) = inl e ->
    http_trace w'
      = http_trace w ++ [api_request site endpoint method data] ->
    keeps_registry_and_mirror w w' ->
    api_outcome siteId endpoint method data w (Throw e) w'
| api_answered site rest resp w' :
    hd None (db_faults w) = None ->
    select_site siteId (db w) = site :: rest ->
    site_type site = "remote"%string ->
    reply_result (wire w (http_trace w)
                       (api_request site endpoint method data)) = inr resp ->
    http_trace w'
      = http_trace w ++ [api_request site endpoint method data] ->
    keeps_registry_and_mirror w w' ->
    api_outcome siteId endpoint method data w (Value (resp_data resp)) w'.

(** A call that throws before the request leaves sends nothing; any
    other call sends exactly the one request to the site it resolved. *)
Definition sent_to_site (siteId : Z) (w w' : World) : Prop :=
  http_trace w' = http_trace w
  \/ exists site rest endpoint method data,
       select_site siteId (db w) = site :: rest
       /\ site_type site = "remote"%string
       /\ http_trace w'
          = http_trace w ++ [api_request site endpoint method data].

(** The row [createRemoteUser] adds to the mirror at time [t]. *)
Definition mirror_row (siteId : Z) (username password : string)
  (options : Options) (t : Z) : RemoteUserRow :=
  mkRemoteUser siteId username password
               (or_default (bandwidthLimit options) 0) None t.

Definition create_call (siteId : Z) (username password : string)
  (options : Options) : M Json :=
  callSiteAPI siteId "/ip/hotspot/user" "POST"
              (Some (user_payload username password options)).

(** The mirror without the rows of one user of one site. *)
Definition mirror_without (siteId : Z) (username : string) (b : Db) : Db :=
  mkDb (sites b) (sites_seq b)
       (filter (fun r => negb ((ru_site_id r =? siteId)
                               && String.eqb (ru_username r) username))
               (remote_users b))
       (site_api_logs b) (site_management_tokens b).

Definition list_call (siteId : Z) : M Json :=
  callSiteAPI siteId "/ip/hotspot/user" "GET" None.

Definition delete_call (siteId : Z) (u : Obj) : M Json :=
  callSiteAPI siteId ("/ip/hotspot/user/" ++ show_field ".id" u) "DELETE" None.

Definition user_not_found (username : string) : Error :=
  mkError ("User not found on remote site: " ++ username).

(** *** Fan-out *)

Definition failure_entry {R} (siteId : Z) (e : Error) : SiteOutcome R :=
  mkOutcome siteId false None (Some (message e)).

(** The entry a site contributes to [createUserAcrossMultipleSites],
    from the outcome of its [createRemoteUser]. *)
Definition create_entry (siteId : Z) (r : Outcome UserResult)
  : SiteOutcome UserResult :=
  match r with
  | Value result => mkOutcome siteId true (Some result) None
  | Throw e => failure_entry siteId e
  end.

(** The same for [updateBandwidthAcrossMultipleSites]. *)
Definition update_entry (siteId : Z) (r : Outcome QueueResult)
  : SiteOutcome unit :=
  match r with
  | Value _ => mkOutcome siteId true None None
  | Throw e => failure_entry siteId e
  end.

(** Visiting the sites one after the other: each contributes the entry
    [entry] computes in the world its predecessors left, and leaves the
    world [next] computes. *)
Fixpoint sweep {R} (entry : Z -> World -> SiteOutcome R)
  (next : Z -> World -> World) (siteIds : list Z) (w : World)
  : list (SiteOutcome R) * World :=
  match siteIds with
  | [] => ([], w)
  | siteId :: rest =>
      let (entries, w') := sweep entry next rest (next siteId w) in
      (entry siteId w :: entries, w')
  end.

Definition create_sweep (username password : string) (options : Options)
  : list Z -> World -> list (SiteOutcome UserResult) * World :=
  sweep (fun s w => create_entry s (fst (createRemoteUser s username password
                                                          options w)))
        (fun s w => snd (createRemoteUser s username password options w)).

Definition update_sweep (username : string) (bw : Z)
  : list Z -> World -> list (SiteOutcome unit) * World :=
  sweep (fun s w => update_entry s
                      (fst (updateRemoteQueueBandwidth s username bw w)))
        (fun s w => snd (updateRemoteQueueBandwidth s username bw w)).

(** *** A fleet to run the manager on *)

Definition branch (id : Z) (kind ip st : string) : SiteRow :=
  mkSite id "branch" "city" kind ip (Some 8728) "admin" "secret"
         "SITE-00FF" (Some 100) (Some 50) None st None 0.

(** The controller at 10.0.0.2 never answers; the others list one queue
    and no user, and accept every change. *)
Definition fleet_wire : Wire :=
  fun _ r =>
    if String.prefix "http://10.0.0.2:" (req_url r) then
      mkReply (req_timeout r)
              (inl (mkError ("timeout of " ++ string_of_Z (req_timeout r)
                               ++ "ms exceeded")))
    else if String.eqb (req_method r) "GET" then
      mkReply 20 (inr (mkResponse 200
                         (JArr [[(".id", "*1"); ("name", "queue-alice")]]%string)))
    else
      mkReply 20 (inr (mkResponse 201 (JObj [(".id", "*7")]%string))).

Definition fleet_sites : list SiteRow :=
  [branch 1 "remote" "10.0.0.1" "active";
   branch 2 "remote" "10.0.0.2" "active";
   branch 3 "remote" "10.0.0.3" "active";
   branch 4 "local" "192.168.88.1" "active";
   branch 5 "remote" "10.0.0.5" "offline";
   branch 6 "remote" "10.0.0.6" "online"].

Definition fleet : World :=
  mkWorld (mkDb fleet_sites 6 [] [] []) [] 1700000000000 fleet_wire []
          (fun _ _ => "c0ffee"%string) 0 [] [] [].

Definition ten_megabit : Options := mkOptions (Some 10) None.

(** *** Local sites *)

(** The row the manager resolves for [siteId] is not of type [remote]. *)
Definition local_site (siteId : Z) (w : World) : Prop :=
  exists site rest,
    select_site siteId (db w) = site :: rest
    /\ site_type site <> "remote"%string.

Definition not_remote_error : Error :=
  mkError "Can only call API on remote sites".

(** The call throws before anything is sent and without touching a
    table; what it throws is [not_remote_error] whenever the database
    answers the lookup of the site. *)
Definition refused_locally {A} (m : M A) (w : World) : Prop :=
  exists e w',
    m w = (Throw e, w')
    /\ http_trace w' = http_trace w
    /\ db w' = db w
    /\ (hd None (db_faults w) = None -> e = not_remote_error).

(** An entry of a fan-out that reports the refusal of a local site. *)
Definition refusal_entry {R} (w : World) (entry : SiteOutcome R) : Prop :=
  so_success entry = false
  /\ so_result entry = None
  /\ exists m, so_error entry = Some m
               /\ (db_faults w = [] -> m = message not_remote_error).

(** *** The mirror of provisioned users *)

Definition throws {A} (m : M A) (w : World) : Prop :=
  exists e w', m w = (Throw e, w').

(** Running [m] in [w] leaves the table [remote_users] as it is. *)
Definition mirror_untouched_by {A} (m : M A) (w : World) : Prop :=
  remote_users (db (snd (m w))) = remote_users (db w).

(** A controller that lists the user alice and refuses every change. *)
Definition readonly_wire : Wire :=
  fun _ r =>
    if String.eqb (req_method r) "GET" then
      mkReply 20 (inr (mkResponse 200
                         (JArr [[(".id", "*3"); ("name", "alice")]]%string)))
    else
      mkReply 20 (inl (mkError "Request failed with status code 403")).

Definition readonly : World :=
  mkWorld (mkDb [branch 1 "remote" "10.0.0.1" "active"] 1
                [mkRemoteUser 1 "alice" "pw" 10 None 0] [] [])
          [] 1700000000000 readonly_wire []
          (fun _ _ => "c0ffee"%string) 0 [] [] [].

(** *** Reading outcomes *)

Definition results_of (o : Outcome CreateAcross)
  : list (SiteOutcome UserResult) :=
  match o with
  | Value r => ca_results r
  | Throw _ => []
  end.

(** The request that lists the users of a site. *)
Definition list_request (site : SiteRow) : HttpRequest :=
  api_request site "/ip/hotspot/user" "GET" None.

(** *** Sync to the selected sites *)

(** A request built by [callSiteAPI] for one of the sites [siteIds], as
    the registry of [w] resolves them. *)
Definition addressed_to (siteIds : list Z) (w : World) (r : HttpRequest)
  : Prop :=
  exists siteId site rest endpoint method data,
    In siteId siteIds
    /\ select_site siteId (db w) = site :: rest
    /\ site_type site = "remote"%string
    /\ r = api_request site endpoint method data.

(** From [w] to [w'] only requests to the sites [siteIds] were sent. *)
Definition only_contacted (siteIds : list Z) (w w' : World) : Prop :=
  exists sent,
    http_trace w' = http_trace w ++ sent
    /\ Forall (addressed_to siteIds w) sent.

(** *** Registration *)

(** The endpoint and credentials of a request are those of a row. *)
Definition same_endpoint (siteData : SiteData) (site : SiteRow) : bool :=
  String.eqb (sd_routerIP siteData) (router_ip site)
  && match sd_routerPort siteData, router_port site with
     | Some p, Some q => p =? q
     | None, None => true
     | _, _ => false
     end
  && String.eqb (sd_routerUser siteData) (router_user site)
  && String.eqb (sd_routerPass siteData) (router_pass site).

(** The registration request that repeats site 1 of [fleet]. *)
Definition branch_again : SiteData :=
  mkSiteData "branch" "city" "remote" "10.0.0.1" (Some 8728) "admin" "secret"
             (Some "SITE-00FF"%string) (Some 100) (Some 50) None.

(** *** Heartbeat *)

(** The status the registry holds for a site. *)
Definition status_of (siteId : Z) (w : World) : option string :=
  option_map status (hd_error (select_site siteId (db w))).

(** A registry whose only site is local and already online. *)
Definition steady : World :=
  mkWorld (mkDb [branch 4 "local" "192.168.88.1" "online"] 4 [] [] [])
          [] 1700000000000 fleet_wire []
          (fun _ _ => "c0ffee"%string) 0 [] [] [].

(** *** Management tokens *)

(** A stored token for this site with this secret, not yet expired. *)
Definition valid_token (siteId : Z) (token : string) (w : World) : Prop :=
  exists r,
    In r (site_management_tokens (db w))
    /\ tok_site_id r = siteId
    /\ tok_token r = token
    /\ clock w < tok_expires_at r.

(** [fleet] after a token was issued for site 1. *)
Definition issued : World :=
  snd (generateManagementToken 1 ["read"; "write"]%string fleet).

(** The world [w] once [ms] milliseconds have passed. *)
Definition later (ms : Z) (w : World) : World :=
  mkWorld (db w) (db_faults w) (clock w + ms) (wire w) (http_trace w)
          (random_hex w) (random_calls w) (sites_map w) (emitted w) (timers w).

(** *** Sites that do not influence each other *)

(** The controllers answer a request the same way whatever was asked
    before. *)
Definition memoryless (net : Wire) : Prop :=
  forall history history' r, net history r = net history' r.

(** No query of the database is going to be rejected, and the
    controllers are memoryless. *)
Definition calm (w : World) : Prop :=
  db_faults w = [] /\ memoryless (wire w).

(** Two worlds with the same registry of sites and the same controllers. *)
Definition same_view (w w' : World) : Prop :=
  sites (db w') = sites (db w) /\ wire w' = wire w.

(** The two calls of [updateRemoteQueueBandwidth]. *)
Definition queue_list_call (siteId : Z) : M Json :=
  callSiteAPI siteId "/queue/simple" "GET" None.

Definition queue_put_call (siteId : Z) (q : Obj) (bw : Z) : M Json :=
  callSiteAPI siteId ("/queue/simple/" ++ show_field ".id" q) "PUT"
              (Some [("max-limit", rate bw);
                     ("limit-at", rate (bw / 2))]%string).

End MultiSiteSpec.

(* ===================================================================== *)
(** ** Vocabulary for the device client *)
(* ===================================================================== *)

Module MikrotikSpec.
Import Mikrotik.

(** The test in front of each cached list: the entry is there and the
    one timestamp of the cache is less than [ttl] old. *)
Definition users_fresh (m : Manager) : bool :=
  truthy (users (cache m)) && (clock m - lastUpdate (cache m) <? ttl).

Definition queues_fresh (m : Manager) : bool :=
  truthy (queues (cache m)) && (clock m - lastUpdate (cache m) <? ttl).

Definition aps_fresh (m : Manager) : bool :=
  match aps (cache m) with
  | Some _ => clock m - lastUpdate (cache m) <? ttl
  | None => false
  end.

(** The call answers [v] from the cache: nothing is sent and the
    manager is as before. *)
Definition served_from_cache {A} (getter : M A) (v : A) (m : Manager) : Prop :=
  getter m = (Value v, m).

(** The call asks the controller: one [GET] of [path] is sent. *)
Definition refetches {A} (getter : M A) (path : string) (m : Manager) : Prop :=
  http_trace (snd (getter m))
  = http_trace m ++ [request "GET" path None m].

(** What the controller answers to the [GET] of [path] sent from [m]. *)
Definition answer (path : string) (m : Manager) : Error + HttpResponse :=
  reply_result (wire m (http_trace m) (request "GET" path None m)).

(** *** A controller whose queues change *)

Definition one_queue : Json :=
  JArr [[(".id", "*1"); ("name", "queue-alice")]]%string.

Definition two_queues : Json :=
  JArr [[(".id", "*1"); ("name", "queue-alice")];
        [(".id", "*2"); ("name", "queue-bob")]]%string.

(** Its first answer lists one queue; every later one lists two. *)
Definition growing_wire : Wire :=
  fun history r =>
    match history with
    | [] => mkReply 20 (inr (mkResponse 200 one_queue))
    | _ => mkReply 20 (inr (mkResponse 200 two_queues))
    end.

Definition router : Config :=
  mkConfig "192.168.88.1" "admin" "secret" None false None.

Definition started : Manager := constructor router 1700000000000 growing_wire.

(** The queues are listed; ten minutes later the users are listed; one
    second later the manager is [after_users]. *)
Definition after_queues : Manager := snd (getQueues started).

Definition after_users : Manager :=
  elapse 1000 (snd (getHotspotUsers (elapse 600000 after_queues))).

End MikrotikSpec.

(* ===================================================================== *)
(** ** MultiSiteManager: the read-only calls *)
(* ===================================================================== *)

Module MultiSiteMore.
Import MultiSite.

(** [data.map(f)] on an arbitrary body held by the variable [var]. *)
Definition array_map (var : string) (f : Obj -> Obj) (d : Json)
  : Error + list Obj :=
  match d with
  | JArr items => inr (map f items)
  | JNull => inl (mkError "Cannot read properties of null (reading 'map')")
  | _ => inl (mkError (var ++ ".map is not a function"))
  end.

(** [data.filter(x => x[k] === v)] on an arbitrary body. *)
Definition array_filter (var k v : string) (d : Json) : Error + list Obj :=
  match d with
  | JArr items =>
      inr (filter (fun o => match get_field k o with
                            | Some v' => String.eqb v' v
                            | None => false
                            end) items)
  | JNull => inl (mkError "Cannot read properties of null (reading 'filter')")
  | _ => inl (mkError (var ++ ".filter is not a function"))
  end.

(** One property [k: x[from]] of an object literal; a property the
    controller did not send stays undefined. *)
Definition prop (k from : string) (x : Obj) : Obj :=
  match get_field from x with
  | Some v => [(k, v)]
  | None => []
  end.

(** One property [k: x[from] || d]. *)
Definition prop_or (k from d : string) (x : Obj) : Obj :=
  [(k, or_string (get_field from x) d)].

Definition getRemoteUsers (siteId : Z) : M Json :=
  try_catch
    (users <- callSiteAPI siteId "/ip/hotspot/user" "GET" None ;;
     ret users)
    (fun _ => ret (JArr [])).

(** Resolves to the statistics, or to [null] ([JNull]) on any error. *)
Definition getRemoteQueueStats (siteId : Z) (username : string) : M Json :=
  try_catch
    (stats <- callSiteAPI siteId ("/queue/simple?numbers=" ++ username)
                          "GET" None ;;
     ret stats)
    (fun _ => ret JNull).

Definition remote_ap_view (ap : Obj) : Obj :=
  prop "id" ".id" ap ++ prop "name" "name" ap ++ prop "ssid" "ssid" ap
  ++ prop "frequency" "frequency" ap ++ prop "band" "band" ap
  ++ prop "mode" "mode" ap ++ prop "running" "running" ap.

Definition getRemoteAPs (siteId : Z) : M (list Obj) :=
  try_catch
    (aps <- callSiteAPI siteId "/interface/wireless" "GET" None ;;
     lift (array_map "aps" remote_ap_view aps))
    (fun _ => ret []).

Definition remote_client_view (c : Obj) : Obj :=
  prop "macAddress" "mac-address" c
  ++ prop_or "ipAddress" "ipv4-address" "N/A" c
  ++ prop "signal" "signal" c ++ prop "txRate" "tx-rate" c
  ++ prop "rxRate" "rx-rate" c ++ prop "uptime" "uptime" c.

Definition getRemoteAPClients (siteId : Z) (interfaceName : string)
  : M (list Obj) :=
  try_catch
    (clients <- callSiteAPI siteId "/interface/wireless/registration-table"
                            "GET" None ;;
     on_interface <-
       lift (array_filter "clients" "interface" interfaceName clients) ;;
     ret (map remote_client_view on_interface))
    (fun _ => ret []).

(** What [data[0]] can be. *)
Inductive Element :=
| EObj (o : Obj)
| EStr (s : string).

(** [data[0]]: the first item of an array, the first character of a
    string, the property [0] of an object; [undefined] is [None]. *)
Definition first_element (d : Json) : Error + option Element :=
  match d with
  | JNull => inl (mkError "Cannot read properties of null (reading '0')")
  | JArr [] => inr None
  | JArr (o :: _) => inr (Some (EObj o))
  | JStr EmptyString => inr None
  | JStr (String c _) => inr (Some (EStr (String c EmptyString)))
  | JObj o => inr (option_map EStr (get_field "0" o))
  end.

(** [{ identity: info[0], resources: resources[0] }]. *)
Record RouterInfo := mkRouterInfo {
  identity : option Element;
  resources : option Element
}.

(** Resolves to the router info, or to [null] ([None]) on any error. *)
Definition getRemoteRouterInfo (siteId : Z) : M (option RouterInfo) :=
  try_catch
    (info <- callSiteAPI siteId "/system/identity" "GET" None ;;
     res <- callSiteAPI siteId "/system/resource" "GET" None ;;
     first_info <- lift (first_element info) ;;
     first_res <- lift (first_element res) ;;
     ret (Some (mkRouterInfo first_info first_res)))
    (fun _ => ret None).

End MultiSiteMore.

(* ===================================================================== *)
(** ** MikrotikManager: probes, clients, backups and syncUser *)
(* ===================================================================== *)

Module MikrotikMore.
Import Mikrotik.

(** [{ success: true, identity }] or [{ success: false, error }]. *)
Record Probe := mkProbe {
  probe_success : bool;
  probe_identity : option string;
  probe_error : option string
}.

(** [response.data[0].name]: reading [name] of [undefined] raises. *)
Definition first_name (d : Json) : Error + option string :=
  let undefined_name :=
    mkError "Cannot read properties of undefined (reading 'name')" in
  match d with
  | JNull => inl (mkError "Cannot read properties of null (reading '0')")
  | JArr [] => inl undefined_name
  | JArr (o :: _) => inr (get_field "name" o)
  | JStr EmptyString => inl undefined_name
  | JStr (String _ _) => inr None
  | JObj o =>
      match get_field "0" o with
      | Some _ => inr None
      | None => inl undefined_name
      end
  end.

Definition testConnection : M Probe :=
  try_catch
    (response <- axios "GET" "/system/identity" None ;;
     name <- lift (first_name (resp_data response)) ;;
     ret (mkProbe true name None))
    (fun error => ret (mkProbe false None (Some (message error)))).

(** [c.interface === interfaceName] *)
Definition on_interface (interfaceName : string) (c : Obj) : bool :=
  match get_field "interface" c with
  | Some v => String.eqb v interfaceName
  | None => false
  end.





(** [s.includes(sub)] *)
Definition includes (sub s : string) : bool :=
  match String.index 0 sub s with
  | Some _ => true
  | None => false
  end.

(** [response.data.filter((f) => f.name.includes('.backup'))]: a file
    without a name raises when [includes] is read. *)
Fixpoint backup_files (files : list Obj) : Error + list Obj :=
  match files with
  | [] => inr []
  | f :: rest =>
      match get_field "name" f with
      | None =>
          inl (mkError
                 "Cannot read properties of undefined (reading 'includes')")
      | Some name =>
          match backup_files rest with
          | inl e => inl e
          | inr kept =>
              inr (if includes ".backup" name then f :: kept else kept)
          end
      end
  end.

Definition getBackups : M (list Obj) :=
  try_catch
    (response <- axios "GET" "/file" None ;;
     match resp_data response with
     | JArr files => lift (backup_files files)
     | JNull =>
         throw (mkError "Cannot read properties of null (reading 'filter')")
     | _ => throw (mkError "response.data.filter is not a function")
     end)
    (fun _ => ret []).

(** *** User Manager *)

(** A property of an options object: not there, there and [undefined],
    or there with a string. *)
Inductive Field :=
| Absent
| Undefined
| Given (s : string).

(** [options[k] || d] *)
Definition field_or (f : Field) (d : string) : string :=
  match f with
  | Given EmptyString => d
  | Given s => s
  | _ => d
  end.

Fixpoint set_prop (k v : string) (o : Obj) : Obj :=
  match o with
  | [] => [(k, v)]
  | (k', v') :: rest =>
      if String.eqb k' k then (k, v) :: rest else (k', v') :: set_prop k v rest
  end.

Definition remove_prop (k : string) (o : Obj) : Obj :=
  filter (fun kv => negb (String.eqb (fst kv) k)) o.

(** What [...options] does to the property [k] of the literal before
    it, as the body is sent: a property that is there overrides, and an
    [undefined] one is left out of the JSON. *)
Definition spread_field (k : string) (f : Field) (o : Obj) : Obj :=
  match f with
  | Absent => o
  | Undefined => remove_prop k o
  | Given v => set_prop k v o
  end.

Record ManagerOptions := mkManagerOptions {
  um_comment : Field;
  um_group : Field;
  um_profile : Field
}.

Definition createUserManagerUser (username password : string)
  (options : ManagerOptions) : M Success :=
  try_catch
    (let body :=
       spread_field "profile" (um_profile options)
         (spread_field "group" (um_group options)
            (spread_field "comment" (um_comment options)
               [("username", username); ("password", password);
                ("comment", field_or (um_comment options) username);
                ("group", field_or (um_group options) "default");
                ("profile", field_or (um_profile options) "default")
               ]%string)) in
     response <- axios "POST" "/user-manager/user" (Some body) ;;
     ret (mkSuccess true (Some (resp_data response))))
    (fun error => throw error).

(** *** syncUser *)

Record UserData := mkUserData {
  ud_password : string;
  ud_bandwidthLimit : option Z;
  ud_sessionTimeout : option Z;
  ud_createUserManager : bool;
  ud_email : option string;
  ud_userManagerProfile : option string
}.





(** The options [syncUser] passes for the User Manager user. *)
Definition sync_manager_options (userData : UserData) : ManagerOptions :=
  mkManagerOptions
    (match ud_email userData with
     | Some e => Given e
     | None => Undefined
     end)
    Absent
    (Given (or_string (ud_userManagerProfile userData) "default")).



End MikrotikMore.

(* ===================================================================== *)
(** ** The routes in front of the multi-site manager *)
(* ===================================================================== *)

(** [backend/routes/multiSite.js], each handler after [authMiddleware]
    has let the request pass. *)
Module Routes.
Import MultiSite MultiSiteMore.

(** What a handler sends: [res.json(body)] with status 200, or
    [res.status(500).json({ error: error.message })]. *)
Record ApiResponse (A : Type) := mkApiResponse {
  res_status : Z;
  res_body : string + A
}.
Arguments mkApiResponse {A} _ _.
Arguments res_status {A} _.
Arguments res_body {A} _.

(** [try { const x = await m; res.json(body(x)) } catch (error) {
    res.status(500).json({ error: error.message }) }] *)
Definition respond {A B} (m : M A) (body : A -> B)
  : World -> ApiResponse B * World :=
  fun w =>
    match m w with
    | (Value x, w') => (mkApiResponse 200 (inr (body x)), w')
    | (Throw error, w') => (mkApiResponse 500 (inl (message error)), w')
    end.

(** [{ success: true, message, ...payload }] *)
Record Report (A : Type) := mkReport {
  rp_success : bool;
  rp_message : string;
  rp_payload : A
}.
Arguments mkReport {A} _ _ _.
Arguments rp_success {A} _.
Arguments rp_message {A} _.
Arguments rp_payload {A} _.


(** [GET /api/sites/:id/users] *)
Definition get_users (id : Z) : World -> ApiResponse Json * World :=
  respond (getRemoteUsers id) (fun users => users).

(** [PUT /api/sites/:id/users/:username], for a body that gives both
    [bandwidthLimit] and [sessionTimeout]. *)
Definition put_user (id : Z) (username : string)
  (bandwidthLimit sessionTimeout : Z)
  : World -> ApiResponse (Report UserResult) * World :=
  respond
    (updateRemoteUser id username
       [("limit-bytes-out", string_of_Z bandwidthLimit);
        ("limit-uptime", string_of_Z sessionTimeout)]%string)
    (fun result =>
       mkReport true ("User '" ++ username ++ "' updated") result).

(** [GET /api/sites/:id/bandwidth/:username/stats] *)
Definition get_stats (id : Z) (username : string)
  : World -> ApiResponse Json * World :=
  respond (getRemoteQueueStats id username) (fun stats => stats).

(** [GET /api/sites/:id/aps] *)
Definition get_aps (id : Z) : World -> ApiResponse (list Obj) * World :=
  respond (getRemoteAPs id) (fun aps => aps).

(** [{ ap, clientCount: clients.length, clients }] *)
Record ClientList := mkClientList {
  cl_ap : string;
  cl_clientCount : Z;
  cl_clients : list Obj
}.

(** [GET /api/sites/:id/aps/:apName/clients] *)
Definition get_clients (id : Z) (apName : string)
  : World -> ApiResponse ClientList * World :=
  respond
    (getRemoteAPClients id apName)
    (fun clients =>
       mkClientList apName (Z.of_nat (List.length clients)) clients).

(** [GET /api/sites/:id/router-info] *)
Definition get_router_info (id : Z)
  : World -> ApiResponse (option RouterInfo) * World :=
  respond (getRemoteRouterInfo id) (fun info => info).

(** [POST /api/sites/users/create-multi], for a body that gives
    [siteIds] as an array. *)
Definition post_create_multi (username password : string)
  (siteIds : list Z) (bandwidthLimit : option Z)
  : World -> ApiResponse (Report (list (SiteOutcome UserResult))) * World :=
  respond
    (createUserAcrossMultipleSites username password siteIds
                                   (mkOptions bandwidthLimit None))
    (fun result =>
       mkReport true
                ("User '" ++ username ++ "' created across "
                   ++ string_of_Z (Z.of_nat (List.length siteIds)) ++ " sites")
                (ca_results result)).

(** [POST /api/sites/users/sync-all] *)
Definition post_sync_all (username password : string)
  (bandwidthLimit : option Z)
  : World -> ApiResponse (Report (list (SiteOutcome UserResult))) * World :=
  respond
    (syncUserAcrossAllSites username password (mkOptions bandwidthLimit None))
    (fun result =>
       mkReport true
                ("User '" ++ username ++ "' synced across all active sites")
                (ca_results result)).

(** [POST /api/sites/bandwidth/update-multi], for a body that gives
    [siteIds] as an array. *)
Definition post_update_multi (username : string) (bw : Z) (siteIds : list Z)
  : World -> ApiResponse (Report (list (SiteOutcome unit))) * World :=
  respond
    (updateBandwidthAcrossMultipleSites username bw siteIds)
    (fun result =>
       mkReport true
                ("Bandwidth updated to " ++ string_of_Z bw ++ "Mbps for '"
                   ++ username ++ "' across "
                   ++ string_of_Z (Z.of_nat (List.length siteIds)) ++ " sites")
                (ba_results result)).

End Routes.

(* ===================================================================== *)
(** ** Vocabulary for the further properties *)
(* ===================================================================== *)

Module MultiSiteExtraSpec.
Import MultiSite MultiSiteSpec MultiSiteMore.

(** The request [testSiteConnection] sends to a remote site. *)
Definition probe_request (site : SiteRow) : HttpRequest :=
  mkRequest "GET"
    (url_of (router_ip site) (or_default (router_port site) 8728)
            "/system/identity")
    (router_user site) (router_pass site) None 5000.

(** The rows of the registry that belong to other sites than [siteId]. *)
Definition other_sites (siteId : Z) (w : World) : list SiteRow :=
  filter (fun s => negb (site_id s =? siteId)) (sites (db w)).

(** The rows of the mirror for one user of one site. *)
Definition mirror_of (siteId : Z) (username : string) (w : World)
  : list RemoteUserRow :=
  filter (fun r => (ru_site_id r =? siteId)
                   && String.eqb (ru_username r) username)
         (remote_users (db w)).

(** The rows of the mirror for everybody else. *)
Definition mirror_of_others (siteId : Z) (username : string) (w : World)
  : list RemoteUserRow :=
  filter (fun r => negb ((ru_site_id r =? siteId)
                         && String.eqb (ru_username r) username))
         (remote_users (db w)).



(** The entry [registerSite] puts into [this.sites]. *)
Definition cached (siteData : SiteData) (site : RegisteredSite)
  : CachedSite :=
  mkCached site (sd_routerIP siteData) (sd_routerPort siteData)
           (sd_routerUser siteData) (sd_routerPass siteData).

(** The second call of [updateRemoteUser]. *)
Definition put_call (siteId : Z) (u : Obj) (updates : Obj) : M Json :=
  callSiteAPI siteId ("/ip/hotspot/user/" ++ show_field ".id" u) "PUT"
              (Some updates).

(** The row [logSiteAPICall] writes for an answered call. *)
Definition audit_row (siteId : Z) (endpoint method : string)
  (resp : HttpResponse) (t : Z) : ApiLogRow :=
  mkApiLog siteId endpoint method (resp_status resp) t.

(** The second query of a call is rejected by the database. *)
Definition second_query_rejected (w : World) : Prop :=
  exists m, hd None (tl (db_faults w)) = Some m.

End MultiSiteExtraSpec.
(* ===================================================================== *)
(** ** Vocabulary for the routes *)
(* ===================================================================== *)

Module RoutesSpec.
Import MultiSite MultiSiteSpec MultiSiteMore MultiSiteExtraSpec Routes.

(** No read call gets through to the site: whatever the endpoint, the
    call throws. *)
Definition no_read_gets_through (id : Z) (w : World) : Prop :=
  forall endpoint, throws (callSiteAPI id endpoint "GET" None) w.

(** The updates the route [PUT /:id/users/:username] hands on. *)
Definition route_updates (bandwidthLimit sessionTimeout : Z) : Obj :=
  [("limit-bytes-out", string_of_Z bandwidthLimit);
   ("limit-uptime", string_of_Z sessionTimeout)]%string.


(** A controller that lists the user alice and accepts every change. *)
Definition obliging_wire : Wire :=
  fun _ r =>
    if String.eqb (req_method r) "GET" then
      mkReply 20 (inr (mkResponse 200
                         (JArr [[(".id", "*3"); ("name", "alice")]]%string)))
    else
      mkReply 20 (inr (mkResponse 200 (JObj [(".id", "*3")]%string))).

Definition obliging : World :=
  mkWorld (mkDb [branch 1 "remote" "10.0.0.1" "active"] 1
                [mkRemoteUser 1 "alice" "pw" 10 None 0] [] [])
          [] 1700000000000 obliging_wire []
          (fun _ _ => "c0ffee"%string) 0 [] [] [].

End RoutesSpec.
(* ===================================================================== *)
(** ** Vocabulary for the further properties of the device client *)
(* ===================================================================== *)

Module MikrotikExtraSpec.
Import Mikrotik MikrotikSpec MikrotikMore.

(** Method and URL of a request. *)
Definition line (q : HttpRequest) : string * string :=
  (req_method q, req_url q).

(** The requests sent between [m] and [m']. *)
Definition sent (m m' : Manager) : list HttpRequest :=
  skipn (List.length (http_trace m)) (http_trace m').




(** The property [k] of the body of a request. *)
Definition sent_field (k : string) (q : HttpRequest) : option string :=
  match req_data q with
  | Some body => get_field k body
  | None => None
  end.




(** A controller that is down. *)
Definition down_wire : Wire :=
  fun _ r => mkReply (req_timeout r) (inl (mkError "connect ECONNREFUSED")).

Definition down : Manager := constructor router 1700000000000 down_wire.

(** A controller that answers the identity request with an empty
    array. *)
Definition nameless_wire : Wire :=
  fun _ r => mkReply 20 (inr (mkResponse 200 (JArr []))).

(** [data[0]] is not [undefined]. *)
Definition has_first_item (d : Json) : bool :=
  match d with
  | JArr (_ :: _) => true
  | JStr (String _ _) => true
  | JObj o => match get_field "0" o with Some _ => true | None => false end
  | _ => false
  end.

(** What is sent for a property with default [d] once [...options] has
    been applied: the default only when [options] has no such key. *)
Definition overridden (f : Field) (d : string) : option string :=
  match f with
  | Absent => Some d
  | Undefined => None
  | Given v => Some v
  end.

(** [f.name.includes('.backup')] for a file that has a name. *)
Definition is_backup (f : Obj) : bool :=
  match get_field "name" f with
  | Some name => includes ".backup" name
  | None => false
  end.

Definition named (f : Obj) : Prop := get_field "name" f <> None.


(** A controller whose file list holds a backup and an entry without
    a name. *)
Definition files_wire : Wire :=
  fun _ r =>
    mkReply 20 (inr (mkResponse 200
                       (JArr [[("name", "monday.backup"); ("size", "4096")];
                              [("size", "12")]]%string))).

End MikrotikExtraSpec.

(* ===================================================================== *)
(** ** Running promises *)
(* ===================================================================== *)

Module PromiseFacts.

Lemma bind_value {W A B} (m : Promise W A) (k : A -> Promise W B) w a w' :
  m w = (Value a, w') -> bind m k w = k a w'.
Proof. intros H. unfold bind. rewrite H. reflexivity. Qed.

(** [try { ... } catch (error) { throw error }] changes nothing. *)
Lemma rethrow_id {W A} (m : Promise W A) w :
  try_catch m (fun error => throw error) w = m w.
Proof. unfold try_catch, throw. destruct (m w) as [[a|e] w']; reflexivity. Qed.

End PromiseFacts.

(* ===================================================================== *)
(** ** Properties of the multi-site manager *)
(* ===================================================================== *)

Module MultiSiteProofs.
Import MultiSite MultiSiteSpec PromiseFacts.

(** *** What a world keeps across a call *)

Lemma faults_consumed_trans w1 w2 w3 :
  faults_consumed w1 w2 -> faults_consumed w2 w3 -> faults_consumed w1 w3.
Proof.
  intros [n Hn] [m Hm]. exists (m + n)%nat.
  rewrite Hm, Hn. apply skipn_skipn.
Qed.

Lemma keeps_trans w1 w2 w3 :
  keeps_registry_and_mirror w1 w2 -> keeps_registry_and_mirror w2 w3 ->
  keeps_registry_and_mirror w1 w3.
Proof.
  intros [[A1 [A2 A3]] [B [C [D E]]]] [[A1' [A2' A3']] [B' [C' [D' E']]]].
  repeat split; try congruence.
  eapply faults_consumed_trans; eauto.
Qed.

Lemma after_query_keeps w : keeps_registry_and_mirror w (after_query w).
Proof.
  repeat split. exists 1%nat. simpl. destruct (db_faults w); reflexivity.
Qed.

(** *** Queries *)

(** The one equation of [db_query]. *)
Lemma db_query_eq {A} (stmt : Z -> Db -> Error + (A * Db)) w :
  db_query stmt w =
  match hd None (db_faults w) with
  | Some m => (Throw (mkError m), after_query w)
  | None =>
      match stmt (clock w) (db w) with
      | inl e => (Throw e, after_query w)
      | inr (a, d) => (Value a, with_db (fun _ => d) (after_query w))
      end
  end.
Proof.
  unfold db_query, after_query.
  destruct (db_faults w) as [|[m|] rest]; reflexivity.
Qed.

(** A [SELECT] either is rejected or gives its rows; the tables stay. *)
Lemma select_cases {A} (q : Db -> A) w :
  db_query (reading q) w =
  match hd None (db_faults w) with
  | Some m => (Throw (mkError m), after_query w)
  | None => (Value (q (db w)), after_query w)
  end.
Proof.
  unfold db_query, reading, after_query.
  destruct (db_faults w) as [|[m|] rest]; simpl; try reflexivity;
    destruct w as [d f c wi tr rh rc sm em ti]; reflexivity.
Qed.

(** *** The remote API client *)

(** [logSiteAPICall] never throws and only appends to the audit log. *)
Lemma logSiteAPICall_spec siteId endpoint method code w :
  exists w', logSiteAPICall siteId endpoint method code w = (Value tt, w')
             /\ keeps_registry_and_mirror w w'
             /\ http_trace w' = http_trace w.
Proof.
  unfold logSiteAPICall, try_catch, db_query, insert_api_log, ret.
  destruct (db_faults w) as [|[m|] rest] eqn:F; simpl;
    eexists; (split; [reflexivity|]); repeat split; simpl;
    first [ exists 0%nat; simpl; rewrite F; reflexivity
          | exists 1%nat; simpl; rewrite F; reflexivity ].
Qed.

Lemma callSiteAPI_outcome siteId endpoint method data w r w' :
  callSiteAPI siteId endpoint method data w = (r, w') ->
  api_outcome siteId endpoint method data w r w'.
Proof.
  unfold callSiteAPI. rewrite rethrow_id.
  unfold bind at 1. rewrite select_cases.
  destruct (hd None (db_faults w)) as [m|] eqn:F.
  { intros [= <- <-]. apply api_rejected; assumption. }
  destruct (select_site siteId (db w)) as [|site rest] eqn:S.
  { intros [= <- <-]. apply api_no_site; assumption. }
  destruct (String.eqb (site_type site) "remote") eqn:T; simpl.
  2:{ intros [= <- <-]. apply api_not_remote with site rest; auto.
      apply String.eqb_neq; assumption. }
  apply String.eqb_eq in T.
  fold (api_request site endpoint method data).
  unfold bind, axios.
  change (wire (after_query w)) with (wire w).
  change (http_trace (after_query w)) with (http_trace w).
  set (req := api_request site endpoint method data).
  destruct (reply_result (wire w (http_trace w) req)) as [e|resp] eqn:R.
  - intros [= <- <-].
    apply api_unreachable with site rest; try assumption; try reflexivity.
    repeat split. exists 1%nat. simpl. destruct (db_faults w); reflexivity.
  - destruct (logSiteAPICall_spec siteId endpoint method (resp_status resp)
                (with_wire_step
                   (reply_latency (wire w (http_trace w) req)) req
                   (after_query w))) as [w1 [L [K Tr]]].
    rewrite L. intros [= <- <-].
    apply api_answered with site rest; try assumption.
    eapply keeps_trans; [|exact K].
    repeat split. exists 1%nat. simpl. destruct (db_faults w); reflexivity.
Qed.

Create HintDb registry.
#[local] Hint Resolve after_query_keeps : registry.

Lemma callSiteAPI_keeps siteId endpoint method data w r w' :
  callSiteAPI siteId endpoint method data w = (r, w') ->
  keeps_registry_and_mirror w w'.
Proof.
  intros H. apply callSiteAPI_outcome in H.
  destruct H; auto with registry.
Qed.

Lemma callSiteAPI_sent siteId endpoint method data w r w' :
  callSiteAPI siteId endpoint method data w = (r, w') ->
  sent_to_site siteId w w'.
Proof.
  intros H. apply callSiteAPI_outcome in H.
  destruct H; try (left; reflexivity);
    right; exists site, rest, endpoint, method, data; auto.
Qed.

(** *** Provisioning a user on one site *)

Lemma createRemoteUser_eq siteId username password options w :
  createRemoteUser siteId username password options w =
  match create_call siteId username password options w with
  | (Throw e, w1) => (Throw e, w1)
  | (Value d, w1) =>
      match hd None (db_faults w1) with
      | Some m => (Throw (mkError m), after_query w1)
      | None =>
          (Value (mkUserResult true d),
           with_db (fun b =>
                      mkDb (sites b) (sites_seq b)
                           (remote_users b
                              ++ [mirror_row siteId username password options
                                             (clock w1)])
                           (site_api_logs b) (site_management_tokens b))
                   (after_query w1))
      end
  end.
Proof.
  unfold createRemoteUser, create_call. rewrite rethrow_id. unfold bind at 1.
  destruct (callSiteAPI siteId "/ip/hotspot/user" "POST"
              (Some (user_payload username password options)) w)
    as [[d|e] w1]; [|reflexivity].
  unfold bind. rewrite db_query_eq.
  destruct (hd None (db_faults w1)); reflexivity.
Qed.

Lemma createRemoteUser_registry siteId username password options w r w' :
  createRemoteUser siteId username password options w = (r, w') ->
  same_registry w w' /\ faults_consumed w w' /\ wire w' = wire w.
Proof.
  rewrite createRemoteUser_eq. unfold create_call.
  destruct (callSiteAPI siteId "/ip/hotspot/user" "POST"
              (Some (user_payload username password options)) w)
    as [[d|e] w1] eqn:C;
    apply callSiteAPI_keeps in C; destruct C as [R [U [E [Wi F]]]].
  - destruct (hd None (db_faults w1)) eqn:H1; intros [= <- <-];
      (split; [exact R|split; [|exact Wi]]);
      (eapply faults_consumed_trans; [exact F|]);
      exists 1%nat; simpl; destruct (db_faults w1); reflexivity.
  - intros [= <- <-]. auto.
Qed.

(** A failed [createRemoteUser] leaves the mirror as it was. *)
Lemma createRemoteUser_failure siteId username password options w e w' :
  createRemoteUser siteId username password options w = (Throw e, w') ->
  remote_users (db w') = remote_users (db w).
Proof.
  rewrite createRemoteUser_eq. unfold create_call.
  destruct (callSiteAPI siteId "/ip/hotspot/user" "POST"
              (Some (user_payload username password options)) w)
    as [[d|e1] w1] eqn:C;
    apply callSiteAPI_keeps in C; destruct C as [R [U [E [Wi F]]]].
  - destruct (hd None (db_faults w1)) eqn:H1; intros [= <- <-].
    exact U.
  - intros [= <- <-]. exact U.
Qed.

Lemma createRemoteUser_sent siteId username password options w r w' :
  createRemoteUser siteId username password options w = (r, w') ->
  sent_to_site siteId w w'.
Proof.
  rewrite createRemoteUser_eq. unfold create_call.
  destruct (callSiteAPI siteId "/ip/hotspot/user" "POST"
              (Some (user_payload username password options)) w)
    as [[d|e1] w1] eqn:C; apply callSiteAPI_sent in C.
  - destruct (hd None (db_faults w1)) eqn:H1; intros [= <- <-]; exact C.
  - intros [= <- <-]. exact C.
Qed.

Lemma deleteRemoteUser_eq siteId username w :
  deleteRemoteUser siteId username w =
  match list_call siteId w with
  | (Throw e, w1) => (Throw e, w1)
  | (Value listed, w1) =>
      match json_find "users" "name" username listed with
      | inl e => (Throw e, w1)
      | inr None => (Throw (user_not_found username), w1)
      | inr (Some u) =>
          match delete_call siteId u w1 with
          | (Throw e, w2) => (Throw e, w2)
          | (Value _, w2) =>
              match hd None (db_faults w2) with
              | Some m => (Throw (mkError m), after_query w2)
              | None =>
                  (Value true,
                   with_db (mirror_without siteId username) (after_query w2))
              end
          end
      end
  end.
Proof.
  unfold deleteRemoteUser, list_call, delete_call. rewrite rethrow_id.
  unfold bind at 1.
  destruct (callSiteAPI siteId "/ip/hotspot/user" "GET" None w)
    as [[listed|e] w1]; [|reflexivity].
  unfold bind at 1.
  destruct (json_find "users" "name" username listed) as [e|[u|]];
    try reflexivity.
  simpl lift. unfold ret at 1. unfold bind at 1.
  destruct (callSiteAPI siteId ("/ip/hotspot/user/" ++ show_field ".id" u)
              "DELETE" None w1) as [[d|e] w2]; [|reflexivity].
  unfold bind. rewrite db_query_eq.
  destruct (hd None (db_faults w2)); reflexivity.
Qed.

(** *** Bandwidth on one site *)

Lemma updateRemoteQueueBandwidth_eq siteId username bw w :
  updateRemoteQueueBandwidth siteId username bw w =
  match queue_list_call siteId w with
  | (Throw e, w1) => (Throw e, w1)
  | (Value listed, w1) =>
      match json_find "queues" "name" ("queue-" ++ username) listed with
      | inl e => (Throw e, w1)
      | inr None =>
          (Throw (mkError ("Queue not found for user: " ++ username)), w1)
      | inr (Some q) =>
          match queue_put_call siteId q bw w1 with
          | (Throw e, w2) => (Throw e, w2)
          | (Value d, w2) => (Value (mkQueueResult true d), w2)
          end
      end
  end.
Proof.
  unfold updateRemoteQueueBandwidth, queue_list_call, queue_put_call.
  rewrite rethrow_id. unfold bind at 1.
  destruct (callSiteAPI siteId "/queue/simple" "GET" None w)
    as [[listed|e] w1]; [|reflexivity].
  unfold bind at 1.
  destruct (json_find "queues" "name" ("queue-" ++ username) listed)
    as [e|[q|]]; reflexivity.
Qed.

Lemma updateRemoteQueueBandwidth_keeps siteId username bw w r w' :
  updateRemoteQueueBandwidth siteId username bw w = (r, w') ->
  keeps_registry_and_mirror w w'.
Proof.
  rewrite updateRemoteQueueBandwidth_eq.
  destruct (queue_list_call siteId w) as [[listed|e] w1] eqn:C1;
    apply callSiteAPI_keeps in C1.
  2:{ intros [= <- <-]. exact C1. }
  destruct (json_find "queues" "name" ("queue-" ++ username) listed)
    as [e|[q|]]; try (intros [= <- <-]; exact C1).
  destruct (queue_put_call siteId q bw w1) as [[d|e] w2] eqn:C2;
    apply callSiteAPI_keeps in C2;
    intros [= <- <-]; eapply keeps_trans; eauto.
Qed.

(** *** One operation on many sites *)

Section Sweep.

Context {R : Type}.
Variable body : Z -> list (SiteOutcome R) -> M (list (SiteOutcome R)).
Variable entry : Z -> World -> SiteOutcome R.
Variable next : Z -> World -> World.

(** The body of the loop never throws and pushes one entry. *)
Hypothesis body_pushes :
  forall siteId acc w,
    body siteId acc w = (Value (acc ++ [entry siteId w]), next siteId w).
Hypothesis entry_site : forall siteId w, so_siteId (entry siteId w) = siteId.

Lemma for_of_sweep siteIds acc w :
  for_of siteIds body acc w
  = (Value (acc ++ fst (sweep entry next siteIds w)),
     snd (sweep entry next siteIds w)).
Proof.
  revert acc w. induction siteIds as [|s rest IH]; intros acc w; simpl.
  - unfold ret. rewrite app_nil_r. reflexivity.
  - unfold bind. rewrite body_pushes. rewrite IH.
    destruct (sweep entry next rest (next s w)) as [entries w'].
    simpl. rewrite <- app_assoc. reflexivity.
Qed.

Lemma sweep_sites siteIds w :
  map so_siteId (fst (sweep entry next siteIds w)) = siteIds.
Proof.
  revert w. induction siteIds as [|s rest IH]; intros w; simpl.
  - reflexivity.
  - specialize (IH (next s w)).
    destruct (sweep entry next rest (next s w)) as [entries w'].
    simpl in *. rewrite entry_site, IH. reflexivity.
Qed.

Lemma sweep_app pre post w :
  sweep entry next (pre ++ post) w
  = (fst (sweep entry next pre w)
       ++ fst (sweep entry next post (snd (sweep entry next pre w))),
     snd (sweep entry next post (snd (sweep entry next pre w)))).
Proof.
  revert w. induction pre as [|s pre IH]; intros w; simpl.
  - destruct (sweep entry next post w); reflexivity.
  - rewrite IH.
    destruct (sweep entry next pre (next s w)) as [entries w'].
    reflexivity.
Qed.

Lemma sweep_cons s post w :
  sweep entry next (s :: post) w
  = (entry s w :: fst (sweep entry next post (next s w)),
     snd (sweep entry next post (next s w))).
Proof.
  simpl. destruct (sweep entry next post (next s w)); reflexivity.
Qed.

End Sweep.

Lemma create_on_site_pushes username password options siteId acc w :
  create_on_site username password options siteId acc w
  = (Value (acc ++ [create_entry siteId
                      (fst (createRemoteUser siteId username password
                                             options w))]),
     snd (createRemoteUser siteId username password options w)).
Proof.
  unfold create_on_site, try_catch, bind, ret.
  destruct (createRemoteUser siteId username password options w)
    as [[result|e] w']; reflexivity.
Qed.

Lemma update_on_site_pushes username bw siteId acc w :
  update_on_site username bw siteId acc w
  = (Value (acc ++ [update_entry siteId
                      (fst (updateRemoteQueueBandwidth siteId username bw w))]),
     snd (updateRemoteQueueBandwidth siteId username bw w)).
Proof.
  unfold update_on_site, try_catch, bind, ret.
  destruct (updateRemoteQueueBandwidth siteId username bw w)
    as [[result|e] w']; reflexivity.
Qed.

Lemma create_entry_site siteId r : so_siteId (create_entry siteId r) = siteId.
Proof. destruct r; reflexivity. Qed.

Lemma update_entry_site siteId r : so_siteId (update_entry siteId r) = siteId.
Proof. destruct r; reflexivity. Qed.

(** [createUserAcrossMultipleSites] is the sweep of [createRemoteUser]. *)
Lemma createUserAcrossMultipleSites_sweep username password siteIds options w :
  createUserAcrossMultipleSites username password siteIds options w
  = (Value (mkCreateAcross username
              (fst (create_sweep username password options siteIds w))),
     snd (create_sweep username password options siteIds w)).
Proof.
  unfold createUserAcrossMultipleSites. rewrite rethrow_id. unfold bind.
  rewrite (for_of_sweep _ _ _
             (create_on_site_pushes username password options)).
  reflexivity.
Qed.

(** [updateBandwidthAcrossMultipleSites] is the sweep of
    [updateRemoteQueueBandwidth]. *)
Lemma updateBandwidthAcrossMultipleSites_sweep username bw siteIds w :
  updateBandwidthAcrossMultipleSites username bw siteIds w
  = (Value (mkBandwidthAcross username bw
              (fst (update_sweep username bw siteIds w))),
     snd (update_sweep username bw siteIds w)).
Proof.
  unfold updateBandwidthAcrossMultipleSites. rewrite rethrow_id. unfold bind.
  rewrite (for_of_sweep _ _ _ (update_on_site_pushes username bw)).
  reflexivity.
Qed.

(** *** Sites that do not influence each other *)

Lemma calm_kept w w' :
  keeps_registry_and_mirror w w' -> calm w -> calm w' /\ same_view w w'.
Proof.
  intros [[S _] [_ [_ [Wi [n F]]]]] [C M]. repeat split; auto.
  - rewrite F, C. apply skipn_nil.
  - rewrite Wi. exact M.
Qed.

Lemma same_view_trans w1 w2 w3 :
  same_view w1 w2 -> same_view w2 w3 -> same_view w1 w3.
Proof. intros [A B] [A' B']. split; congruence. Qed.

Lemma same_view_sym w1 w2 : same_view w1 w2 -> same_view w2 w1.
Proof. intros [A B]. split; congruence. Qed.

(** What [callSiteAPI] resolves to when the lookup is answered. *)
Lemma callSiteAPI_value siteId endpoint method data w :
  hd None (db_faults w) = None ->
  fst (callSiteAPI siteId endpoint method data w) =
  match select_site siteId (db w) with
  | [] => Throw (mkError "Site not found")
  | site :: _ =>
      if String.eqb (site_type site) "remote" then
        match reply_result (wire w (http_trace w)
                                 (api_request site endpoint method data)) with
        | inl e => Throw e
        | inr resp => Value (resp_data resp)
        end
      else Throw not_remote_error
  end.
Proof.
  intros F.
  destruct (callSiteAPI siteId endpoint method data w) as [r w'] eqn:C.
  apply callSiteAPI_outcome in C. simpl.
  destruct C as [m F'| F' S | site rest F' S T | site rest e w' F' S T R
                 | site rest resp w' F' S T R].
  - congruence.
  - rewrite S. reflexivity.
  - rewrite S. apply String.eqb_neq in T. rewrite T. reflexivity.
  - rewrite S, T, R. reflexivity.
  - rewrite S, T, R. reflexivity.
Qed.

Lemma callSiteAPI_independent siteId endpoint method data w w' :
  calm w -> calm w' -> same_view w w' ->
  fst (callSiteAPI siteId endpoint method data w')
  = fst (callSiteAPI siteId endpoint method data w).
Proof.
  intros [C M] [C' M'] [S Wi].
  rewrite !callSiteAPI_value by (rewrite ?C, ?C'; reflexivity).
  unfold select_site. rewrite S, Wi.
  destruct (filter (fun s => site_id s =? siteId) (sites (db w)))
    as [|site rest]; [reflexivity|].
  rewrite (M (http_trace w') (http_trace w)). reflexivity.
Qed.

Lemma createRemoteUser_independent siteId username password options w w' :
  calm w -> calm w' -> same_view w w' ->
  fst (createRemoteUser siteId username password options w')
  = fst (createRemoteUser siteId username password options w).
Proof.
  intros Cw Cw' V.
  pose proof (callSiteAPI_independent siteId "/ip/hotspot/user" "POST"
                (Some (user_payload username password options))
                w w' Cw Cw' V) as E.
  rewrite !createRemoteUser_eq. unfold create_call.
  destruct (callSiteAPI siteId "/ip/hotspot/user" "POST"
              (Some (user_payload username password options)) w)
    as [r1 w1] eqn:C1.
  destruct (callSiteAPI siteId "/ip/hotspot/user" "POST"
              (Some (user_payload username password options)) w')
    as [r1' w1'] eqn:C1'.
  simpl in E. subst r1'.
  apply callSiteAPI_keeps in C1. apply callSiteAPI_keeps in C1'.
  destruct (calm_kept _ _ C1 Cw) as [[F1 _] _].
  destruct (calm_kept _ _ C1' Cw') as [[F1' _] _].
  destruct r1 as [d|e]; [|reflexivity].
  rewrite F1, F1'. reflexivity.
Qed.

Lemma updateRemoteQueueBandwidth_independent siteId username bw w w' :
  calm w -> calm w' -> same_view w w' ->
  fst (updateRemoteQueueBandwidth siteId username bw w')
  = fst (updateRemoteQueueBandwidth siteId username bw w).
Proof.
  intros Cw Cw' V.
  pose proof (callSiteAPI_independent siteId "/queue/simple" "GET" None
                w w' Cw Cw' V) as E.
  rewrite !updateRemoteQueueBandwidth_eq. unfold queue_list_call.
  destruct (callSiteAPI siteId "/queue/simple" "GET" None w)
    as [r1 w1] eqn:C1.
  destruct (callSiteAPI siteId "/queue/simple" "GET" None w')
    as [r1' w1'] eqn:C1'.
  simpl in E. subst r1'.
  destruct r1 as [listed|e]; [|reflexivity].
  apply callSiteAPI_keeps in C1. apply callSiteAPI_keeps in C1'.
  destruct (calm_kept _ _ C1 Cw) as [Cw1 V1].
  destruct (calm_kept _ _ C1' Cw') as [Cw1' V1'].
  assert (V2 : same_view w1 w1').
  { eapply same_view_trans; [apply same_view_sym; exact V1|].
    eapply same_view_trans; [exact V|exact V1']. }
  destruct (json_find "queues" "name" ("queue-" ++ username) listed)
    as [e|[q|]]; try reflexivity.
  pose proof (callSiteAPI_independent siteId
                ("/queue/simple/" ++ show_field ".id" q) "PUT"
                (Some [("max-limit"%string, rate bw);
                       ("limit-at"%string, rate (bw / 2))])
                w1 w1' Cw1 Cw1' V2) as E2.
  unfold queue_put_call.
  destruct (callSiteAPI siteId ("/queue/simple/" ++ show_field ".id" q) "PUT"
              (Some [("max-limit"%string, rate bw);
                     ("limit-at"%string, rate (bw / 2))]) w1)
    as [r2 w2].
  destruct (callSiteAPI siteId ("/queue/simple/" ++ show_field ".id" q) "PUT"
              (Some [("max-limit"%string, rate bw);
                     ("limit-at"%string, rate (bw / 2))]) w1')
    as [r2' w2'].
  simpl in E2. subst r2'. destruct r2; reflexivity.
Qed.

Section IndependentSweep.

Context {R : Type}.
Variable entry : Z -> World -> SiteOutcome R.
Variable next : Z -> World -> World.

Hypothesis entry_independent :
  forall s w w', calm w -> calm w' -> same_view w w' ->
                 entry s w' = entry s w.
Hypothesis next_calm :
  forall s w, calm w -> calm (next s w) /\ same_view w (next s w).

Lemma sweep_independent siteIds w0 w :
  calm w0 -> calm w -> same_view w0 w ->
  fst (sweep entry next siteIds w) = map (fun s => entry s w0) siteIds.
Proof.
  revert w. induction siteIds as [|s rest IH]; intros w C0 C V.
  - reflexivity.
  - rewrite sweep_cons. cbn [fst map].
    destruct (next_calm s w C) as [Cn Vn].
    rewrite (entry_independent s w0 w C0 C V).
    rewrite (IH (next s w) C0 Cn (same_view_trans _ _ _ V Vn)).
    reflexivity.
Qed.

End IndependentSweep.

Lemma same_view_refl w : same_view w w.
Proof. split; reflexivity. Qed.

Lemma create_sweep_independent username password options siteIds w :
  calm w ->
  fst (create_sweep username password options siteIds w)
  = map (fun s => create_entry s
                    (fst (createRemoteUser s username password options w)))
        siteIds.
Proof.
  intros C.
  apply (sweep_independent
           (fun s w => create_entry s
                         (fst (createRemoteUser s username password
                                                options w)))
           (fun s w => snd (createRemoteUser s username password options w)));
    auto using same_view_refl.
  - intros s w1 w2 C1 C2 V. f_equal.
    apply createRemoteUser_independent; assumption.
  - intros s w1 C1.
    destruct (createRemoteUser s username password options w1)
      as [r w2] eqn:E.
    apply createRemoteUser_registry in E. destruct E as [[S _] [[n F] Wi]].
    destruct C1 as [C1 M]. simpl. repeat split; auto.
    + rewrite F, C1. apply skipn_nil.
    + rewrite Wi. exact M.
Qed.

Lemma update_sweep_independent username bw siteIds w :
  calm w ->
  fst (update_sweep username bw siteIds w)
  = map (fun s => update_entry s
                    (fst (updateRemoteQueueBandwidth s username bw w)))
        siteIds.
Proof.
  intros C.
  apply (sweep_independent
           (fun s w => update_entry s
                         (fst (updateRemoteQueueBandwidth s username bw w)))
           (fun s w => snd (updateRemoteQueueBandwidth s username bw w)));
    auto using same_view_refl.
  - intros s w1 w2 C1 C2 V. f_equal.
    apply updateRemoteQueueBandwidth_independent; assumption.
  - intros s w1 C1.
    destruct (updateRemoteQueueBandwidth s username bw w1) as [r w2] eqn:E.
    apply updateRemoteQueueBandwidth_keeps in E. simpl.
    apply calm_kept; assumption.
Qed.

(** C2.  Whatever happens on the sites, a fan-out resolves, and its
    [results] hold one entry per element of the requested list, in the
    order of the request: as many entries as requested ids, for each id
    as many entries as the times it was requested (none dropped, none
    added), and no two entries for one site when the request names no
    site twice. *)
Theorem fan_out_one_entry_per_requested_site :
  forall username password options bw siteIds w,
    (exists r w',
        createUserAcrossMultipleSites username password siteIds options w
        = (Value r, w')
        /\ map so_siteId (ca_results r) = siteIds
        /\ List.length (ca_results r) = List.length siteIds
        /\ (forall s, count_occ Z.eq_dec (map so_siteId (ca_results r)) s
                      = count_occ Z.eq_dec siteIds s)
        /\ (NoDup siteIds -> NoDup (map so_siteId (ca_results r))))
    /\ (exists r w',
           updateBandwidthAcrossMultipleSites username bw siteIds w
           = (Value r, w')
           /\ map so_siteId (ba_results r) = siteIds
           /\ List.length (ba_results r) = List.length siteIds
           /\ (forall s, count_occ Z.eq_dec (map so_siteId (ba_results r)) s
                         = count_occ Z.eq_dec siteIds s)
           /\ (NoDup siteIds -> NoDup (map so_siteId (ba_results r)))).
Proof.
  intros username password options bw siteIds w. split.
  - rewrite createUserAcrossMultipleSites_sweep.
    eexists; eexists; split; [reflexivity|]. simpl.
    assert (E : map so_siteId
                    (fst (create_sweep username password options siteIds w))
                = siteIds).
    { apply sweep_sites. intros s w0. apply create_entry_site. }
    split; [exact E|]. split; [|split].
    + rewrite <- E at 2. rewrite length_map. reflexivity.
    + intros s. rewrite E. reflexivity.
    + rewrite E. auto.
  - rewrite updateBandwidthAcrossMultipleSites_sweep.
    eexists; eexists; split; [reflexivity|]. simpl.
    assert (E : map so_siteId (fst (update_sweep username bw siteIds w))
                = siteIds).
    { apply sweep_sites. intros s w0. apply update_entry_site. }
    split; [exact E|]. split; [|split].
    + rewrite <- E at 2. rewrite length_map. reflexivity.
    + intros s. rewrite E. reflexivity.
    + rewrite E. auto.
Qed.

(** C1.  A site whose operation throws does not end the fan-out.  Split
    the requested list around any site [s].  The fan-out over the sites
    before [s] resolves; if the operation on [s] then throws [e], the
    failed call has changed neither the registry nor the mirror of
    provisioned users, the fan-out over the sites after [s] resolves
    from the world the failed call left, with one entry per site, and
    the fan-out over the whole list resolves to the results of the
    sites before [s], then the failure entry of [s] with the message of
    [e], then exactly the results of the sites after [s].  And in a
    calm world, where no query is rejected and the controllers answer a
    request the same way whatever was asked before, the entry of every
    site is the one its own operation gives in the starting world,
    whether or not another site fails. *)
Theorem fan_out_survives_site_failure :
  forall username password options bw pre s post w,
    (exists ra w1,
        createUserAcrossMultipleSites username password pre options w
        = (Value ra, w1)
        /\ forall e w2,
             createRemoteUser s username password options w1 = (Throw e, w2) ->
             same_registry w1 w2
             /\ remote_users (db w2) = remote_users (db w1)
             /\ exists rb w3,
                  createUserAcrossMultipleSites username password post
                                                options w2
                  = (Value rb, w3)
                  /\ map so_siteId (ca_results rb) = post
                  /\ createUserAcrossMultipleSites username password
                       (pre ++ s :: post) options w
                     = (Value (mkCreateAcross username
                                 (ca_results ra
                                    ++ failure_entry s e :: ca_results rb)),
                        w3))
    /\ (exists ra w1,
           updateBandwidthAcrossMultipleSites username bw pre w
           = (Value ra, w1)
           /\ forall e w2,
                updateRemoteQueueBandwidth s username bw w1 = (Throw e, w2) ->
                same_registry w1 w2
                /\ remote_users (db w2) = remote_users (db w1)
                /\ exists rb w3,
                     updateBandwidthAcrossMultipleSites username bw post w2
                     = (Value rb, w3)
                     /\ map so_siteId (ba_results rb) = post
                     /\ updateBandwidthAcrossMultipleSites username bw
                          (pre ++ s :: post) w
                        = (Value (mkBandwidthAcross username bw
                                    (ba_results ra
                                       ++ failure_entry s e :: ba_results rb)),
                           w3))
    /\ (calm w ->
        exists r w',
          createUserAcrossMultipleSites username password (pre ++ s :: post)
                                        options w
          = (Value r, w')
          /\ ca_results r
             = map (fun t =>
                      create_entry t
                        (fst (createRemoteUser t username password options w)))
                   (pre ++ s :: post))
    /\ (calm w ->
        exists r w',
          updateBandwidthAcrossMultipleSites username bw (pre ++ s :: post) w
          = (Value r, w')
          /\ ba_results r
             = map (fun t =>
                      update_entry t
                        (fst (updateRemoteQueueBandwidth t username bw w)))
                   (pre ++ s :: post)).
Proof.
  intros username password options bw pre s post w.
  split; [|split; [|split]].
  3:{ intros C. rewrite createUserAcrossMultipleSites_sweep.
      eexists; eexists. split; [reflexivity|].
      apply create_sweep_independent; assumption. }
  3:{ intros C. rewrite updateBandwidthAcrossMultipleSites_sweep.
      eexists; eexists. split; [reflexivity|].
      apply update_sweep_independent; assumption. }
  - rewrite !createUserAcrossMultipleSites_sweep.
    eexists; eexists. split; [reflexivity|]. intros e w2 Hs.
    split; [|split].
    + apply createRemoteUser_registry in Hs. apply Hs.
    + eapply createRemoteUser_failure; eauto.
    + rewrite createUserAcrossMultipleSites_sweep.
      eexists; eexists. split; [reflexivity|]. simpl ca_results. split.
      * apply sweep_sites. intros s0 w0. apply create_entry_site.
      * unfold create_sweep in *. rewrite sweep_app, sweep_cons.
        cbn [fst snd]. rewrite Hs. reflexivity.
  - rewrite !updateBandwidthAcrossMultipleSites_sweep.
    eexists; eexists. split; [reflexivity|]. intros e w2 Hs.
    pose proof (updateRemoteQueueBandwidth_keeps _ _ _ _ _ _ Hs)
      as [Hreg [Hmir _]].
    split; [exact Hreg|]. split; [exact Hmir|].
    rewrite updateBandwidthAcrossMultipleSites_sweep.
    eexists; eexists. split; [reflexivity|]. simpl ba_results. split.
    + apply sweep_sites. intros s0 w0. apply update_entry_site.
    + unfold update_sweep in *. rewrite sweep_app, sweep_cons.
      cbn [fst snd]. rewrite Hs. reflexivity.
Qed.

Lemma fan_out_survives_site_failure_witness :
  fst (createUserAcrossMultipleSites "alice" "pw" [1; 2; 3] ten_megabit fleet)
  = Value (mkCreateAcross "alice"
             [mkOutcome 1 true
                        (Some (mkUserResult true (JObj [(".id", "*7")]%string)))
                        None;
              failure_entry 2 (mkError "timeout of 10000ms exceeded");
              mkOutcome 3 true
                        (Some (mkUserResult true (JObj [(".id", "*7")]%string)))
                        None])
  /\ fst (updateBandwidthAcrossMultipleSites "alice" 10 [1; 2; 3] fleet)
     = Value (mkBandwidthAcross "alice" 10
                [mkOutcome 1 true None None;
                 failure_entry 2 (mkError "timeout of 10000ms exceeded");
                 mkOutcome 3 true None None])
  /\ results_of
       (fst (createUserAcrossMultipleSites "alice" "pw" [1; 2; 3] ten_megabit
                                           fleet))
     = map (fun t => create_entry t
                       (fst (createRemoteUser t "alice" "pw" ten_megabit
                                              fleet)))
           [1; 2; 3].
Proof.
  destruct (fan_out_survives_site_failure
              "alice" "pw" ten_megabit 10 [1] 2 [3] fleet)
    as [Hc [Hb [Hi _]]].
  split; [|split].
  3:{ destruct Hi as [r [w' [E R]]].
      - split; [reflexivity|]. intros h h' r. reflexivity.
      - change [1; 2; 3] with ([1] ++ 2 :: [3]). rewrite E. exact R. }
  - destruct Hc as [ra [w1 [Ha H]]].
    vm_compute in Ha. injection Ha as <- <-.
    edestruct H as [_ [_ [rb [w3 [Hb' [_ Hall]]]]]];
      [vm_compute; reflexivity|].
    vm_compute in Hb'. injection Hb' as <- <-.
    change [1; 2; 3] with ([1] ++ 2 :: [3]). rewrite Hall. reflexivity.
  - destruct Hb as [ra [w1 [Ha H]]].
    vm_compute in Ha. injection Ha as <- <-.
    edestruct H as [_ [_ [rb [w3 [Hb' [_ Hall]]]]]];
      [vm_compute; reflexivity|].
    vm_compute in Hb'. injection Hb' as <- <-.
    change [1; 2; 3] with ([1] ++ 2 :: [3]). rewrite Hall. reflexivity.
Defined.

(** *** Local sites *)

Lemma callSiteAPI_local siteId endpoint method data w :
  local_site siteId w ->
  exists e,
    callSiteAPI siteId endpoint method data w = (Throw e, after_query w)
    /\ (hd None (db_faults w) = None -> e = not_remote_error).
Proof.
  intros [site [rest [Hsel Hty]]].
  destruct (callSiteAPI siteId endpoint method data w) as [r w'] eqn:C.
  pose proof (callSiteAPI_outcome _ _ _ _ _ _ _ C) as O.
  destruct O as [m F| F S | site' rest' F S T | site' rest' e w' F S T
                 | site' rest' resp w' F S T].
  - exists (mkError m). split; [reflexivity|]. congruence.
  - congruence.
  - exists not_remote_error. split; [reflexivity|]. reflexivity.
  - rewrite Hsel in S. injection S as <- <-. contradiction.
  - rewrite Hsel in S. injection S as <- <-. contradiction.
Qed.

Ltac refuse_by_first_call H :=
  rewrite rethrow_id; unfold bind at 1;
  destruct H as [e [-> He]];
  eexists; eexists; split; [reflexivity|]; repeat split; assumption.

Lemma createRemoteUser_local siteId username password options w :
  local_site siteId w ->
  refused_locally (createRemoteUser siteId username password options) w.
Proof.
  intros L. unfold refused_locally, createRemoteUser.
  pose proof (callSiteAPI_local siteId "/ip/hotspot/user" "POST"
                (Some (user_payload username password options)) w L) as H.
  refuse_by_first_call H.
Qed.

Lemma updateRemoteUser_local siteId username updates w :
  local_site siteId w ->
  refused_locally (updateRemoteUser siteId username updates) w.
Proof.
  intros L. unfold refused_locally, updateRemoteUser.
  pose proof (callSiteAPI_local siteId "/ip/hotspot/user" "GET" None w L)
    as H.
  refuse_by_first_call H.
Qed.

Lemma deleteRemoteUser_local siteId username w :
  local_site siteId w ->
  refused_locally (deleteRemoteUser siteId username) w.
Proof.
  intros L. unfold refused_locally, deleteRemoteUser.
  pose proof (callSiteAPI_local siteId "/ip/hotspot/user" "GET" None w L)
    as H.
  refuse_by_first_call H.
Qed.

Lemma createRemoteQueue_local siteId username bw w :
  local_site siteId w ->
  refused_locally (createRemoteQueue siteId username bw) w.
Proof.
  intros L. unfold refused_locally, createRemoteQueue.
  pose proof (callSiteAPI_local siteId "/queue/simple" "POST"
                (Some [("name", "queue-" ++ username);
                       ("target", username ++ "/32");
                       ("max-limit", rate bw);
                       ("limit-at", rate (bw / 2))]%string) w L) as H.
  refuse_by_first_call H.
Qed.

Lemma updateRemoteQueueBandwidth_local siteId username bw w :
  local_site siteId w ->
  refused_locally (updateRemoteQueueBandwidth siteId username bw) w.
Proof.
  intros L. unfold refused_locally, updateRemoteQueueBandwidth.
  pose proof (callSiteAPI_local siteId "/queue/simple" "GET" None w L) as H.
  refuse_by_first_call H.
Qed.

Lemma local_site_registry siteId w w' :
  sites (db w') = sites (db w) -> local_site siteId w -> local_site siteId w'.
Proof.
  unfold local_site, select_site. intros ->. auto.
Qed.

Lemma no_faults_consumed w w' :
  faults_consumed w w' -> db_faults w = [] -> db_faults w' = [].
Proof.
  intros [n ->] ->. apply skipn_nil.
Qed.

Section LocalInSweep.

Context {R : Type}.
Variable entry : Z -> World -> SiteOutcome R.
Variable next : Z -> World -> World.
Variable siteId : Z.

Hypothesis entry_site : forall s w, so_siteId (entry s w) = s.
Hypothesis entry_local :
  forall w, local_site siteId w -> refusal_entry w (entry siteId w).
Hypothesis next_registry :
  forall s w, sites (db (next s w)) = sites (db w)
              /\ faults_consumed w (next s w).

Lemma sweep_local siteIds w :
  local_site siteId w ->
  forall e, In e (fst (sweep entry next siteIds w)) ->
            so_siteId e = siteId -> refusal_entry w e.
Proof.
  revert w. induction siteIds as [|s rest IH]; intros w L e; simpl.
  - contradiction.
  - destruct (next_registry s w) as [Hs Hf].
    specialize (IH (next s w) (local_site_registry _ _ _ Hs L) e).
    destruct (sweep entry next rest (next s w)) as [entries w'].
    simpl in *. intros [<-|Hin] He.
    + rewrite entry_site in He. subst s. apply entry_local. exact L.
    + destruct (IH Hin He) as [A [B [m [C D]]]].
      repeat split; auto. exists m. split; auto.
      intros F. apply D. eapply no_faults_consumed; eauto.
Qed.

End LocalInSweep.

Lemma refused_entry {A R} (m : M A) (mk : Outcome A -> SiteOutcome R) w :
  (forall e, mk (Throw e) = failure_entry (so_siteId (mk (Throw e))) e) ->
  refused_locally m w -> refusal_entry w (mk (fst (m w))).
Proof.
  intros Hmk [e [w' [-> [_ [_ He]]]]]. simpl. rewrite Hmk.
  repeat split. exists (message e). split; [reflexivity|].
  intros F. rewrite He; [reflexivity|]. rewrite F. reflexivity.
Qed.

Lemma create_sweep_local username password options siteId siteIds w :
  local_site siteId w ->
  forall e, In e (fst (create_sweep username password options siteIds w)) ->
            so_siteId e = siteId -> refusal_entry w e.
Proof.
  apply sweep_local.
  - intros s w0. apply create_entry_site.
  - intros w0 L.
    apply (refused_entry (createRemoteUser siteId username password options)
                         (create_entry siteId)).
    + reflexivity.
    + apply createRemoteUser_local; assumption.
  - intros s w0.
    destruct (createRemoteUser s username password options w0)
      as [r w1] eqn:C.
    apply createRemoteUser_registry in C. simpl.
    destruct C as [[S _] [F _]]. auto.
Qed.

Lemma update_sweep_local username bw siteId siteIds w :
  local_site siteId w ->
  forall e, In e (fst (update_sweep username bw siteIds w)) ->
            so_siteId e = siteId -> refusal_entry w e.
Proof.
  apply sweep_local.
  - intros s w0. apply update_entry_site.
  - intros w0 L.
    apply (refused_entry (updateRemoteQueueBandwidth siteId username bw)
                         (update_entry siteId)).
    + reflexivity.
    + apply updateRemoteQueueBandwidth_local; assumption.
  - intros s w0.
    destruct (updateRemoteQueueBandwidth s username bw w0) as [r w1] eqn:C.
    apply updateRemoteQueueBandwidth_keeps in C. simpl.
    destruct C as [[S _] [_ [_ [_ F]]]]. auto.
Qed.

Lemma entry_for_requested_site {R} (results : list (SiteOutcome R))
  siteIds siteId :
  map so_siteId results = siteIds -> In siteId siteIds ->
  exists e, In e results /\ so_siteId e = siteId.
Proof.
  intros <- Hin. apply in_map_iff in Hin.
  destruct Hin as [e [He Hin]]. exists e. auto.
Qed.

(** C10.  On a site whose stored type is not [remote], [callSiteAPI]
    and each of the five provisioning operations throw before any
    request is sent and without touching a table, and what they throw
    is "Can only call API on remote sites" whenever the database
    answers the lookup of the site.  Hence every fan-out that targets
    the site (the two over a requested list, and the sync over the
    sites it selects) reports a failure for it, with that message when
    no query is rejected. *)
Theorem local_site_refuses_every_control_call :
  forall siteId w,
    local_site siteId w ->
    (forall endpoint method data,
        refused_locally (callSiteAPI siteId endpoint method data) w)
    /\ (forall username password options,
           refused_locally
             (createRemoteUser siteId username password options) w)
    /\ (forall username updates,
           refused_locally (updateRemoteUser siteId username updates) w)
    /\ (forall username, refused_locally (deleteRemoteUser siteId username) w)
    /\ (forall username bw,
           refused_locally (createRemoteQueue siteId username bw) w)
    /\ (forall username bw,
           refused_locally (updateRemoteQueueBandwidth siteId username bw) w)
    /\ (forall username password options siteIds r w',
           createUserAcrossMultipleSites username password siteIds options w
           = (Value r, w') ->
           (In siteId siteIds ->
            exists e, In e (ca_results r) /\ so_siteId e = siteId)
           /\ forall e, In e (ca_results r) -> so_siteId e = siteId ->
                        refusal_entry w e)
    /\ (forall username bw siteIds r w',
           updateBandwidthAcrossMultipleSites username bw siteIds w
           = (Value r, w') ->
           (In siteId siteIds ->
            exists e, In e (ba_results r) /\ so_siteId e = siteId)
           /\ forall e, In e (ba_results r) -> so_siteId e = siteId ->
                        refusal_entry w e)
    /\ (forall username password options r w',
           syncUserAcrossAllSites username password options w
           = (Value r, w') ->
           (In siteId (select_active_ids (db w)) ->
            exists e, In e (ca_results r) /\ so_siteId e = siteId)
           /\ forall e, In e (ca_results r) -> so_siteId e = siteId ->
                        refusal_entry w e).
Proof.
  intros siteId w L.
  split; [|split; [|split; [|split; [|split; [|split; [|split; [|split]]]]]]].
  - intros endpoint method data.
    destruct (callSiteAPI_local siteId endpoint method data w L)
      as [e [C He]].
    exists e, (after_query w). repeat split; assumption.
  - intros. apply createRemoteUser_local; assumption.
  - intros. apply updateRemoteUser_local; assumption.
  - intros. apply deleteRemoteUser_local; assumption.
  - intros. apply createRemoteQueue_local; assumption.
  - intros. apply updateRemoteQueueBandwidth_local; assumption.
  - intros username password options siteIds r w'.
    rewrite createUserAcrossMultipleSites_sweep. intros [= <- <-].
    simpl ca_results. split.
    + apply entry_for_requested_site.
      apply sweep_sites. intros s w0. apply create_entry_site.
    + apply create_sweep_local; assumption.
  - intros username bw siteIds r w'.
    rewrite updateBandwidthAcrossMultipleSites_sweep. intros [= <- <-].
    simpl ba_results. split.
    + apply entry_for_requested_site.
      apply sweep_sites. intros s w0. apply update_entry_site.
    + apply update_sweep_local; assumption.
  - intros username password options r w'.
    unfold syncUserAcrossAllSites. rewrite rethrow_id. unfold bind.
    rewrite select_cases.
    destruct (hd None (db_faults w)) eqn:F; [discriminate|].
    rewrite createUserAcrossMultipleSites_sweep. intros [= <- <-].
    simpl ca_results. split.
    + apply entry_for_requested_site.
      apply sweep_sites. intros s w0. apply create_entry_site.
    + intros e Hin He.
      destruct (create_sweep_local username password options siteId
                  (select_active_ids (db w)) (after_query w)
                  (local_site_registry _ _ _ eq_refl L) e Hin He)
        as [A [B [m [C D]]]].
      repeat split; auto. exists m. split; auto.
      intros Fw. apply D. simpl. rewrite Fw. reflexivity.
Qed.

Lemma local_site_refuses_every_control_call_witness :
  refused_locally (callSiteAPI 4 "/ip/hotspot/user" "GET" None) fleet
  /\ refused_locally (createRemoteUser 4 "alice" "pw" ten_megabit) fleet
  /\ In (failure_entry 4 not_remote_error)
        (results_of
           (fst (syncUserAcrossAllSites "alice" "pw" ten_megabit fleet))).
Proof.
  assert (L : local_site 4 fleet).
  { exists (branch 4 "local" "192.168.88.1" "active"), [].
    split; [reflexivity|discriminate]. }
  destruct (local_site_refuses_every_control_call 4 fleet L)
    as [H1 [H2 _]].
  split; [apply H1|]. split; [apply H2|].
  vm_compute. right; right; right; left. reflexivity.
Defined.

(** *** The mirror is written after the controller has confirmed *)

(** C5.  The mirror follows the controller, never runs ahead of it.  If
    the call that creates the user on the controller throws, so does
    [createRemoteUser], and the table [remote_users] is as before.  If
    the call that lists the users throws, or the call that deletes the
    resolved user throws, so does [deleteRemoteUser], and the table is
    as before.  Conversely, whenever one of the two has changed the
    table, its remote calls had all resolved. *)
Theorem mirror_written_only_after_remote_success :
  forall siteId username password options w,
    (throws (create_call siteId username password options) w ->
     throws (createRemoteUser siteId username password options) w
     /\ mirror_untouched_by
          (createRemoteUser siteId username password options) w)
    /\ (throws (list_call siteId) w ->
        throws (deleteRemoteUser siteId username) w
        /\ mirror_untouched_by (deleteRemoteUser siteId username) w)
    /\ (forall listed w1 u,
           list_call siteId w = (Value listed, w1) ->
           json_find "users" "name" username listed = inr (Some u) ->
           throws (delete_call siteId u) w1 ->
           throws (deleteRemoteUser siteId username) w
           /\ mirror_untouched_by (deleteRemoteUser siteId username) w)
    /\ (~ mirror_untouched_by
            (createRemoteUser siteId username password options) w ->
        exists d w1,
          create_call siteId username password options w = (Value d, w1))
    /\ (~ mirror_untouched_by (deleteRemoteUser siteId username) w ->
        exists listed w1 u d w2,
          list_call siteId w = (Value listed, w1)
          /\ json_find "users" "name" username listed = inr (Some u)
          /\ delete_call siteId u w1 = (Value d, w2)).
Proof.
  intros siteId username password options w.
  unfold mirror_untouched_by, throws.
  split; [|split; [|split; [|split]]].
  - intros [e [w1 C]]. rewrite createRemoteUser_eq, C. split.
    + eauto.
    + simpl. apply callSiteAPI_keeps in C. apply C.
  - intros [e [w1 C]]. rewrite deleteRemoteUser_eq, C. split.
    + eauto.
    + simpl. apply callSiteAPI_keeps in C. apply C.
  - intros listed w1 u C1 F [e [w2 C2]].
    rewrite deleteRemoteUser_eq, C1, F, C2. split.
    + eauto.
    + simpl. apply callSiteAPI_keeps in C1. apply callSiteAPI_keeps in C2.
      destruct C1 as [_ [U1 _]]. destruct C2 as [_ [U2 _]]. congruence.
  - intros Hch. rewrite createRemoteUser_eq in Hch.
    destruct (create_call siteId username password options w)
      as [[d|e] w1] eqn:C.
    + eauto.
    + exfalso. apply Hch. simpl. apply callSiteAPI_keeps in C. apply C.
  - intros Hch. rewrite deleteRemoteUser_eq in Hch.
    destruct (list_call siteId w) as [[listed|e] w1] eqn:C1.
    2:{ exfalso. apply Hch. simpl. apply callSiteAPI_keeps in C1. apply C1. }
    assert (U1 := C1). apply callSiteAPI_keeps in U1.
    destruct U1 as [_ [U1 _]].
    destruct (json_find "users" "name" username listed) as [e|[u|]] eqn:F;
      try (exfalso; apply Hch; exact U1).
    destruct (delete_call siteId u w1) as [[d|e] w2] eqn:C2.
    + exists listed, w1, u, d, w2. auto.
    + exfalso. apply Hch. simpl.
      apply callSiteAPI_keeps in C2. destruct C2 as [_ [U2 _]]. congruence.
Qed.

Lemma mirror_written_only_after_remote_success_witness :
  mirror_untouched_by (createRemoteUser 2 "alice" "pw" ten_megabit) fleet
  /\ mirror_untouched_by (deleteRemoteUser 2 "alice") fleet
  /\ mirror_untouched_by (deleteRemoteUser 1 "alice") readonly.
Proof.
  split; [|split].
  - destruct (mirror_written_only_after_remote_success
                2 "alice" "pw" ten_megabit fleet) as [H _].
    apply H. eexists; eexists. vm_compute. reflexivity.
  - destruct (mirror_written_only_after_remote_success
                2 "alice" "pw" ten_megabit fleet) as [_ [H _]].
    apply H. eexists; eexists. vm_compute. reflexivity.
  - destruct (mirror_written_only_after_remote_success
                1 "alice" "pw" ten_megabit readonly) as [_ [_ [H _]]].
    eapply H.
    + vm_compute. reflexivity.
    + vm_compute. reflexivity.
    + eexists; eexists. vm_compute. reflexivity.
Defined.

(** *** Deleting a user the controller does not list *)

(** C3, as the code has it.  When the controller answers the listing
    and lists no user of the given name, [deleteRemoteUser] throws
    "User not found on remote site: <username>".  Nothing but the
    listing was sent, so no delete call was made, and the mirror is as
    before. *)
Theorem delete_of_absent_user_throws :
  forall siteId username w listed w1,
    list_call siteId w = (Value (JArr listed), w1) ->
    find_by "name" username listed = None ->
    deleteRemoteUser siteId username w
    = (Throw (mkError ("User not found on remote site: " ++ username)), w1)
    /\ remote_users (db w1) = remote_users (db w)
    /\ exists site rest,
         select_site siteId (db w) = site :: rest
         /\ http_trace w1 = http_trace w ++ [list_request site].
Proof.
  intros siteId username w listed w1 C F.
  rewrite deleteRemoteUser_eq, C. simpl json_find. rewrite F.
  split; [reflexivity|].
  apply callSiteAPI_outcome in C.
  inversion C as [m Hf| Hf S | site rest Hf S T | site rest e w' Hf S T
                  | site rest resp w' Hf S T R Tr K]; subst.
  split.
  - apply K.
  - exists site, rest. split; assumption.
Qed.

Lemma delete_of_absent_user_throws_witness :
  fst (deleteRemoteUser 1 "ghost" fleet)
  = Throw (mkError "User not found on remote site: ghost").
Proof.
  edestruct (delete_of_absent_user_throws 1 "ghost" fleet) as [H _].
  - vm_compute. reflexivity.
  - reflexivity.
  - rewrite H. reflexivity.
Defined.

(** The controller of site 1 lists no user ghost, and deleting ghost
    there does not resolve to a success. *)
Lemma delete_of_absent_user_is_no_success :
  (exists listed w1,
      list_call 1 fleet = (Value (JArr listed), w1)
      /\ find_by "name" "ghost" listed = None)
  /\ ~ exists ok w', deleteRemoteUser 1 "ghost" fleet = (Value ok, w').
Proof.
  split.
  - eexists; eexists. split; vm_compute; reflexivity.
  - intros [ok [w' H]]. vm_compute in H. discriminate H.
Qed.

(** *** Sync to the selected sites *)

Lemma addressed_to_registry siteIds w w0 r :
  sites (db w0) = sites (db w) ->
  addressed_to siteIds w0 r -> addressed_to siteIds w r.
Proof.
  intros E [s [site [rest [ep [m [d [H1 [H2 [H3 H4]]]]]]]]].
  exists s, site, rest, ep, m, d. unfold select_site in *.
  rewrite <- E. auto.
Qed.

Lemma addressed_to_more siteIds s w r :
  addressed_to siteIds w r -> addressed_to (s :: siteIds) w r.
Proof.
  intros [s0 [site [rest [ep [m [d [H1 H2]]]]]]].
  exists s0, site, rest, ep, m, d. split; [right; exact H1|exact H2].
Qed.

Lemma create_sweep_contacts username password options siteIds w :
  only_contacted siteIds w
    (snd (create_sweep username password options siteIds w))
  /\ sites (db (snd (create_sweep username password options siteIds w)))
     = sites (db w).
Proof.
  revert w. induction siteIds as [|s rest IH]; intros w.
  - simpl. split; [|reflexivity]. exists []. rewrite app_nil_r. auto.
  - unfold create_sweep in *. rewrite sweep_cons. cbn [snd].
    destruct (createRemoteUser s username password options w)
      as [r w1] eqn:C. cbn [snd].
    pose proof (createRemoteUser_registry _ _ _ _ _ _ _ C) as [[S _] _].
    pose proof (createRemoteUser_sent _ _ _ _ _ _ _ C) as Sent.
    destruct (IH w1) as [[sent [Tr Fa]] S1].
    split; [|congruence].
    assert (Fa' : Forall (addressed_to (s :: rest) w) sent).
    { eapply Forall_impl; [|exact Fa]. intros a Ha.
      apply addressed_to_more. eapply addressed_to_registry; eauto. }
    destruct Sent as [Same|[site [rs [ep [m [d [Sel [Ty Tr1]]]]]]]].
    + exists sent. rewrite Tr, Same. auto.
    + exists (api_request site ep m d :: sent). split.
      * rewrite Tr, Tr1, <- app_assoc. reflexivity.
      * constructor; [|exact Fa'].
        exists s, site, rs, ep, m, d. repeat split; auto. left; reflexivity.
Qed.

Lemma select_active_ids_in siteId d :
  In siteId (select_active_ids d) ->
  exists site, In site (sites d)
               /\ site_id site = siteId /\ status site = "active"%string.
Proof.
  unfold select_active_ids. intros H. apply in_map_iff in H.
  destruct H as [site [E H]]. apply filter_In in H. destruct H as [H A].
  exists site. repeat split; auto. apply String.eqb_eq. exact A.
Qed.

(** C4, as the code has it.  When the database answers its query,
    [syncUserAcrossAllSites] resolves, and its results hold one entry
    per site the query selects, in the order of the query: every entry
    is for a registered site whose status is [active], so a site whose
    status is [offline] is never a target.  Only the selected sites are
    contacted.  A site that is not selected has no entry in the
    results. *)
Theorem sync_reports_only_selected_sites :
  forall username password options w,
    hd None (db_faults w) = None ->
    exists r w',
      syncUserAcrossAllSites username password options w = (Value r, w')
      /\ map so_siteId (ca_results r) = select_active_ids (db w)
      /\ (forall e, In e (ca_results r) ->
                    exists site, In site (sites (db w))
                                 /\ site_id site = so_siteId e
                                 /\ status site = "active"%string
                                 /\ status site <> "offline"%string)
      /\ only_contacted (select_active_ids (db w)) w w'
      /\ (forall siteId, ~ In siteId (select_active_ids (db w)) ->
                         ~ In siteId (map so_siteId (ca_results r))).
Proof.
  intros username password options w F.
  unfold syncUserAcrossAllSites. rewrite rethrow_id. unfold bind.
  rewrite select_cases, F.
  rewrite createUserAcrossMultipleSites_sweep.
  eexists; eexists. split; [reflexivity|]. simpl ca_results.
  assert (E : map so_siteId
                  (fst (create_sweep username password options
                          (select_active_ids (db w)) (after_query w)))
              = select_active_ids (db w)).
  { apply sweep_sites. intros s w0. apply create_entry_site. }
  split; [exact E|]. split; [|split].
  - intros e Hin.
    assert (Hs : In (so_siteId e) (select_active_ids (db w))).
    { rewrite <- E. apply in_map. exact Hin. }
    apply select_active_ids_in in Hs. destruct Hs as [site [H1 [H2 H3]]].
    exists site. repeat split; auto. rewrite H3. discriminate.
  - destruct (create_sweep_contacts username password options
                (select_active_ids (db w)) (after_query w))
      as [[sent [Tr Fa]] _].
    exists sent. split; [exact Tr|]. exact Fa.
  - intros siteId Hn. rewrite E. exact Hn.
Qed.

Lemma sync_reports_only_selected_sites_witness :
  map so_siteId
      (results_of (fst (syncUserAcrossAllSites "alice" "pw" ten_megabit fleet)))
  = [1; 2; 3; 4].
Proof.
  destruct (sync_reports_only_selected_sites "alice" "pw" ten_megabit fleet
              eq_refl) as [r [w' [E [H _]]]].
  rewrite E. simpl results_of. rewrite H. reflexivity.
Defined.

(** The registry of [fleet] holds six sites.  The sync reports four:
    the offline site 5 has no entry at all, and neither has site 6,
    which is online. *)
Lemma sync_omits_excluded_sites :
  List.length (sites (db fleet)) = 6%nat
  /\ List.length
       (results_of
          (fst (syncUserAcrossAllSites "alice" "pw" ten_megabit fleet)))
     = 4%nat
  /\ In (branch 5 "remote" "10.0.0.5" "offline") (sites (db fleet))
  /\ ~ In 5 (map so_siteId
               (results_of
                  (fst (syncUserAcrossAllSites "alice" "pw" ten_megabit
                                               fleet))))
  /\ In (branch 6 "remote" "10.0.0.6" "online") (sites (db fleet))
  /\ ~ In 6 (map so_siteId
               (results_of
                  (fst (syncUserAcrossAllSites "alice" "pw" ten_megabit
                                               fleet)))).
Proof.
  repeat split.
  - simpl. tauto.
  - vm_compute. intros H. repeat destruct H as [H|H]; try discriminate H.
    exact H.
  - simpl. tauto.
  - vm_compute. intros H. repeat destruct H as [H|H]; try discriminate H.
    exact H.
Qed.

(** *** Registration *)

Lemma generated_key siteData w :
  exists key w1,
    or_else (sd_apiKey siteData) generateSiteAPIKey w = (Value key, w1)
    /\ db w1 = db w /\ db_faults w1 = db_faults w /\ clock w1 = clock w.
Proof.
  destruct (sd_apiKey siteData) as [[|c k]|];
    eexists; eexists; (split; [reflexivity|]); repeat split.
Qed.

(** C7, as the code has it.  [registerSite] looks for no earlier site:
    its first query is the [INSERT].  When the database runs it, the
    registry grows by one row with a fresh id, status [active] and the
    endpoint and credentials of the request, whatever rows were there.
    When the database rejects it, the error thrown is the one of the
    database and the registry is as before. *)
Theorem register_site_always_inserts :
  forall siteData w,
    match hd None (db_faults w) with
    | None =>
        exists site w' row,
          registerSite siteData w = (Value site, w')
          /\ sites (db w') = sites (db w) ++ [row]
          /\ site_id row = sites_seq (db w) + 1
          /\ reg_id site = site_id row
          /\ status row = "active"%string
          /\ same_endpoint siteData row = true
    | Some m =>
        exists w',
          registerSite siteData w = (Throw (mkError m), w')
          /\ sites (db w') = sites (db w)
    end.
Proof.
  intros siteData w.
  destruct (generated_key siteData w) as [key [w1 [G [D [F C]]]]].
  remember (registerSite siteData w) as run eqn:R.
  unfold registerSite in R. rewrite rethrow_id in R.
  rewrite (bind_value _ _ _ _ _ G) in R.
  unfold bind at 1 in R. rewrite db_query_eq, F in R. subst run.
  destruct (hd None (db_faults w)) as [m|].
  - eexists. split; [reflexivity|]. simpl. rewrite D. reflexivity.
  - simpl. eexists; eexists; eexists. split; [reflexivity|].
    simpl. rewrite D. repeat split.
    unfold same_endpoint. simpl. rewrite !String.eqb_refl.
    destruct (sd_routerPort siteData); [rewrite Z.eqb_refl|]; reflexivity.
Qed.

(** Site 1 of [fleet] is active.  A request with its endpoint and
    credentials is accepted: it resolves to a seventh site, and the
    registry then holds two active rows for that endpoint. *)
Lemma duplicate_endpoint_is_registered :
  In (branch 1 "remote" "10.0.0.1" "active") (sites (db fleet))
  /\ same_endpoint branch_again (branch 1 "remote" "10.0.0.1" "active") = true
  /\ fst (registerSite branch_again fleet)
     = Value (mkRegistered 7 "branch" "SITE-00FF" "remote")
  /\ map site_id
         (filter (fun s => same_endpoint branch_again s
                           && String.eqb (status s) "active")
                 (sites (db (snd (registerSite branch_again fleet)))))
     = [1; 7].
Proof.
  split; [left; reflexivity|]. split; [reflexivity|].
  split; vm_compute; reflexivity.
Qed.

(** *** Heartbeat *)

(** A probe never throws; it spends one query and emits nothing. *)
Lemma testSiteConnection_total siteId w :
  exists st w',
    testSiteConnection siteId w = (Value st, w')
    /\ db w' = db w
    /\ db_faults w' = tl (db_faults w)
    /\ emitted w' = emitted w.
Proof.
  unfold testSiteConnection, try_catch. unfold bind at 1.
  rewrite select_cases.
  destruct (hd None (db_faults w)) as [m|].
  { eexists; eexists. split; [reflexivity|]. repeat split. }
  destruct (select_site siteId (db w)) as [|siteData rest].
  { eexists; eexists. split; [reflexivity|]. repeat split. }
  destruct (String.eqb (site_type siteData) "remote").
  2:{ eexists; eexists. split; [reflexivity|]. repeat split. }
  unfold bind at 1. unfold axios.
  destruct (reply_result
              (wire (after_query w) (http_trace (after_query w))
                 (mkRequest "GET"
                    (url_of (router_ip siteData)
                       (or_default (router_port siteData) 8728)
                       "/system/identity")
                    (router_user siteData) (router_pass siteData) None 5000)))
    as [e|response].
  { eexists; eexists. split; [reflexivity|]. repeat split. }
  unfold bind at 1.
  destruct (identity_name (resp_data response)) as [e|identity];
    eexists; eexists; (split; [reflexivity|]); repeat split.
Qed.

(** C9, as the code has it.  A tick of the heartbeat probes the site,
    writes the status and then emits one [site:heartbeat] event that
    carries the result of the probe, whether or not the status written
    differs from the one before.  Only a rejected [UPDATE] (the second
    query of the tick) keeps a tick from emitting. *)
Theorem heartbeat_emits_on_every_tick :
  forall siteId w,
    match nth 1 (db_faults w) None with
    | None =>
        exists st w',
          heartbeat siteId w = (Value tt, w')
          /\ fst (testSiteConnection siteId w) = Value st
          /\ emitted w' = emitted w ++ [SiteHeartbeat siteId st]
    | Some m =>
        exists w',
          heartbeat siteId w = (Throw (mkError m), w')
          /\ emitted w' = emitted w
    end.
Proof.
  intros siteId w.
  destruct (testSiteConnection_total siteId w) as [st [w1 [T [D [F E]]]]].
  remember (heartbeat siteId w) as run eqn:R.
  unfold heartbeat in R. rewrite (bind_value _ _ _ _ _ T) in R.
  unfold bind at 1 in R. rewrite db_query_eq in R.
  assert (N : hd None (db_faults w1) = nth 1 (db_faults w) None).
  { rewrite F. destruct (db_faults w) as [|a [|b l]]; reflexivity. }
  rewrite N in R. subst run.
  destruct (nth 1 (db_faults w) None) as [m|].
  - eexists. split; [reflexivity|]. simpl. exact E.
  - simpl. exists st. eexists. split; [reflexivity|].
    rewrite T. split; [reflexivity|]. simpl. rewrite E. reflexivity.
Qed.

(** Site 4 is online before the tick and online after it: the tick has
    not changed its status, and has emitted an event all the same. *)
Lemma heartbeat_emits_without_status_change :
  status_of 4 steady = Some "online"%string
  /\ status_of 4 (snd (heartbeat 4 steady)) = Some "online"%string
  /\ emitted steady = []
  /\ emitted (snd (heartbeat 4 steady))
     = [SiteHeartbeat 4 (mkConn true None (Some "local"%string) None None)].
Proof.
  repeat split.
Qed.

(** *** Management tokens *)

Lemma verifyManagementToken_eq siteId token w :
  verifyManagementToken siteId token w =
  (Value
     match hd None (db_faults w) with
     | Some _ => false
     | None =>
         0 <? Z.of_nat
                (List.length
                   (filter (fun r => (tok_site_id r =? siteId)
                                     && String.eqb (tok_token r) token
                                     && (clock w <? tok_expires_at r))
                           (site_management_tokens (db w))))
     end,
   after_query w).
Proof.
  unfold verifyManagementToken, try_catch, bind. rewrite db_query_eq.
  destruct (hd None (db_faults w)); [reflexivity|].
  unfold select_valid_tokens, ret, after_query.
  destruct w as [d f c wi tr rh rc sm em ti]; reflexivity.
Qed.

Lemma valid_token_filter siteId token w :
  valid_token siteId token w <->
  filter (fun r => (tok_site_id r =? siteId)
                   && String.eqb (tok_token r) token
                   && (clock w <? tok_expires_at r))
         (site_management_tokens (db w)) <> [].
Proof.
  unfold valid_token. split.
  - intros [r [Hin [Hs [Ht He]]]] Hnil.
    assert (Hf : In r (filter (fun r => (tok_site_id r =? siteId)
                                        && String.eqb (tok_token r) token
                                        && (clock w <? tok_expires_at r))
                              (site_management_tokens (db w)))).
    { apply filter_In. split; [exact Hin|].
      rewrite (proj2 (Z.eqb_eq _ _) Hs), (proj2 (String.eqb_eq _ _) Ht),
              (proj2 (Z.ltb_lt _ _) He). reflexivity. }
    rewrite Hnil in Hf. contradiction.
  - destruct (filter _ (site_management_tokens (db w))) as [|r l] eqn:E.
    + intros H. contradiction.
    + intros _.
      assert (Hf : In r (filter (fun r => (tok_site_id r =? siteId)
                                          && String.eqb (tok_token r) token
                                          && (clock w <? tok_expires_at r))
                                (site_management_tokens (db w)))).
      { rewrite E. left; reflexivity. }
      apply filter_In in Hf. destruct Hf as [Hin Hb].
      apply andb_prop in Hb. destruct Hb as [Hb He].
      apply andb_prop in Hb. destruct Hb as [Hs Ht].
      exists r. repeat split; auto.
      * apply Z.eqb_eq; exact Hs.
      * apply String.eqb_eq; exact Ht.
      * apply Z.ltb_lt; exact He.
Qed.

(** C6.  [verifyManagementToken] always resolves to a boolean: it never
    throws, whatever the database does.  It resolves to [true] only if
    the table holds a token of the given site with the given secret
    whose expiry lies strictly after [NOW()]; and whenever the database
    answers the query, it resolves to [true] if there is such a token.
    So a token that is absent, bound to another site or expired gives
    [false]. *)
Theorem verify_token_iff_valid :
  forall siteId token w,
    exists b w',
      verifyManagementToken siteId token w = (Value b, w')
      /\ db w' = db w
      /\ (b = true -> valid_token siteId token w)
      /\ (hd None (db_faults w) = None ->
          (b = true <-> valid_token siteId token w)).
Proof.
  intros siteId token w. rewrite verifyManagementToken_eq.
  eexists; eexists. split; [reflexivity|]. split; [reflexivity|].
  assert (K : (0 <? Z.of_nat
                      (List.length
                         (filter (fun r => (tok_site_id r =? siteId)
                                           && String.eqb (tok_token r) token
                                           && (clock w <? tok_expires_at r))
                                 (site_management_tokens (db w))))) = true
              <-> valid_token siteId token w).
  { rewrite valid_token_filter.
    destruct (filter _ (site_management_tokens (db w))) as [|r l].
    - simpl. split; [discriminate|intros H; contradiction].
    - split; [discriminate|]. intros _. apply Z.ltb_lt.
      simpl List.length. lia. }
  split.
  - destruct (hd None (db_faults w)); [discriminate|]. apply K.
  - intros ->. exact K.
Qed.

Lemma verify_token_iff_valid_witness :
  fst (verifyManagementToken 1 "c0ffee" issued) = Value true
  /\ fst (verifyManagementToken 2 "c0ffee" issued) = Value false
  /\ fst (verifyManagementToken 1 "decaf" issued) = Value false
  /\ fst (verifyManagementToken 1 "c0ffee" (later thirty_days issued))
     = Value false.
Proof.
  assert (V : valid_token 1 "c0ffee" issued).
  { eexists. split; [left; reflexivity|]. repeat split. }
  split; [|split; [|split]].
  - destruct (verify_token_iff_valid 1 "c0ffee" issued)
      as [b [w' [E [_ [_ H]]]]].
    rewrite E. simpl. f_equal. apply (H eq_refl). exact V.
  - destruct (verify_token_iff_valid 2 "c0ffee" issued)
      as [b [w' [E [_ [H _]]]]].
    rewrite E. simpl. f_equal. destruct b; [|reflexivity].
    destruct (H eq_refl) as [r [[<-|[]] [S _]]]. discriminate S.
  - destruct (verify_token_iff_valid 1 "decaf" issued)
      as [b [w' [E [_ [H _]]]]].
    rewrite E. simpl. f_equal. destruct b; [|reflexivity].
    destruct (H eq_refl) as [r [[<-|[]] [_ [T _]]]]. discriminate T.
  - destruct (verify_token_iff_valid 1 "c0ffee" (later thirty_days issued))
      as [b [w' [E [_ [H _]]]]].
    rewrite E. simpl. f_equal. destruct b; [|reflexivity].
    destruct (H eq_refl) as [r [[<-|[]] [_ [_ X]]]].
    vm_compute in X. discriminate X.
Defined.

End MultiSiteProofs.

(* ===================================================================== *)
(** ** Properties of the device client *)
(* ===================================================================== *)

Module MikrotikProofs.
Import Mikrotik MikrotikSpec PromiseFacts.

(** *** The three cached lists *)

Lemma getHotspotUsers_eq m :
  getHotspotUsers m =
  if users_fresh m then (Value (users (cache m)), m)
  else
    let r := request "GET" "/ip/hotspot/user" None m in
    let m1 := with_wire_step (reply_latency (wire m (http_trace m) r)) r m in
    match answer "/ip/hotspot/user" m with
    | inl _ => (Value (JArr []), m1)
    | inr response =>
        (Value (resp_data response),
         with_cache (fun c => mkCache (resp_data response) (queues c) (aps c)
                                      (clock m1)) m1)
    end.
Proof.
  unfold getHotspotUsers, users_fresh, answer, try_catch, bind, this_cache,
    date_now, axios, ret.
  destruct (truthy (users (cache m)) && (clock m - lastUpdate (cache m) <? ttl));
    [reflexivity|].
  simpl.
  destruct (reply_result
              (wire m (http_trace m) (request "GET" "/ip/hotspot/user" None m)));
    reflexivity.
Qed.

Lemma getQueues_eq m :
  getQueues m =
  if queues_fresh m then (Value (queues (cache m)), m)
  else
    let r := request "GET" "/queue/simple" None m in
    let m1 := with_wire_step (reply_latency (wire m (http_trace m) r)) r m in
    match answer "/queue/simple" m with
    | inl _ => (Value (JArr []), m1)
    | inr response =>
        (Value (resp_data response),
         with_cache (fun c => mkCache (users c) (resp_data response) (aps c)
                                      (lastUpdate c)) m1)
    end.
Proof.
  unfold getQueues, queues_fresh, answer, try_catch, bind, this_cache,
    date_now, axios, ret.
  destruct (truthy (queues (cache m))
            && (clock m - lastUpdate (cache m) <? ttl));
    [reflexivity|].
  simpl.
  destruct (reply_result
              (wire m (http_trace m) (request "GET" "/queue/simple" None m)));
    reflexivity.
Qed.

Lemma getAccessPoints_sends m :
  aps_fresh m = false ->
  refetches getAccessPoints "/interface/wireless" m.
Proof.
  unfold aps_fresh, refetches, getAccessPoints, try_catch, bind, this_cache,
    date_now, axios, ret.
  intros F. simpl.
  destruct (aps (cache m)) as [cached|]; [rewrite F|];
    destruct (reply_result
                (wire m (http_trace m)
                   (request "GET" "/interface/wireless" None m)))
      as [e|response]; try reflexivity;
    simpl; destruct (json_map ap_view (resp_data response)); reflexivity.
Qed.

Lemma getAccessPoints_cached m cached :
  aps (cache m) = Some cached -> aps_fresh m = true ->
  served_from_cache getAccessPoints cached m.
Proof.
  unfold aps_fresh, served_from_cache, getAccessPoints, try_catch, bind,
    this_cache, date_now, ret.
  intros -> F. simpl. rewrite F. reflexivity.
Qed.

(** *** Changes drop the cached list *)

(** Decide the answer of the controller to the request at hand. *)
Ltac on_reply :=
  match goal with
  | |- context [reply_result ?x] => destruct (reply_result x)
  end.

Lemma createHotspotUser_drops username password options m r m' :
  createHotspotUser username password options m = (Value r, m') ->
  users (cache m') = JNull.
Proof.
  unfold createHotspotUser. rewrite rethrow_id.
  unfold bind, axios, set_users, ret. on_reply; [discriminate|].
  intros [= <- <-]. reflexivity.
Qed.

Lemma createQueue_drops username options m r m' :
  createQueue username options m = (Value r, m') ->
  queues (cache m') = JNull.
Proof.
  unfold createQueue. rewrite rethrow_id.
  unfold bind, axios, set_queues, ret. on_reply; [discriminate|].
  intros [= <- <-]. reflexivity.
Qed.

Lemma updateHotspotUser_drops username updates m r m' :
  updateHotspotUser username updates m = (Value r, m') ->
  users (cache m') = JNull.
Proof.
  unfold updateHotspotUser. rewrite rethrow_id. unfold bind at 1.
  destruct (getHotspotUsers m) as [[all|e] m1]; [|discriminate].
  unfold bind at 1.
  destruct (json_find "users" "name" username all) as [e|[u|]];
    simpl lift; unfold throw, ret; try discriminate.
  unfold bind, axios, set_users, ret. on_reply; [discriminate|].
  intros [= <- <-]. reflexivity.
Qed.

Lemma deleteHotspotUser_drops username m r m' :
  deleteHotspotUser username m = (Value r, m') ->
  users (cache m') = JNull.
Proof.
  unfold deleteHotspotUser. rewrite rethrow_id. unfold bind at 1.
  destruct (getHotspotUsers m) as [[all|e] m1]; [|discriminate].
  unfold bind at 1.
  destruct (json_find "users" "name" username all) as [e|[u|]];
    simpl lift; unfold throw, ret; try discriminate.
  unfold bind, axios, set_users, ret. on_reply; [discriminate|].
  intros [= <- <-]. reflexivity.
Qed.

Lemma updateQueueBandwidth_drops username bandwidth m r m' :
  updateQueueBandwidth username bandwidth m = (Value r, m') ->
  queues (cache m') = JNull.
Proof.
  unfold updateQueueBandwidth. rewrite rethrow_id. unfold bind at 1.
  destruct (getQueues m) as [[all|e] m1]; [|discriminate].
  unfold bind at 1.
  destruct (json_find "queues" "name" ("queue-" ++ username) all)
    as [e|[q|]]; simpl lift; unfold throw, ret; try discriminate.
  unfold bind, axios, set_queues, ret. on_reply; [discriminate|].
  intros [= <- <-]. reflexivity.
Qed.

Lemma deleteQueue_drops username m r m' :
  deleteQueue username m = (Value r, m') ->
  queues (cache m') = JNull.
Proof.
  unfold deleteQueue. rewrite rethrow_id. unfold bind at 1.
  destruct (getQueues m) as [[all|e] m1]; [|discriminate].
  unfold bind at 1.
  destruct (json_find "queues" "name" ("queue-" ++ username) all)
    as [e|[q|]]; simpl lift; unfold throw, ret; try discriminate.
  unfold bind, axios, set_queues, ret. on_reply; [discriminate|].
  intros [= <- <-]. reflexivity.
Qed.

(** *** The cache as a whole *)

Lemma getHotspotUsers_refetches m :
  users_fresh m = false -> refetches getHotspotUsers "/ip/hotspot/user" m.
Proof.
  intros F. unfold refetches. rewrite getHotspotUsers_eq, F. simpl.
  destruct (answer "/ip/hotspot/user" m); reflexivity.
Qed.

Lemma getQueues_refetches m :
  queues_fresh m = false -> refetches getQueues "/queue/simple" m.
Proof.
  intros F. unfold refetches. rewrite getQueues_eq, F. simpl.
  destruct (answer "/queue/simple" m); reflexivity.
Qed.

Lemma dropped_users_refetch m :
  users (cache m) = JNull -> refetches getHotspotUsers "/ip/hotspot/user" m.
Proof.
  intros N. apply getHotspotUsers_refetches. unfold users_fresh.
  rewrite N. reflexivity.
Qed.

Lemma dropped_queues_refetch m :
  queues (cache m) = JNull -> refetches getQueues "/queue/simple" m.
Proof.
  intros N. apply getQueues_refetches. unfold queues_fresh.
  rewrite N. reflexivity.
Qed.

(** C8, as the code has it.  Each of the three lists is answered from
    the cache exactly while its entry is set and [lastUpdate], the one
    timestamp the three entries share, is less than five minutes old;
    otherwise the controller is asked.  A refresh of the user list
    stores the answer and sets [lastUpdate] to the time of the answer.
    Every change of a user, or of a queue, that resolves leaves the
    entry of its list [null], so the next call for that list asks the
    controller. *)
Theorem cache_serves_while_shared_stamp_is_young :
  forall m,
    (if users_fresh m
     then served_from_cache getHotspotUsers (users (cache m)) m
     else refetches getHotspotUsers "/ip/hotspot/user" m)
    /\ (if queues_fresh m
        then served_from_cache getQueues (queues (cache m)) m
        else refetches getQueues "/queue/simple" m)
    /\ match aps (cache m) with
       | Some cached =>
           if aps_fresh m
           then served_from_cache getAccessPoints cached m
           else refetches getAccessPoints "/interface/wireless" m
       | None => refetches getAccessPoints "/interface/wireless" m
       end
    /\ (forall response,
           users_fresh m = false ->
           answer "/ip/hotspot/user" m = inr response ->
           fst (getHotspotUsers m) = Value (resp_data response)
           /\ users (cache (snd (getHotspotUsers m))) = resp_data response
           /\ lastUpdate (cache (snd (getHotspotUsers m)))
              = clock (snd (getHotspotUsers m)))
    /\ (forall username password options r m',
           createHotspotUser username password options m = (Value r, m') ->
           users (cache m') = JNull
           /\ refetches getHotspotUsers "/ip/hotspot/user" m')
    /\ (forall username updates r m',
           updateHotspotUser username updates m = (Value r, m') ->
           users (cache m') = JNull
           /\ refetches getHotspotUsers "/ip/hotspot/user" m')
    /\ (forall username r m',
           deleteHotspotUser username m = (Value r, m') ->
           users (cache m') = JNull
           /\ refetches getHotspotUsers "/ip/hotspot/user" m')
    /\ (forall username options r m',
           createQueue username options m = (Value r, m') ->
           queues (cache m') = JNull
           /\ refetches getQueues "/queue/simple" m')
    /\ (forall username bandwidth r m',
           updateQueueBandwidth username bandwidth m = (Value r, m') ->
           queues (cache m') = JNull
           /\ refetches getQueues "/queue/simple" m')
    /\ (forall username r m',
           deleteQueue username m = (Value r, m') ->
           queues (cache m') = JNull
           /\ refetches getQueues "/queue/simple" m').
Proof.
  intros m. repeat apply conj.
  - destruct (users_fresh m) eqn:F.
    + unfold served_from_cache. rewrite getHotspotUsers_eq, F. reflexivity.
    + apply getHotspotUsers_refetches; assumption.
  - destruct (queues_fresh m) eqn:F.
    + unfold served_from_cache. rewrite getQueues_eq, F. reflexivity.
    + apply getQueues_refetches; assumption.
  - destruct (aps (cache m)) as [cached|] eqn:A.
    + destruct (aps_fresh m) eqn:F.
      * apply getAccessPoints_cached; assumption.
      * apply getAccessPoints_sends; assumption.
    + apply getAccessPoints_sends. unfold aps_fresh. rewrite A. reflexivity.
  - intros response F R. rewrite getHotspotUsers_eq, F. simpl. rewrite R.
    repeat split.
  - intros username password options r m' H.
    apply createHotspotUser_drops in H. auto using dropped_users_refetch.
  - intros username updates r m' H.
    apply updateHotspotUser_drops in H. auto using dropped_users_refetch.
  - intros username r m' H.
    apply deleteHotspotUser_drops in H. auto using dropped_users_refetch.
  - intros username options r m' H.
    apply createQueue_drops in H. auto using dropped_queues_refetch.
  - intros username bandwidth r m' H.
    apply updateQueueBandwidth_drops in H. auto using dropped_queues_refetch.
  - intros username r m' H.
    apply deleteQueue_drops in H. auto using dropped_queues_refetch.
Qed.

Lemma cache_serves_while_shared_stamp_is_young_witness :
  served_from_cache getQueues one_queue after_users
  /\ refetches getHotspotUsers "/ip/hotspot/user"
               (snd (createHotspotUser "alice" "pw"
                       (mkUserOptions (Some 10) None None) after_users)).
Proof.
  split.
  - destruct (cache_serves_while_shared_stamp_is_young after_users)
      as [_ [H _]].
    exact H.
  - destruct (cache_serves_while_shared_stamp_is_young after_users)
      as [_ [_ [_ [_ [H _]]]]].
    destruct (createHotspotUser "alice" "pw"
                (mkUserOptions (Some 10) None None) after_users)
      as [[r|e] m'] eqn:E.
    + apply (H _ _ _ _ _ E).
    + vm_compute in E. discriminate E.
Defined.

(** The list of queues was fetched into the cache at the time of
    [after_queues] and not since.  At the time of [after_users] it is
    more than ten minutes old, twice the five minutes allowed, and the
    controller would by now list two queues; [getQueues] still answers
    the old list from the cache and sends nothing. *)
Lemma stale_queues_are_served :
  queues (cache after_queues) = one_queue
  /\ http_trace after_queues = [request "GET" "/queue/simple" None started]
  /\ filter (fun r => String.eqb (req_url r)
                                 (req_url (request "GET" "/queue/simple" None
                                                   started)))
            (http_trace after_users)
     = [request "GET" "/queue/simple" None started]
  /\ clock after_users - clock after_queues = 601020
  /\ ttl = 300000
  /\ answer "/queue/simple" after_users = inr (mkResponse 200 two_queues)
  /\ getQueues after_users = (Value one_queue, after_users).
Proof.
  repeat split.
Qed.

End MikrotikProofs.

(* ===================================================================== *)
(** ** Further properties of the multi-site manager *)
(* ===================================================================== *)

Module MultiSiteExtra.
Import MultiSite MultiSiteSpec MultiSiteMore MultiSiteExtraSpec.
Import PromiseFacts MultiSiteProofs.

(** *** Issuing and verifying a token *)





(** *** Probing a site *)

Lemma testSiteConnection_eq siteId w :
  testSiteConnection siteId w =
  match hd None (db_faults w) with
  | Some m =>
      (Value (mkConn false None None (Some m) (Some (clock w))),
       after_query w)
  | None =>
      match select_site siteId (db w) with
      | [] =>
          (Value (mkConn false None None (Some "Site not found"%string) None),
           after_query w)
      | site :: _ =>
          if String.eqb (site_type site) "remote" then
            let reply := wire w (http_trace w) (probe_request site) in
            let w1 := with_wire_step (reply_latency reply)
                                     (probe_request site) (after_query w) in
            match reply_result reply with
            | inl e =>
                (Value (mkConn false None None (Some (message e))
                               (Some (clock w1))), w1)
            | inr resp =>
                match identity_name (resp_data resp) with
                | inl e =>
                    (Value (mkConn false None None (Some (message e))
                                   (Some (clock w1))), w1)
                | inr name =>
                    (Value (mkConn true name None None (Some (clock w1))), w1)
                end
            end
          else
            (Value (mkConn true None (Some "local"%string) None None),
             after_query w)
      end
  end.
Proof.
  unfold testSiteConnection, try_catch. unfold bind at 1.
  rewrite select_cases.
  destruct (hd None (db_faults w)) as [m|]; [reflexivity|].
  destruct (select_site siteId (db w)) as [|site rest]; [reflexivity|].
  destruct (String.eqb (site_type site) "remote"); [|reflexivity].
  fold (probe_request site). unfold bind at 1. unfold axios.
  change (wire (after_query w)) with (wire w).
  change (http_trace (after_query w)) with (http_trace w).
  simpl.
  destruct (reply_result (wire w (http_trace w) (probe_request site)))
    as [e|resp]; [reflexivity|].
  unfold bind at 1.
  destruct (identity_name (resp_data resp)) as [e|name]; reflexivity.
Qed.

Lemma identity_name_null d :
  (exists name, identity_name d = inr name) <-> d <> JNull.
Proof.
  destruct d as [| s | o | [|o items]]; simpl; split;
    try (intros _; discriminate); try (intros _; eexists; reflexivity).
  - intros [name H]. discriminate H.
  - intros H. exfalso. apply H. reflexivity.
Qed.

(** X2.  A probe never throws, writes no table and emits nothing.  A
    local site is reported connected without any request; a site that
    is not registered, or a lookup the database rejects, is reported
    not connected without any request; a remote site is sent one
    identity request and is reported connected exactly if the request
    is answered with a body other than [null]. *)
Theorem probe_never_throws_or_writes :
  forall siteId w,
    exists st w',
      testSiteConnection siteId w = (Value st, w')
      /\ db w' = db w
      /\ emitted w' = emitted w
      /\ match hd None (db_faults w), select_site siteId (db w) with
         | Some _, _ =>
             connected st = false /\ http_trace w' = http_trace w
         | None, [] =>
             connected st = false
             /\ conn_error st = Some "Site not found"%string
             /\ http_trace w' = http_trace w
         | None, site :: _ =>
             if String.eqb (site_type site) "remote" then
               http_trace w' = http_trace w ++ [probe_request site]
               /\ (connected st = true
                   <-> exists resp,
                         reply_result (wire w (http_trace w)
                                            (probe_request site)) = inr resp
                         /\ resp_data resp <> JNull)
             else
               connected st = true
               /\ conn_type st = Some "local"%string
               /\ http_trace w' = http_trace w
         end.
Proof.
  intros siteId w. rewrite testSiteConnection_eq.
  destruct (hd None (db_faults w)) as [m|].
  { eexists; eexists. split; [reflexivity|]. repeat split. }
  destruct (select_site siteId (db w)) as [|site rest].
  { eexists; eexists. split; [reflexivity|]. repeat split. }
  destruct (String.eqb (site_type site) "remote").
  2:{ eexists; eexists. split; [reflexivity|]. repeat split. }
  simpl.
  destruct (reply_result (wire w (http_trace w) (probe_request site)))
    as [e|resp] eqn:R.
  { eexists; eexists. split; [reflexivity|]. repeat split; try reflexivity.
    - discriminate.
    - intros [resp [H _]]. discriminate H. }
  destruct (identity_name (resp_data resp)) as [e|name] eqn:I;
    eexists; eexists; (split; [reflexivity|]); repeat split;
    try reflexivity.
  - discriminate.
  - intros [resp' [[= <-] N]]. apply identity_name_null in N.
    destruct N as [name N]. congruence.
  - intros _. exists resp. split; [reflexivity|].
    apply identity_name_null. eauto.
Qed.

(** *** What a tick of the heartbeat writes *)

(** The [UPDATE] of the heartbeat, table by table. *)
Lemma update_site_status_spec st siteId t d d' :
  update_site_status st siteId t d = inr (tt, d') ->
  map site_id (sites d') = map site_id (sites d)
  /\ filter (fun s => negb (site_id s =? siteId)) (sites d')
     = filter (fun s => negb (site_id s =? siteId)) (sites d)
  /\ (forall s, In s (sites d') -> site_id s = siteId ->
                status s = st /\ last_heartbeat s = Some t)
  /\ sites_seq d' = sites_seq d
  /\ remote_users d' = remote_users d
  /\ site_api_logs d' = site_api_logs d
  /\ site_management_tokens d' = site_management_tokens d.
Proof.
  unfold update_site_status. intros [= <-]. simpl.
  repeat split.
  - induction (sites d) as [|s l IH]; simpl; [reflexivity|].
    rewrite IH. destruct (site_id s =? siteId); reflexivity.
  - induction (sites d) as [|s l IH]; simpl; [reflexivity|].
    destruct (site_id s =? siteId) eqn:E; simpl; rewrite E; simpl;
      rewrite IH; reflexivity.
  - apply in_map_iff in H. destruct H as [s0 [<- _]].
    destruct (site_id s0 =? siteId) eqn:E; [reflexivity|].
    apply Z.eqb_neq in E. contradiction.
  - apply in_map_iff in H. destruct H as [s0 [<- _]].
    destruct (site_id s0 =? siteId) eqn:E; [reflexivity|].
    apply Z.eqb_neq in E. contradiction.
Qed.

(** A tick that resolves: the probe, then the accepted [UPDATE], then
    the event. *)
Lemma heartbeat_resolved siteId w w' :
  heartbeat siteId w = (Value tt, w') ->
  exists st w1 d',
    testSiteConnection siteId w = (Value st, w1)
    /\ db w1 = db w
    /\ update_site_status (if connected st then "online" else "offline")
                          siteId (clock w1) (db w1) = inr (tt, d')
    /\ db w' = d'
    /\ clock w' = clock w1.
Proof.
  destruct (testSiteConnection_total siteId w) as [st [w1 [T [D [F E]]]]].
  unfold heartbeat. rewrite (bind_value _ _ _ _ _ T).
  unfold bind at 1. rewrite db_query_eq.
  destruct (hd None (db_faults w1)); [discriminate|].
  destruct (update_site_status (if connected st then "online" else "offline")
              siteId (clock w1) (db w1)) as [e|[[] d']] eqn:U;
    [discriminate|].
  unfold emit. intros [= <-].
  exists st, w1, d'. repeat split; auto.
Qed.

(** X3.  A tick of the heartbeat that resolves rewrites the rows of its
    own site and nothing else.  Every row of the site then holds the
    status [online] if the probe reported connected and [offline]
    otherwise, whatever the status was before, and the time of the
    write as last heartbeat; no site is added, removed or moved, the
    rows of the other sites are as before, and so are the mirror of
    provisioned users and the tokens. *)
Theorem heartbeat_writes_probe_status :
  forall siteId w w',
    heartbeat siteId w = (Value tt, w') ->
    exists st,
      fst (testSiteConnection siteId w) = Value st
      /\ (forall s, In s (sites (db w')) -> site_id s = siteId ->
                    status s
                    = (if connected st then "online" else "offline")%string
                    /\ last_heartbeat s = Some (clock w'))
      /\ map site_id (sites (db w')) = map site_id (sites (db w))
      /\ other_sites siteId w' = other_sites siteId w
      /\ remote_users (db w') = remote_users (db w)
      /\ site_management_tokens (db w') = site_management_tokens (db w).
Proof.
  intros siteId w w' H.
  destruct (heartbeat_resolved _ _ _ H) as [st [w1 [d' [T [D [U [D' C]]]]]]].
  apply update_site_status_spec in U.
  destruct U as [Ids [Oth [Own [_ [Ru [_ Tk]]]]]].
  exists st. rewrite T. unfold other_sites. rewrite D', C. rewrite D in *.
  repeat split; auto; apply Own; assumption.
Qed.

Lemma heartbeat_writes_probe_status_witness :
  exists st,
    fst (testSiteConnection 2 fleet) = Value st
    /\ other_sites 2 (snd (heartbeat 2 fleet)) = other_sites 2 fleet.
Proof.
  destruct (heartbeat_writes_probe_status 2 fleet (snd (heartbeat 2 fleet))
              eq_refl) as [st [T [_ [_ [O _]]]]].
  exists st. split; assumption.
Defined.

(** *** Heartbeat and sync *)

Lemma selected_iff siteId d :
  In siteId (select_active_ids d) <->
  exists s, In s (sites d) /\ site_id s = siteId
            /\ status s = "active"%string.
Proof.
  unfold select_active_ids. rewrite in_map_iff. split.
  - intros [s [E H]]. apply filter_In in H. destruct H as [H A].
    exists s. repeat split; auto. apply String.eqb_eq. exact A.
  - intros [s [H [E A]]]. exists s. split; [exact E|].
    apply filter_In. split; [exact H|]. apply String.eqb_eq. exact A.
Qed.

Lemma sync_result_sites username password options w r w' :
  syncUserAcrossAllSites username password options w = (Value r, w') ->
  map so_siteId (ca_results r) = select_active_ids (db w).
Proof.
  unfold syncUserAcrossAllSites. rewrite rethrow_id. unfold bind.
  rewrite select_cases.
  destruct (hd None (db_faults w)); [discriminate|].
  rewrite createUserAcrossMultipleSites_sweep. intros [= <- <-]. simpl.
  apply sweep_sites. intros s w0. apply create_entry_site.
Qed.

(** X4.  Once a tick of the heartbeat has resolved for a site, the site
    is no target of [syncUserAcrossAllSites] any more: the tick has
    written [online] or [offline], and the sync selects the status
    [active] only.  Which of the other sites are selected is not
    changed by the tick. *)
Theorem heartbeat_takes_site_out_of_sync :
  forall siteId w w',
    heartbeat siteId w = (Value tt, w') ->
    ~ In siteId (select_active_ids (db w'))
    /\ (forall other, other <> siteId ->
          (In other (select_active_ids (db w'))
           <-> In other (select_active_ids (db w))))
    /\ (forall username password options r w2,
          syncUserAcrossAllSites username password options w'
          = (Value r, w2) ->
          ~ In siteId (map so_siteId (ca_results r))).
Proof.
  intros siteId w w' H.
  destruct (heartbeat_resolved _ _ _ H) as [st [w1 [d' [T [D [U [D' C]]]]]]].
  apply update_site_status_spec in U.
  destruct U as [_ [Oth [Own _]]]. rewrite D in *. subst d'.
  assert (N : ~ In siteId (select_active_ids (db w'))).
  { intros Hin. apply selected_iff in Hin.
    destruct Hin as [s [Hs [E A]]].
    destruct (Own s Hs E) as [S _]. rewrite A in S.
    destruct (connected st); discriminate S. }
  split; [exact N|]. split.
  - intros other Ne. rewrite !selected_iff.
    assert (K : forall l s,
               In s (filter (fun s => negb (site_id s =? siteId)) l)
               <-> In s l /\ site_id s <> siteId).
    { intros l s. rewrite filter_In. split; intros [A B]; split; auto.
      - intros E. rewrite (proj2 (Z.eqb_eq _ _) E) in B. discriminate B.
      - apply negb_true_iff. apply Z.eqb_neq. exact B. }
    split; intros [s [Hs [E A]]]; exists s; repeat split; auto.
    + assert (X : In s (filter (fun s => negb (site_id s =? siteId))
                          (sites (db w')))).
      { apply K. split; [exact Hs|congruence]. }
      rewrite Oth in X. apply K in X. apply X.
    + assert (X : In s (filter (fun s => negb (site_id s =? siteId))
                          (sites (db w)))).
      { apply K. split; [exact Hs|congruence]. }
      rewrite <- Oth in X. apply K in X. apply X.
  - intros username password options r w2 S.
    rewrite (sync_result_sites _ _ _ _ _ _ S). exact N.
Qed.

Lemma heartbeat_takes_site_out_of_sync_witness :
  In 1 (select_active_ids (db fleet))
  /\ ~ In 1 (select_active_ids (db (snd (heartbeat 1 fleet)))).
Proof.
  assert (E : heartbeat 1 fleet = (Value tt, snd (heartbeat 1 fleet))).
  { vm_compute. reflexivity. }
  split.
  - left. reflexivity.
  - destruct (heartbeat_takes_site_out_of_sync 1 fleet _ E) as [N _].
    exact N.
Defined.

(** *** Registration: cache, event and key *)






(** *** The audit log of remote calls *)

Lemma logSiteAPICall_eq siteId endpoint method code w :
  logSiteAPICall siteId endpoint method code w =
  match hd None (db_faults w) with
  | Some _ => (Value tt, after_query w)
  | None =>
      (Value tt,
       with_db (fun b =>
                  mkDb (sites b) (sites_seq b) (remote_users b)
                       (site_api_logs b
                          ++ [mkApiLog siteId endpoint method code (clock w)])
                       (site_management_tokens b))
               (after_query w))
  end.
Proof.
  unfold logSiteAPICall, try_catch. rewrite db_query_eq.
  destruct (hd None (db_faults w)); reflexivity.
Qed.

Lemma callSiteAPI_eq siteId endpoint method data w :
  callSiteAPI siteId endpoint method data w =
  match hd None (db_faults w) with
  | Some m => (Throw (mkError m), after_query w)
  | None =>
      match select_site siteId (db w) with
      | [] => (Throw (mkError "Site not found"), after_query w)
      | site :: _ =>
          if String.eqb (site_type site) "remote" then
            let req := api_request site endpoint method data in
            let reply := wire w (http_trace w) req in
            let w1 := with_wire_step (reply_latency reply) req
                                     (after_query w) in
            match reply_result reply with
            | inl e => (Throw e, w1)
            | inr resp =>
                (Value (resp_data resp),
                 snd (logSiteAPICall siteId endpoint method
                                     (resp_status resp) w1))
            end
          else (Throw not_remote_error, after_query w)
      end
  end.
Proof.
  unfold callSiteAPI. rewrite rethrow_id.
  unfold bind at 1. rewrite select_cases.
  destruct (hd None (db_faults w)) as [m|]; [reflexivity|].
  destruct (select_site siteId (db w)) as [|site rest]; [reflexivity|].
  destruct (String.eqb (site_type site) "remote"); simpl; [|reflexivity].
  fold (api_request site endpoint method data).
  unfold bind, axios.
  change (wire (after_query w)) with (wire w).
  change (http_trace (after_query w)) with (http_trace w).
  destruct (reply_result
              (wire w (http_trace w)
                    (api_request site endpoint method data)))
    as [e|resp]; [reflexivity|].
  destruct (logSiteAPICall siteId endpoint method (resp_status resp) _)
    as [[[]|e] w1] eqn:L; [reflexivity|].
  rewrite logSiteAPICall_eq in L.
  destruct (hd None (db_faults _)); discriminate L.
Qed.

(** X6.  The audit log holds answered calls only.  A call of
    [callSiteAPI] that throws, whether the site lookup failed, the site
    is local or unknown, or the controller did not answer, adds no row
    to [site_api_logs].  A call that resolves adds exactly one row, for
    this site, endpoint and method with the status code of the answer,
    unless the database rejects the [INSERT] of the row: then no row is
    added and the call resolves all the same, with the same data. *)
Theorem audit_log_holds_answered_calls_only :
  forall siteId endpoint method data w r w',
    callSiteAPI siteId endpoint method data w = (r, w') ->
    match r with
    | Throw _ => site_api_logs (db w') = site_api_logs (db w)
    | Value d =>
        exists site rest resp,
          select_site siteId (db w) = site :: rest
          /\ reply_result (wire w (http_trace w)
                                (api_request site endpoint method data))
             = inr resp
          /\ d = resp_data resp
          /\ ((second_query_rejected w
               /\ site_api_logs (db w') = site_api_logs (db w))
              \/ (hd None (tl (db_faults w)) = None
                  /\ site_api_logs (db w')
                     = site_api_logs (db w)
                         ++ [audit_row siteId endpoint method resp
                                       (clock w')]))
    end.
Proof.
  intros siteId endpoint method data w r w'. rewrite callSiteAPI_eq.
  destruct (hd None (db_faults w)) as [m|]; [intros [= <- <-]; reflexivity|].
  destruct (select_site siteId (db w)) as [|site rest];
    [intros [= <- <-]; reflexivity|].
  destruct (String.eqb (site_type site) "remote");
    [|intros [= <- <-]; reflexivity].
  cbv zeta.
  destruct (reply_result
              (wire w (http_trace w)
                    (api_request site endpoint method data)))
    as [e|resp] eqn:R; [intros [= <- <-]; reflexivity|].
  rewrite logSiteAPICall_eq.
  change (db_faults (with_wire_step _ _ (after_query w)))
    with (tl (db_faults w)).
  intros [= <- <-]. exists site, rest, resp.
  split; [reflexivity|]. split; [exact R|]. split; [reflexivity|].
  destruct (hd None (tl (db_faults w))) as [m|] eqn:F.
  - left. split; [exists m; exact F | reflexivity].
  - right. split; reflexivity.
Qed.

Lemma audit_log_holds_answered_calls_only_witness :
  site_api_logs (db (snd (list_call 1 fleet)))
  = [mkApiLog 1 "/ip/hotspot/user" "GET" 200 1700000000020]
  /\ site_api_logs (db (snd (list_call 2 fleet))) = [].
Proof.
  split.
  - destruct (audit_log_holds_answered_calls_only 1 "/ip/hotspot/user" "GET"
                None fleet
                (Value (JArr [[(".id", "*1"); ("name", "queue-alice")]]%string))
                (snd (list_call 1 fleet)) eq_refl)
      as [site [rest [resp [S [R [_ [[[m F] _]|[_ L]]]]]]]].
    + discriminate F.
    + injection S as <- _. injection R as <-. exact L.
  - apply (audit_log_holds_answered_calls_only 2 "/ip/hotspot/user" "GET"
             None fleet (Throw (mkError "timeout of 10000ms exceeded"))
             (snd (list_call 2 fleet)) eq_refl).
Defined.

(** *** The mirror across a create and a delete *)

Lemma filter_mirror_app siteId username (l : list RemoteUserRow) r :
  filter (fun r => negb ((ru_site_id r =? siteId)
                         && String.eqb (ru_username r) username))
         (l ++ [r])
  = filter (fun r => negb ((ru_site_id r =? siteId)
                           && String.eqb (ru_username r) username)) l
    ++ (if (ru_site_id r =? siteId) && String.eqb (ru_username r) username
        then [] else [r]).
Proof.
  rewrite filter_app. simpl.
  destruct ((ru_site_id r =? siteId) && String.eqb (ru_username r) username);
    reflexivity.
Qed.

Lemma filter_filter_negb {A} (p : A -> bool) l :
  filter p (filter (fun x => negb (p x)) l) = [].
Proof.
  induction l as [|x l IH]; simpl; [reflexivity|].
  destruct (p x) eqn:E; simpl; [exact IH|]. rewrite E. exact IH.
Qed.

Lemma filter_idem {A} (p : A -> bool) l :
  filter p (filter p l) = filter p l.
Proof.
  induction l as [|x l IH]; simpl; [reflexivity|].
  destruct (p x) eqn:E; simpl; [rewrite E, IH|]; auto.
Qed.

(** A create that resolves adds one row to the mirror. *)
Lemma createRemoteUser_resolved siteId username password options w r w' :
  createRemoteUser siteId username password options w = (Value r, w') ->
  exists t,
    remote_users (db w')
    = remote_users (db w) ++ [mirror_row siteId username password options t].
Proof.
  rewrite createRemoteUser_eq.
  destruct (create_call siteId username password options w)
    as [[d|e] w1] eqn:C; [|discriminate].
  apply callSiteAPI_keeps in C. destruct C as [_ [Ru _]].
  destruct (hd None (db_faults w1)); [discriminate|].
  intros [= <- <-]. exists (clock w1). simpl. rewrite Ru. reflexivity.
Qed.

(** A delete that resolves filters the mirror. *)
Lemma deleteRemoteUser_resolved siteId username w b w' :
  deleteRemoteUser siteId username w = (Value b, w') ->
  b = true
  /\ remote_users (db w')
     = filter (fun r => negb ((ru_site_id r =? siteId)
                              && String.eqb (ru_username r) username))
              (remote_users (db w)).
Proof.
  rewrite deleteRemoteUser_eq.
  destruct (list_call siteId w) as [[listed|e] w1] eqn:L; [|discriminate].
  apply callSiteAPI_keeps in L. destruct L as [_ [Ru1 _]].
  destruct (json_find "users" "name" username listed) as [e|[u|]];
    try discriminate.
  destruct (delete_call siteId u w1) as [[d|e] w2] eqn:D; [|discriminate].
  apply callSiteAPI_keeps in D. destruct D as [_ [Ru2 _]].
  destruct (hd None (db_faults w2)); [discriminate|].
  intros [= <- <-]. split; [reflexivity|]. simpl.
  rewrite Ru2, Ru1. reflexivity.
Qed.

(** X7.  A create followed by a delete of the same user of the same
    site, both resolved, leaves no row of that user in the mirror: not
    the row the create appended, and no older row of the same user
    either, however many there were.  The rows of every other user,
    and of the same name on other sites, are as before the create, in
    the same order. *)
Theorem create_then_delete_clears_mirror :
  forall siteId username password options w r w1 b w2,
    createRemoteUser siteId username password options w = (Value r, w1) ->
    deleteRemoteUser siteId username w1 = (Value b, w2) ->
    (exists t,
        mirror_of siteId username w1
        = mirror_of siteId username w
            ++ [mirror_row siteId username password options t])
    /\ mirror_of siteId username w2 = []
    /\ mirror_of_others siteId username w1
       = mirror_of_others siteId username w
    /\ mirror_of_others siteId username w2
       = mirror_of_others siteId username w.
Proof.
  intros siteId username password options w r w1 b w2 C D.
  apply createRemoteUser_resolved in C. destruct C as [t C].
  apply deleteRemoteUser_resolved in D. destruct D as [_ D].
  unfold mirror_of, mirror_of_others. rewrite D, C.
  assert (O : filter (fun r => negb ((ru_site_id r =? siteId)
                                     && String.eqb (ru_username r) username))
                     (remote_users (db w)
                        ++ [mirror_row siteId username password options t])
              = filter (fun r => negb ((ru_site_id r =? siteId)
                                       && String.eqb (ru_username r) username))
                       (remote_users (db w))).
  { rewrite filter_mirror_app. simpl.
    rewrite Z.eqb_refl, String.eqb_refl. simpl. apply app_nil_r. }
  split; [|split; [|split]].
  - exists t. rewrite filter_app. simpl.
    rewrite Z.eqb_refl, String.eqb_refl. reflexivity.
  - apply (filter_filter_negb
             (fun r => (ru_site_id r =? siteId)
                       && String.eqb (ru_username r) username)).
  - exact O.
  - rewrite filter_idem. exact O.
Qed.

Lemma create_then_delete_clears_mirror_witness :
  mirror_of 1 "queue-alice"
            (snd (createRemoteUser 1 "queue-alice" "pw" ten_megabit fleet))
  <> []
  /\ mirror_of 1 "queue-alice"
       (snd (deleteRemoteUser 1 "queue-alice"
               (snd (createRemoteUser 1 "queue-alice" "pw" ten_megabit
                                      fleet))))
     = [].
Proof.
  assert (C : createRemoteUser 1 "queue-alice" "pw" ten_megabit fleet
              = (Value (mkUserResult true (JObj [(".id", "*7")]%string)),
                 snd (createRemoteUser 1 "queue-alice" "pw" ten_megabit
                                       fleet))).
  { vm_compute. reflexivity. }
  assert (D : deleteRemoteUser 1 "queue-alice"
                (snd (createRemoteUser 1 "queue-alice" "pw" ten_megabit fleet))
              = (Value true,
                 snd (deleteRemoteUser 1 "queue-alice"
                        (snd (createRemoteUser 1 "queue-alice" "pw"
                                               ten_megabit fleet))))).
  { vm_compute. reflexivity. }
  destruct (create_then_delete_clears_mirror _ _ _ _ _ _ _ _ _ C D)
    as [[t A] [B _]].
  split; [|exact B].
  rewrite A. intros E. apply app_eq_nil in E. destruct E as [_ E].
  discriminate E.
Defined.

(** *** Updating a user *)

Lemma updateRemoteUser_eq siteId username updates w :
  updateRemoteUser siteId username updates w =
  match list_call siteId w with
  | (Throw e, w1) => (Throw e, w1)
  | (Value listed, w1) =>
      match json_find "users" "name" username listed with
      | inl e => (Throw e, w1)
      | inr None => (Throw (user_not_found username), w1)
      | inr (Some u) =>
          match put_call siteId u updates w1 with
          | (Throw e, w2) => (Throw e, w2)
          | (Value d, w2) =>
              match hd None (db_faults w2) with
              | Some m => (Throw (mkError m), after_query w2)
              | None =>
                  match update_remote_user siteId username updates
                                           (clock w2) (db w2) with
                  | inl e => (Throw e, after_query w2)
                  | inr (_, d') =>
                      (Value (mkUserResult true d),
                       with_db (fun _ => d') (after_query w2))
                  end
              end
          end
      end
  end.
Proof.
  unfold updateRemoteUser, list_call, put_call. rewrite rethrow_id.
  unfold bind at 1.
  destruct (callSiteAPI siteId "/ip/hotspot/user" "GET" None w)
    as [[listed|e] w1]; [|reflexivity].
  unfold bind at 1.
  destruct (json_find "users" "name" username listed) as [e|[u|]];
    try reflexivity.
  simpl lift. unfold ret at 1. unfold bind at 1.
  destruct (callSiteAPI siteId ("/ip/hotspot/user/" ++ show_field ".id" u)
              "PUT" (Some updates) w1) as [[d|e] w2]; [|reflexivity].
  unfold bind. rewrite db_query_eq.
  destruct (hd None (db_faults w2)); [reflexivity|].
  destruct (update_remote_user siteId username updates (clock w2) (db w2))
    as [e|[[] d']]; reflexivity.
Qed.

(** An update that throws leaves the mirror as it was, and sends
    nothing after the last remote call it made. *)
Lemma updateRemoteUser_failure siteId username updates w e w' :
  updateRemoteUser siteId username updates w = (Throw e, w') ->
  remote_users (db w') = remote_users (db w)
  /\ sites (db w') = sites (db w).
Proof.
  rewrite updateRemoteUser_eq.
  destruct (list_call siteId w) as [[listed|e1] w1] eqn:L.
  2:{ intros [= <- <-]. apply callSiteAPI_keeps in L.
      destruct L as [[S _] [Ru _]]. auto. }
  apply callSiteAPI_keeps in L. destruct L as [[S1 _] [Ru1 _]].
  destruct (json_find "users" "name" username listed) as [e1|[u|]].
  { intros [= <- <-]. auto. }
  2:{ intros [= <- <-]. auto. }
  destruct (put_call siteId u updates w1) as [[d|e2] w2] eqn:P.
  2:{ intros [= <- <-]. apply callSiteAPI_keeps in P.
      destruct P as [[S _] [Ru _]]. split; congruence. }
  apply callSiteAPI_keeps in P. destruct P as [[S2 _] [Ru2 _]].
  destruct (hd None (db_faults w2)).
  { intros [= <- <-]. simpl. split; congruence. }
  destruct (update_remote_user siteId username updates (clock w2) (db w2))
    as [e3|[[] d']]; [|discriminate].
  intros [= <- <-]. simpl. split; congruence.
Qed.

(** *** The read-only calls *)

Lemma getRemoteUsers_eq siteId w :
  getRemoteUsers siteId w =
  match list_call siteId w with
  | (Value users, w1) => (Value users, w1)
  | (Throw _, w1) => (Value (JArr []), w1)
  end.
Proof.
  unfold getRemoteUsers, list_call, try_catch, bind.
  destruct (callSiteAPI siteId "/ip/hotspot/user" "GET" None w)
    as [[d|e] w1]; reflexivity.
Qed.

Lemma getRemoteQueueStats_eq siteId username w :
  getRemoteQueueStats siteId username w =
  match callSiteAPI siteId ("/queue/simple?numbers=" ++ username)
                    "GET" None w with
  | (Value stats, w1) => (Value stats, w1)
  | (Throw _, w1) => (Value JNull, w1)
  end.
Proof.
  unfold getRemoteQueueStats, try_catch, bind.
  destruct (callSiteAPI siteId ("/queue/simple?numbers=" ++ username)
              "GET" None w) as [[d|e] w1]; reflexivity.
Qed.

Lemma getRemoteAPs_eq siteId w :
  getRemoteAPs siteId w =
  match callSiteAPI siteId "/interface/wireless" "GET" None w with
  | (Value aps, w1) =>
      match array_map "aps" remote_ap_view aps with
      | inr views => (Value views, w1)
      | inl _ => (Value [], w1)
      end
  | (Throw _, w1) => (Value [], w1)
  end.
Proof.
  unfold getRemoteAPs, try_catch, bind.
  destruct (callSiteAPI siteId "/interface/wireless" "GET" None w)
    as [[d|e] w1]; [|reflexivity].
  destruct (array_map "aps" remote_ap_view d); reflexivity.
Qed.

Lemma getRemoteAPClients_eq siteId interfaceName w :
  getRemoteAPClients siteId interfaceName w =
  match callSiteAPI siteId "/interface/wireless/registration-table"
                    "GET" None w with
  | (Value clients, w1) =>
      match array_filter "clients" "interface" interfaceName clients with
      | inr l => (Value (map remote_client_view l), w1)
      | inl _ => (Value [], w1)
      end
  | (Throw _, w1) => (Value [], w1)
  end.
Proof.
  unfold getRemoteAPClients, try_catch. unfold bind at 1.
  destruct (callSiteAPI siteId "/interface/wireless/registration-table"
              "GET" None w) as [[d|e] w1]; [|reflexivity].
  unfold bind.
  destruct (array_filter "clients" "interface" interfaceName d); reflexivity.
Qed.

Lemma getRemoteRouterInfo_eq siteId w :
  getRemoteRouterInfo siteId w =
  match callSiteAPI siteId "/system/identity" "GET" None w with
  | (Throw _, w1) => (Value None, w1)
  | (Value info, w1) =>
      match callSiteAPI siteId "/system/resource" "GET" None w1 with
      | (Throw _, w2) => (Value None, w2)
      | (Value res, w2) =>
          match first_element info, first_element res with
          | inr a, inr b => (Value (Some (mkRouterInfo a b)), w2)
          | _, _ => (Value None, w2)
          end
      end
  end.
Proof.
  unfold getRemoteRouterInfo, try_catch. unfold bind at 1.
  destruct (callSiteAPI siteId "/system/identity" "GET" None w)
    as [[info|e] w1]; [|reflexivity].
  unfold bind at 1.
  destruct (callSiteAPI siteId "/system/resource" "GET" None w1)
    as [[res|e] w2]; [|reflexivity].
  unfold bind.
  destruct (first_element info) as [e|a]; [reflexivity|].
  destruct (first_element res) as [e|b]; reflexivity.
Qed.

(** *** Registration, case by case *)


(** *** The read-only calls always resolve *)

Lemma getRemoteUsers_total siteId w :
  exists v w',
    getRemoteUsers siteId w = (Value v, w')
    /\ keeps_registry_and_mirror w w'
    /\ (throws (callSiteAPI siteId "/ip/hotspot/user" "GET" None) w ->
        v = JArr []).
Proof.
  rewrite getRemoteUsers_eq. unfold list_call, throws.
  destruct (callSiteAPI siteId "/ip/hotspot/user" "GET" None w)
    as [[d|e] w1] eqn:C; pose proof (callSiteAPI_keeps _ _ _ _ _ _ _ C) as K.
  - eexists; eexists. split; [reflexivity|]. split; [exact K|].
    intros [e [w' T]]. discriminate T.
  - eexists; eexists. split; [reflexivity|]. split; [exact K|].
    reflexivity.
Qed.

Lemma getRemoteQueueStats_total siteId username w :
  exists v w',
    getRemoteQueueStats siteId username w = (Value v, w')
    /\ keeps_registry_and_mirror w w'
    /\ (throws (callSiteAPI siteId ("/queue/simple?numbers=" ++ username)
                            "GET" None) w ->
        v = JNull).
Proof.
  rewrite getRemoteQueueStats_eq. unfold throws.
  destruct (callSiteAPI siteId ("/queue/simple?numbers=" ++ username)
              "GET" None w)
    as [[d|e] w1] eqn:C; pose proof (callSiteAPI_keeps _ _ _ _ _ _ _ C) as K.
  - eexists; eexists. split; [reflexivity|]. split; [exact K|].
    intros [e [w' T]]. discriminate T.
  - eexists; eexists. split; [reflexivity|]. split; [exact K|].
    reflexivity.
Qed.

Lemma getRemoteAPs_total siteId w :
  exists v w',
    getRemoteAPs siteId w = (Value v, w')
    /\ keeps_registry_and_mirror w w'
    /\ (throws (callSiteAPI siteId "/interface/wireless" "GET" None) w ->
        v = []).
Proof.
  rewrite getRemoteAPs_eq. unfold throws.
  destruct (callSiteAPI siteId "/interface/wireless" "GET" None w)
    as [[d|e] w1] eqn:C; pose proof (callSiteAPI_keeps _ _ _ _ _ _ _ C) as K.
  - destruct (array_map "aps" remote_ap_view d);
      eexists; eexists; (split; [reflexivity|]); (split; [exact K|]);
      intros [e' [w' T]]; discriminate T.
  - eexists; eexists. split; [reflexivity|]. split; [exact K|].
    reflexivity.
Qed.

Lemma getRemoteAPClients_total siteId interfaceName w :
  exists v w',
    getRemoteAPClients siteId interfaceName w = (Value v, w')
    /\ keeps_registry_and_mirror w w'
    /\ (throws (callSiteAPI siteId "/interface/wireless/registration-table"
                            "GET" None) w ->
        v = []).
Proof.
  rewrite getRemoteAPClients_eq. unfold throws.
  destruct (callSiteAPI siteId "/interface/wireless/registration-table"
              "GET" None w)
    as [[d|e] w1] eqn:C; pose proof (callSiteAPI_keeps _ _ _ _ _ _ _ C) as K.
  - destruct (array_filter "clients" "interface" interfaceName d);
      eexists; eexists; (split; [reflexivity|]); (split; [exact K|]);
      intros [e' [w' T]]; discriminate T.
  - eexists; eexists. split; [reflexivity|]. split; [exact K|].
    reflexivity.
Qed.

Lemma getRemoteRouterInfo_total siteId w :
  exists v w',
    getRemoteRouterInfo siteId w = (Value v, w')
    /\ keeps_registry_and_mirror w w'
    /\ (throws (callSiteAPI siteId "/system/identity" "GET" None) w ->
        v = None).
Proof.
  rewrite getRemoteRouterInfo_eq. unfold throws.
  destruct (callSiteAPI siteId "/system/identity" "GET" None w)
    as [[d|e] w1] eqn:C; pose proof (callSiteAPI_keeps _ _ _ _ _ _ _ C) as K.
  - destruct (callSiteAPI siteId "/system/resource" "GET" None w1)
      as [[d2|e2] w2] eqn:C2;
      pose proof (keeps_trans _ _ _ K (callSiteAPI_keeps _ _ _ _ _ _ _ C2))
        as K2.
    + destruct (first_element d) as [e1|a]; [|destruct (first_element d2)];
        eexists; eexists; (split; [reflexivity|]); (split; [exact K2|]);
        intros [e' [w' T]]; discriminate T.
    + eexists; eexists. split; [reflexivity|]. split; [exact K2|].
      intros [e' [w' T]]. discriminate T.
  - eexists; eexists. split; [reflexivity|]. split; [exact K|].
    reflexivity.
Qed.

End MultiSiteExtra.
(* ===================================================================== *)
(** ** Further properties of the device client *)
(* ===================================================================== *)

Module MikrotikExtra.
Import Mikrotik MikrotikSpec MikrotikMore MikrotikExtraSpec.
Import PromiseFacts MikrotikProofs.

(** *** The three creating calls *)




(** *** syncUser *)




(** *** A listing that fails *)

Lemma getAccessPoints_eq m :
  getAccessPoints m =
  match aps (cache m) with
  | Some cached =>
      if aps_fresh m then (Value cached, m)
      else
        let r := request "GET" "/interface/wireless" None m in
        let m1 :=
          with_wire_step (reply_latency (wire m (http_trace m) r)) r m in
        match answer "/interface/wireless" m with
        | inl _ => (Value [], m1)
        | inr response =>
            match json_map ap_view (resp_data response) with
            | inl _ => (Value [], m1)
            | inr views =>
                (Value views,
                 with_cache (fun c => mkCache (users c) (queues c)
                                              (Some views) (lastUpdate c)) m1)
            end
        end
  | None =>
      let r := request "GET" "/interface/wireless" None m in
      let m1 :=
        with_wire_step (reply_latency (wire m (http_trace m) r)) r m in
      match answer "/interface/wireless" m with
      | inl _ => (Value [], m1)
      | inr response =>
          match json_map ap_view (resp_data response) with
          | inl _ => (Value [], m1)
          | inr views =>
              (Value views,
               with_cache (fun c => mkCache (users c) (queues c)
                                            (Some views) (lastUpdate c)) m1)
          end
      end
  end.
Proof.
  unfold getAccessPoints, aps_fresh, answer, try_catch, bind, this_cache,
    date_now, axios, set_aps, ret.
  simpl.
  destruct (aps (cache m)) as [cached|];
    [destruct (clock m - lastUpdate (cache m) <? ttl); [reflexivity|]|];
    (destruct (reply_result
                 (wire m (http_trace m)
                       (request "GET" "/interface/wireless" None m)))
      as [e|response]; [reflexivity|]);
    simpl; destruct (json_map ap_view (resp_data response)); reflexivity.
Qed.

(** What the four changes by name do with the list they are given. *)
Lemma updateHotspotUser_not_listed username updates m m1 :
  getHotspotUsers m = (Value (JArr []), m1) ->
  updateHotspotUser username updates m
  = (Throw (mkError ("User not found: " ++ username)), m1).
Proof.
  intros G. unfold updateHotspotUser. rewrite rethrow_id.
  unfold bind at 1. rewrite G. reflexivity.
Qed.

Lemma deleteHotspotUser_not_listed username m m1 :
  getHotspotUsers m = (Value (JArr []), m1) ->
  deleteHotspotUser username m
  = (Throw (mkError ("User not found: " ++ username)), m1).
Proof.
  intros G. unfold deleteHotspotUser. rewrite rethrow_id.
  unfold bind at 1. rewrite G. reflexivity.
Qed.

Lemma updateQueueBandwidth_not_listed username bandwidth m m1 :
  getQueues m = (Value (JArr []), m1) ->
  updateQueueBandwidth username bandwidth m
  = (Throw (mkError ("Queue not found for user: " ++ username)), m1).
Proof.
  intros G. unfold updateQueueBandwidth. rewrite rethrow_id.
  unfold bind at 1. rewrite G. reflexivity.
Qed.

Lemma deleteQueue_not_listed username m m1 :
  getQueues m = (Value (JArr []), m1) ->
  deleteQueue username m
  = (Throw (mkError ("Queue not found for user: " ++ username)), m1).
Proof.
  intros G. unfold deleteQueue. rewrite rethrow_id.
  unfold bind at 1. rewrite G. reflexivity.
Qed.

(** X9.  A listing that fails reads as an empty list.  When a list is
    not served from the cache and the controller does not answer the
    [GET], the list call resolves to the empty list, sends that one
    request and leaves the cache as it was.  The changes by name look
    the name up in that empty list: [updateHotspotUser] and
    [deleteHotspotUser] then throw [User not found], and
    [updateQueueBandwidth] and [deleteQueue] throw [Queue not found],
    in place of the error of the request, and send nothing more. *)
Theorem failed_listing_reads_as_empty :
  forall m,
    (users_fresh m = false ->
     (exists e, answer "/ip/hotspot/user" m = inl e) ->
     exists m1,
       getHotspotUsers m = (Value (JArr []), m1)
       /\ cache m1 = cache m
       /\ http_trace m1
          = http_trace m ++ [request "GET" "/ip/hotspot/user" None m]
       /\ forall username,
            (forall updates,
                updateHotspotUser username updates m
                = (Throw (mkError ("User not found: " ++ username)), m1))
            /\ deleteHotspotUser username m
               = (Throw (mkError ("User not found: " ++ username)), m1))
    /\ (queues_fresh m = false ->
        (exists e, answer "/queue/simple" m = inl e) ->
        exists m1,
          getQueues m = (Value (JArr []), m1)
          /\ cache m1 = cache m
          /\ http_trace m1
             = http_trace m ++ [request "GET" "/queue/simple" None m]
          /\ forall username,
               (forall bandwidth,
                   updateQueueBandwidth username bandwidth m
                   = (Throw (mkError ("Queue not found for user: "
                                        ++ username)), m1))
               /\ deleteQueue username m
                  = (Throw (mkError ("Queue not found for user: "
                                       ++ username)), m1))
    /\ (aps_fresh m = false ->
        (exists e, answer "/interface/wireless" m = inl e) ->
        exists m1,
          getAccessPoints m = (Value [], m1)
          /\ cache m1 = cache m
          /\ http_trace m1
             = http_trace m ++ [request "GET" "/interface/wireless" None m]).
Proof.
  intros m. split; [|split].
  - intros F [e A].
    assert (G : getHotspotUsers m
                = (Value (JArr []),
                   with_wire_step
                     (reply_latency
                        (wire m (http_trace m)
                              (request "GET" "/ip/hotspot/user" None m)))
                     (request "GET" "/ip/hotspot/user" None m) m)).
    { rewrite getHotspotUsers_eq, F, A. reflexivity. }
    eexists. split; [exact G|]. split; [reflexivity|].
    split; [reflexivity|]. intros username. split.
    + intros updates. apply updateHotspotUser_not_listed. exact G.
    + apply deleteHotspotUser_not_listed. exact G.
  - intros F [e A].
    assert (G : getQueues m
                = (Value (JArr []),
                   with_wire_step
                     (reply_latency
                        (wire m (http_trace m)
                              (request "GET" "/queue/simple" None m)))
                     (request "GET" "/queue/simple" None m) m)).
    { rewrite getQueues_eq, F, A. reflexivity. }
    eexists. split; [exact G|]. split; [reflexivity|].
    split; [reflexivity|]. intros username. split.
    + intros bandwidth. apply updateQueueBandwidth_not_listed. exact G.
    + apply deleteQueue_not_listed. exact G.
  - intros F [e A]. rewrite getAccessPoints_eq, A.
    destruct (aps (cache m)) as [cached|]; [rewrite F|];
      eexists; (split; [reflexivity|]); split; reflexivity.
Qed.

Lemma failed_listing_reads_as_empty_witness :
  answer "/ip/hotspot/user" down = inl (mkError "connect ECONNREFUSED")
  /\ fst (deleteHotspotUser "alice" down)
     = Throw (mkError "User not found: alice")
  /\ fst (deleteQueue "alice" down)
     = Throw (mkError "Queue not found for user: alice").
Proof.
  destruct (failed_listing_reads_as_empty down) as [U [Q _]].
  destruct U as [m1 [_ [_ [_ U]]]];
    [reflexivity | eexists; reflexivity |].
  destruct Q as [m2 [_ [_ [_ Q]]]];
    [reflexivity | eexists; reflexivity |].
  split; [reflexivity|]. split.
  - rewrite (proj2 (U "alice"%string)). reflexivity.
  - rewrite (proj2 (Q "alice"%string)). reflexivity.
Defined.

(** *** The probe of the device client *)

Lemma testConnection_eq m :
  testConnection m =
  let r := request "GET" "/system/identity" None m in
  let m1 := with_wire_step (reply_latency (wire m (http_trace m) r)) r m in
  match answer "/system/identity" m with
  | inl e => (Value (mkProbe false None (Some (message e))), m1)
  | inr resp =>
      match first_name (resp_data resp) with
      | inl e => (Value (mkProbe false None (Some (message e))), m1)
      | inr name => (Value (mkProbe true name None), m1)
      end
  end.
Proof.
  unfold testConnection, answer, try_catch, bind, axios, ret. simpl.
  destruct (reply_result
              (wire m (http_trace m)
                    (request "GET" "/system/identity" None m)))
    as [e|resp]; [reflexivity|].
  simpl. destruct (first_name (resp_data resp)); reflexivity.
Qed.

Lemma first_name_defined d :
  (exists name, first_name d = inr name) <-> has_first_item d = true.
Proof.
  destruct d as [|[|c s]|o|[|o items]]; simpl;
    try destruct (get_field "0" o);
    split; try discriminate; try (intros [name H]; discriminate H);
    try reflexivity; intros _; eexists; reflexivity.
Qed.

(** X10.  [testConnection] never throws and touches no cache: it sends
    the one identity request and reports success exactly if the request
    is answered and the first item of the body is defined.  An answer
    that is an empty array is reported as a failure, with the message
    of the [TypeError] raised on [data[0].name]; [testSiteConnection],
    which reads [data[0]?.name], reports the same answer of a remote
    site as connected, with no identity. *)
Theorem device_probe_needs_a_first_item :
  forall m,
    (exists p m',
        testConnection m = (Value p, m')
        /\ cache m' = cache m
        /\ http_trace m'
           = http_trace m ++ [request "GET" "/system/identity" None m]
        /\ (probe_success p = true
            <-> exists resp,
                  answer "/system/identity" m = inr resp
                  /\ has_first_item (resp_data resp) = true)
        /\ (forall e, answer "/system/identity" m = inl e ->
                      p = mkProbe false None (Some (message e)))
        /\ (forall resp, answer "/system/identity" m = inr resp ->
                         resp_data resp = JArr [] ->
                         p = mkProbe false None
                               (Some "Cannot read properties of undefined (reading 'name')"%string)))
    /\ (forall siteId w site rest resp,
          hd None (MultiSite.db_faults w) = None ->
          MultiSite.select_site siteId (MultiSite.db w) = site :: rest ->
          MultiSite.site_type site = "remote"%string ->
          reply_result (MultiSite.wire w (MultiSite.http_trace w)
                          (MultiSiteExtraSpec.probe_request site))
          = inr resp ->
          resp_data resp = JArr [] ->
          exists st,
            fst (MultiSite.testSiteConnection siteId w) = Value st
            /\ MultiSite.connected st = true
            /\ MultiSite.conn_identity st = None).
Proof.
  intros m. split.
  - rewrite testConnection_eq. cbv zeta.
    destruct (answer "/system/identity" m) as [e|resp] eqn:A.
    { eexists; eexists. split; [reflexivity|]. repeat split.
      - discriminate.
      - intros [resp [H _]]. discriminate H.
      - intros e' [= <-]. reflexivity.
      - intros resp H. discriminate H. }
    destruct (first_name (resp_data resp)) as [e|name] eqn:N;
      eexists; eexists; (split; [reflexivity|]); repeat split.
    + discriminate.
    + intros [resp' [[= <-] H]]. apply first_name_defined in H.
      destruct H as [name H]. congruence.
    + intros e' H. discriminate H.
    + intros resp' [= <-] D. rewrite D in N. simpl in N.
      injection N as <-. reflexivity.
    + intros _. exists resp. split; [reflexivity|].
      apply first_name_defined. eauto.
    + intros e' H. discriminate H.
    + intros resp' [= <-] D. rewrite D in N. discriminate N.
  - intros siteId w site rest resp F S T R D.
    rewrite MultiSiteExtra.testSiteConnection_eq, F, S, T. simpl.
    rewrite R, D. simpl. eexists. repeat split.
Qed.

Lemma device_probe_needs_a_first_item_witness :
  fst (testConnection (constructor router 1700000000000 nameless_wire))
  = Value (mkProbe false None
             (Some "Cannot read properties of undefined (reading 'name')"%string)).
Proof.
  destruct (device_probe_needs_a_first_item
              (constructor router 1700000000000 nameless_wire))
    as [[p [m' [E [_ [_ [_ [_ H]]]]]]] _].
  rewrite E. simpl. f_equal. apply (H (mkResponse 200 (JArr []))).
  - reflexivity.
  - reflexivity.
Defined.

(** *** The body of a User Manager user *)

Lemma user_manager_request username password options m :
  exists q,
    http_trace (snd (createUserManagerUser username password options m))
    = http_trace m ++ [q]
    /\ line q = ("POST"%string, (baseURL m ++ "/user-manager/user")%string)
    /\ sent_field "username" q = Some username
    /\ sent_field "password" q = Some password
    /\ sent_field "comment" q = overridden (um_comment options) username
    /\ sent_field "group" q = overridden (um_group options) "default"
    /\ sent_field "profile" q = overridden (um_profile options) "default".
Proof.
  unfold createUserManagerUser. rewrite rethrow_id.
  unfold bind, axios, ret.
  match goal with
  | |- context [reply_result (wire m (http_trace m) ?r)] =>
      exists r; destruct (reply_result (wire m (http_trace m) r))
  end;
    (split; [reflexivity|]); (split; [reflexivity|]);
    unfold sent_field, request, req_data;
    destruct options as [[| |c] [| |g] [| |p]]; simpl;
    repeat split; reflexivity.
Qed.

(** X11.  In the body [createUserManagerUser] sends, every key of
    [options] wins over the default written before the spread: the
    defaults for [comment] (the username), [group] and [profile]
    ([default]) are sent only for a key that [options] does not have;
    a key that is there is sent as given, also when it is empty, and a
    key that is there and [undefined] is not sent at all.  [syncUser]
    always passes the key [comment], holding the e-mail address: so
    through [syncUser] the comment sent is the e-mail address, and
    without an e-mail address no comment is sent; the username is
    never the comment. *)
Theorem options_override_user_manager_defaults :
  forall username password options m,
    exists q,
      http_trace (snd (createUserManagerUser username password options m))
      = http_trace m ++ [q]
      /\ line q = ("POST"%string, (baseURL m ++ "/user-manager/user")%string)
      /\ sent_field "username" q = Some username
      /\ sent_field "password" q = Some password
      /\ sent_field "comment" q = overridden (um_comment options) username
      /\ sent_field "group" q = overridden (um_group options) "default"
      /\ sent_field "profile" q = overridden (um_profile options) "default"
      /\ (forall userData,
             options = sync_manager_options userData ->
             sent_field "comment" q = ud_email userData
             /\ sent_field "group" q = Some "default"%string
             /\ sent_field "profile" q
                = Some (or_string (ud_userManagerProfile userData)
                                  "default")).
Proof.
  intros username password options m.
  destruct (user_manager_request username password options m)
    as [q [T [L [U [P [C [G R]]]]]]].
  exists q. repeat (split; [assumption|]).
  intros userData ->. rewrite C, G, R. simpl.
  destruct (ud_email userData); repeat split.
Qed.

(** *** Backups *)

Lemma getBackups_eq m :
  getBackups m =
  let r := request "GET" "/file" None m in
  let m1 := with_wire_step (reply_latency (wire m (http_trace m) r)) r m in
  match answer "/file" m with
  | inl _ => (Value [], m1)
  | inr resp =>
      match resp_data resp with
      | JArr files =>
          match backup_files files with
          | inl _ => (Value [], m1)
          | inr kept => (Value kept, m1)
          end
      | _ => (Value [], m1)
      end
  end.
Proof.
  unfold getBackups, answer, try_catch, bind, axios, ret. simpl.
  destruct (reply_result
              (wire m (http_trace m) (request "GET" "/file" None m)))
    as [e|resp]; [reflexivity|].
  destruct (resp_data resp) as [|s|o|files]; try reflexivity.
  simpl. destruct (backup_files files); reflexivity.
Qed.

Lemma backup_files_named files :
  Forall named files -> backup_files files = inr (filter is_backup files).
Proof.
  induction 1 as [|f rest N _ IH]; simpl; [reflexivity|].
  unfold is_backup, named in *.
  destruct (get_field "name" f) as [name|]; [|contradiction].
  rewrite IH. reflexivity.
Qed.

Lemma backup_files_nameless files :
  Exists (fun f => get_field "name" f = None) files ->
  exists e, backup_files files = inl e.
Proof.
  induction 1 as [f rest N|f rest _ IH]; simpl.
  - rewrite N. eexists. reflexivity.
  - destruct (get_field "name" f); [|eexists; reflexivity].
    destruct IH as [e ->]. eexists. reflexivity.
Qed.

(** X12.  [getBackups] asks the controller on every call and never
    throws.  From a file list in which every entry has a name it
    returns the entries whose name contains [.backup], in the order of
    the list.  One entry without a name anywhere in the list makes the
    whole result the empty list: the [TypeError] raised on
    [f.name.includes] is caught with everything else. *)
Theorem nameless_file_hides_every_backup :
  forall m resp files,
    answer "/file" m = inr resp ->
    resp_data resp = JArr files ->
    http_trace (snd (getBackups m))
    = http_trace m ++ [request "GET" "/file" None m]
    /\ cache (snd (getBackups m)) = cache m
    /\ (Forall named files ->
        fst (getBackups m) = Value (filter is_backup files))
    /\ (Exists (fun f => get_field "name" f = None) files ->
        fst (getBackups m) = Value []).
Proof.
  intros m resp files A D. rewrite getBackups_eq, A, D. cbv zeta.
  split; [destruct (backup_files files); reflexivity|].
  split; [destruct (backup_files files); reflexivity|].
  split.
  - intros N. rewrite (backup_files_named _ N). reflexivity.
  - intros N. destruct (backup_files_nameless _ N) as [e ->]. reflexivity.
Qed.

Lemma nameless_file_hides_every_backup_witness :
  fst (getBackups (constructor router 1700000000000 files_wire)) = Value [].
Proof.
  destruct (nameless_file_hides_every_backup
              (constructor router 1700000000000 files_wire)
              (mkResponse 200
                 (JArr [[("name", "monday.backup"); ("size", "4096")];
                        [("size", "12")]]%string))
              [[("name", "monday.backup"); ("size", "4096")];
               [("size", "12")]]%string eq_refl eq_refl)
    as [_ [_ [_ H]]].
  apply H. right. left. reflexivity.
Defined.

(** *** Connected clients *)







End MikrotikExtra.
(* ===================================================================== *)
(** ** Properties of the routes *)
(* ===================================================================== *)

Module RoutesExtra.
Import MultiSite MultiSiteSpec MultiSiteMore MultiSiteExtraSpec.
Import Routes RoutesSpec.
Import PromiseFacts MultiSiteProofs MultiSiteExtra.

(** *** Registration through the API *)



(** *** Updating a user through the API *)

Lemma update_remote_user_route id username b s t d :
  exists e, update_remote_user id username (route_updates b s) t d = inl e.
Proof. eexists. reflexivity. Qed.

Lemma update_remote_user_empty id username t d :
  exists e, update_remote_user id username [] t d = inl e.
Proof. eexists. reflexivity. Qed.

(** With updates the database refuses, [updateRemoteUser] throws; and
    when the controller had accepted the change, nothing is sent after
    it. *)
Lemma updateRemoteUser_refused id username updates w :
  (forall t d, exists e, update_remote_user id username updates t d = inl e) ->
  throws (updateRemoteUser id username updates) w
  /\ forall listed w1 u d w2,
       list_call id w = (Value listed, w1) ->
       json_find "users" "name" username listed = inr (Some u) ->
       put_call id u updates w1 = (Value d, w2) ->
       http_trace (snd (updateRemoteUser id username updates w))
       = http_trace w2.
Proof.
  intros Refused. unfold throws. rewrite updateRemoteUser_eq. split.
  -
    destruct (list_call id w) as [[listed|e] w1];
      [|eexists; eexists; reflexivity].
    destruct (json_find "users" "name" username listed) as [e|[u|]];
      [eexists; eexists; reflexivity| |eexists; eexists; reflexivity].
    destruct (put_call id u updates w1) as [[d|e] w2];
      [|eexists; eexists; reflexivity].
    destruct (hd None (db_faults w2)); [eexists; eexists; reflexivity|].
    destruct (Refused (clock w2) (db w2)) as [e ->].
    eexists; eexists; reflexivity.
  - intros listed w1 u d w2 L F P. rewrite L, F, P.
    destruct (hd None (db_faults w2)); [reflexivity|].
    destruct (Refused (clock w2) (db w2)) as [e ->]. reflexivity.
Qed.

(** X15.  [PUT /:id/users/:username] never answers 200.  The route
    hands the keys [limit-bytes-out] and [limit-uptime] to
    [updateRemoteUser], which names them as columns in its [UPDATE] of
    the mirror; the database refuses that statement, so the call
    throws also when the site had listed the user and accepted the
    change.  In that case the change stays on the site: the last
    request sent is the [PUT], the mirror is as before, and the answer
    is 500.  The same holds for [updateRemoteUser] with no updates, for
    which the statement has an empty [SET]. *)
Theorem put_user_route_never_answers_200 :
  forall id username b s w,
    res_status (fst (put_user id username b s w)) = 500
    /\ remote_users (db (snd (put_user id username b s w)))
       = remote_users (db w)
    /\ (forall listed w1 u d w2,
          list_call id w = (Value listed, w1) ->
          json_find "users" "name" username listed = inr (Some u) ->
          put_call id u (route_updates b s) w1 = (Value d, w2) ->
          http_trace (snd (put_user id username b s w)) = http_trace w2)
    /\ throws (updateRemoteUser id username []) w.
Proof.
  intros id username b s w.
  destruct (updateRemoteUser_refused id username (route_updates b s) w
              (update_remote_user_route id username b s))
    as [[e [w' T]] Tr].
  assert (P : put_user id username b s w
              = (mkApiResponse 500 (inl (message e)), w')).
  { unfold put_user, respond. fold (route_updates b s). rewrite T.
    reflexivity. }
  rewrite P. simpl. split; [reflexivity|]. split; [|split].
  - apply (updateRemoteUser_failure _ _ _ _ _ _ T).
  - intros listed w1 u d w2 L F C.
    rewrite <- (Tr listed w1 u d w2 L F C), T. reflexivity.
  - apply updateRemoteUser_refused. apply update_remote_user_empty.
Qed.

Lemma put_user_route_never_answers_200_witness :
  res_status (fst (put_user 1 "alice" 5 60 obliging)) = 500
  /\ map req_method (http_trace (snd (put_user 1 "alice" 5 60 obliging)))
     = ["GET"; "PUT"]%string.
Proof.
  split.
  - destruct (put_user_route_never_answers_200 1 "alice" 5 60 obliging)
      as [S _].
    exact S.
  - vm_compute. reflexivity.
Defined.

(** *** The read routes *)

(** X16.  The five read routes of a site never answer 500: the calls
    behind them catch every error and resolve to an empty value.  So a
    site that no read call gets through to, because it is not
    registered, is local, does not answer, or because the database
    rejects the lookup, is answered like a site with no users, no
    statistics, no access points, no clients and no router info; and
    none of these routes changes the registry or the mirror. *)
Theorem read_routes_never_answer_500 :
  forall id username apName w,
    (res_status (fst (get_users id w)) = 200
     /\ res_status (fst (get_stats id username w)) = 200
     /\ res_status (fst (get_aps id w)) = 200
     /\ res_status (fst (get_clients id apName w)) = 200
     /\ res_status (fst (get_router_info id w)) = 200)
    /\ (keeps_registry_and_mirror w (snd (get_users id w))
        /\ keeps_registry_and_mirror w (snd (get_stats id username w))
        /\ keeps_registry_and_mirror w (snd (get_aps id w))
        /\ keeps_registry_and_mirror w (snd (get_clients id apName w))
        /\ keeps_registry_and_mirror w (snd (get_router_info id w)))
    /\ (no_read_gets_through id w ->
        res_body (fst (get_users id w)) = inr (JArr [])
        /\ res_body (fst (get_stats id username w)) = inr JNull
        /\ res_body (fst (get_aps id w)) = inr []
        /\ res_body (fst (get_clients id apName w))
           = inr (mkClientList apName 0 [])
        /\ res_body (fst (get_router_info id w)) = inr None).
Proof.
  intros id username apName w.
  destruct (getRemoteUsers_total id w) as [v1 [w1 [E1 [K1 N1]]]].
  destruct (getRemoteQueueStats_total id username w)
    as [v2 [w2 [E2 [K2 N2]]]].
  destruct (getRemoteAPs_total id w) as [v3 [w3 [E3 [K3 N3]]]].
  destruct (getRemoteAPClients_total id apName w)
    as [v4 [w4 [E4 [K4 N4]]]].
  destruct (getRemoteRouterInfo_total id w) as [v5 [w5 [E5 [K5 N5]]]].
  unfold get_users, get_stats, get_aps, get_clients, get_router_info,
    respond.
  rewrite E1, E2, E3, E4, E5. simpl.
  split; [repeat split|].
  split; [exact (conj K1 (conj K2 (conj K3 (conj K4 K5))))|].
  intros N.
  rewrite (N1 (N _)), (N2 (N _)), (N3 (N _)), (N4 (N _)), (N5 (N _)).
  repeat split.
Qed.

Lemma read_routes_never_answer_500_witness :
  res_status (fst (get_users 2 fleet)) = 200
  /\ res_body (fst (get_users 2 fleet)) = inr (JArr [])
  /\ res_body (fst (get_clients 4 "wlan1" fleet))
     = inr (mkClientList "wlan1" 0 []).
Proof.
  destruct (read_routes_never_answer_500 2 "alice" "wlan1" fleet)
    as [[S _] [_ B]].
  destruct (read_routes_never_answer_500 4 "alice" "wlan1" fleet)
    as [_ [_ L]].
  split; [exact S|]. split.
  - apply B. intros endpoint. eexists; eexists. vm_compute. reflexivity.
  - apply L. intros endpoint. eexists; eexists. vm_compute. reflexivity.
Defined.


(** *** The fan-out routes *)

(** X17.  The two fan-out routes answer 200 with [success: true] for
    every array of site ids, whatever happens on the sites: the
    failures are in the entries, one entry per requested id in the
    order of the request, and nowhere else.  [POST /users/sync-all]
    answers 500 exactly if the database rejects the query that selects
    the sites, with the message of the database; otherwise it answers
    200 with one entry per selected site. *)
Theorem fan_out_routes_answer_200_whatever_fails :
  forall username password bw siteIds bandwidthLimit w,
    (exists message entries w',
        post_create_multi username password siteIds bandwidthLimit w
        = (mkApiResponse 200 (inr (mkReport true message entries)), w')
        /\ map so_siteId entries = siteIds)
    /\ (exists message entries w',
           post_update_multi username bw siteIds w
           = (mkApiResponse 200 (inr (mkReport true message entries)), w')
           /\ map so_siteId entries = siteIds)
    /\ match hd None (db_faults w) with
       | Some m =>
           fst (post_sync_all username password bandwidthLimit w)
           = mkApiResponse 500 (inl m)
       | None =>
           exists message entries,
             fst (post_sync_all username password bandwidthLimit w)
             = mkApiResponse 200 (inr (mkReport true message entries))
             /\ map so_siteId entries = select_active_ids (db w)
       end.
Proof.
  intros username password bw siteIds bandwidthLimit w.
  split; [|split].
  - unfold post_create_multi, respond.
    rewrite createUserAcrossMultipleSites_sweep.
    eexists; eexists; eexists. split; [reflexivity|]. simpl.
    apply sweep_sites. intros s w0. apply create_entry_site.
  - unfold post_update_multi, respond.
    rewrite updateBandwidthAcrossMultipleSites_sweep.
    eexists; eexists; eexists. split; [reflexivity|]. simpl.
    apply sweep_sites. intros s w0. apply update_entry_site.
  - unfold post_sync_all, respond, syncUserAcrossAllSites.
    rewrite rethrow_id. unfold bind. rewrite select_cases.
    destruct (hd None (db_faults w)) as [m|]; [reflexivity|].
    rewrite createUserAcrossMultipleSites_sweep.
    eexists; eexists. split; [reflexivity|]. simpl.
    apply sweep_sites. intros s w0. apply create_entry_site.
Qed.

Lemma fan_out_routes_answer_200_whatever_fails_witness :
  exists entries,
    res_body (fst (post_create_multi "alice" "pw" [2; 4] (Some 10) fleet))
    = inr (mkReport true "User 'alice' created across 2 sites" entries)
    /\ map so_success entries = [false; false].
Proof.
  destruct (fan_out_routes_answer_200_whatever_fails "alice" "pw" 10 [2; 4]
              (Some 10) fleet) as [[message [entries [w' [E _]]]] _].
  assert (V : fst (post_create_multi "alice" "pw" [2; 4] (Some 10) fleet)
              = mkApiResponse 200
                  (inr (mkReport true "User 'alice' created across 2 sites"
                          [failure_entry 2
                             (mkError "timeout of 10000ms exceeded");
                           failure_entry 4 not_remote_error]))).
  { vm_compute. reflexivity. }
  rewrite E in V. simpl in V. injection V as -> ->.
  eexists. rewrite E. split; reflexivity.
Defined.

End RoutesExtra.
